(** * The Neon driver of the Postgres adapter

    A shallow embedding of [src/adapter-postgres/drivers/neon.ts]: the
    adapter operations are written in a small state-and-exception monad over
    a world that holds the database, the dedicated connection of the
    transaction wrapper, the trace of the calls made to the two external
    collaborators, and a plan of injected failures. *)

From Stdlib Require Import ZArith Strings.String List Bool Lia.
From stdpp Require Import base option list gmap strings fin_maps pretty.

Local Open Scope string_scope.
Local Open Scope list_scope.

(** ** JavaScript values

    Thrown values are arbitrary JavaScript values: the handlers of the
    adapter read [code] and [detail] from whatever was thrown. Objects are
    plain data (own properties, in insertion order); [JError] stands for an
    instance of a built-in error class, which owns [name] and [message]. *)

#[warnings="-register-all"]
Inductive jsval :=
| JUndefined
| JNull
| JBool (b : bool)
| JNum (n : Z)
| JStr (s : string)
| JArr (items : list jsval)
| JObj (props : list (string * jsval))
| JError (name message : string).

(** The completion of an evaluation: a value, or a thrown value. A settled
    promise is the same thing (fulfilled or rejected). *)
Inductive outcome (A : Type) :=
| Ok (a : A)
| Throw (e : jsval).
Arguments Ok {A} a.
Arguments Throw {A} e.

Definition promise (A : Type) := outcome A.

Definition TypeError (message : string) : jsval := JError "TypeError" message.
Definition Error (message : string) : jsval := JError "Error" message.

Fixpoint own_prop (props : list (string * jsval)) (p : string) : option jsval :=
  match props with
  | [] => None
  | (k, v) :: rest => if String.eqb k p then Some v else own_prop rest p
  end.

(** [v.p] for the two properties the adapter reads ([code], [detail]):
    reading a property of [undefined] or [null] throws a TypeError, a
    primitive or an array has neither property, an object gives its own
    property or [undefined]. *)
Definition get_prop (v : jsval) (p : string) : outcome jsval :=
  match v with
  | JUndefined => Throw (TypeError ("Cannot read properties of undefined (reading '" +:+ p +:+ "')"))
  | JNull => Throw (TypeError ("Cannot read properties of null (reading '" +:+ p +:+ "')"))
  | JObj props => Ok (default JUndefined (own_prop props p))
  | JError name message =>
      Ok (if String.eqb p "name" then JStr name
          else if String.eqb p "message" then JStr message
          else JUndefined)
  | _ => Ok JUndefined
  end.

(** [v === s] for a string literal [s]. *)
Definition strict_eq_str (v : jsval) (s : string) : bool :=
  match v with
  | JStr s' => String.eqb s' s
  | _ => false
  end.

(** [String.prototype.includes]. *)
Fixpoint includes (s sub : string) : bool :=
  String.prefix sub s ||
  match s with
  | EmptyString => false
  | String _ s' => includes s' sub
  end.

(** [d?.includes(sub)]: [undefined] when [d] is nullish, the substring test
    on a string, the membership test on an array, and a TypeError for any
    other value, on which [includes] is not a function. *)
Definition optional_includes (d : jsval) (sub : string) : outcome jsval :=
  match d with
  | JUndefined | JNull => Ok JUndefined
  | JStr s => Ok (JBool (includes s sub))
  | JArr items => Ok (JBool (existsb (fun x => strict_eq_str x sub) items))
  | _ => Throw (TypeError "error.detail?.includes is not a function")
  end.

Definition truthy (v : jsval) : bool :=
  match v with
  | JUndefined | JNull => false
  | JBool b => b
  | JNum n => negb (n =? 0)%Z
  | JStr s => negb (String.eqb s "")
  | _ => true
  end.

(** ** SQL values, rows and statements *)

Inductive sqlval :=
| SqlNull
| SqlBool (b : bool)
| SqlInt (n : Z)
| SqlText (s : string).

Global Instance sqlval_eq_dec : EqDecision sqlval.
Proof. solve_decision. Defined.

(** A row, and every object handed to the adapter (a user, a session, a
    key, a partial update), maps column names to values. *)
Abbreviation row := (gmap string sqlval).

(** Modelled from the spec: [escapeName], the identifier-escaping helper of
    [../utils], absent from the source. An escaped identifier denotes the
    name it was built from. *)
Inductive ident := Escaped (name : string).

Definition escapeName (val : string) : ident := Escaped val.
Definition ident_name (i : ident) : string := match i with Escaped n => n end.

(** The positional placeholder [$n]. *)
Inductive placeholder := Dollar (n : nat).

(** The statements the adapter sends, one constructor per SQL template of
    the source, with the interpolated parts as arguments. *)
Inductive stmt :=
| SelectWhere (t : ident) (column : string) (p : placeholder)
    (* SELECT * FROM t WHERE column = p *)
| SelectUserJoin (u s : ident) (p : placeholder)
    (* SELECT u.*, s.id as __session_id FROM s INNER JOIN u
       ON u.id = s.user_id WHERE s.id = p *)
| InsertInto (t : ident) (fields : list ident) (values : list placeholder)
    (* INSERT INTO t ( fields ) VALUES ( values ) *)
| UpdateSet (t : ident) (sets : list (ident * option placeholder))
    (column : string) (p : placeholder)
    (* UPDATE t SET sets WHERE column = p *)
| DeleteWhere (t : ident) (column : string) (p : placeholder)
    (* DELETE FROM t WHERE column = p *)
| Begin
| Commit
| Rollback.

(** Modelled from the spec: [helper], the fragment builder of [../utils],
    absent from the source. From an object it gives the escaped column
    names, the placeholders [$1 .. $n] and the values, in the same order. *)
Definition helper (values : row) : list ident * list placeholder * list sqlval :=
  let entries := map_to_list values in
  (escapeName <$> entries.*1,
   imap (fun i _ => Dollar (i + 1)) entries,
   entries.*2).

(** Modelled from the spec: [getSetArgs], the [field = value] list builder
    of [../utils], absent from the source. The i-th field is paired with the
    i-th placeholder. *)
Definition getSetArgs (fields : list ident) (values : list placeholder)
  : list (ident * option placeholder) :=
  imap (fun i field => (field, values !! i)) fields.

(** ** The table configuration *)

Record Tables := {
  user : string;
  session : option string;   (* absent in [TableWithoutSession] *)
  key : string
}.

(** ** The database

    The external collaborator behind both execution facilities. A database
    maps table names to their rows. Its schema is the one of section 3 of
    the specification: in the user, session and key tables [id] is a
    primary key (not null, unique), and in the session and key tables
    [user_id] is a not-null foreign key to the [id] of the user table. A
    statement that would break a constraint fails with the SQLSTATE code and
    the detail text of Postgres, and a failed statement changes nothing. *)

Abbreviation database := (gmap string (list row)).

Definition pg_error (code detail : string) : jsval :=
  JObj [("name", JStr "error"); ("code", JStr code); ("detail", JStr detail)].

Definition render (v : sqlval) : string :=
  match v with
  | SqlNull => "null"
  | SqlBool b => if b then "t" else "f"
  | SqlInt n => pretty n
  | SqlText s => s
  end.

(** A column that a row does not hold reads as NULL. *)
Definition col (c : string) (r : row) : sqlval := default SqlNull (r !! c).

Definition is_null (v : sqlval) : bool :=
  match v with SqlNull => true | _ => false end.

(** SQL equality in a WHERE or ON clause: never true on NULL. *)
Definition sql_eq (a b : sqlval) : bool :=
  negb (is_null a) && negb (is_null b) && bool_decide (a = b).

Definition matching (c : string) (v : sqlval) (r : row) : bool :=
  sql_eq (col c r) v.

Definition table_rows (d : database) (t : string) : list row :=
  default [] (d !! t).

Fixpoint first_dup (l : list sqlval) : option sqlval :=
  match l with
  | [] => None
  | v :: l' => if bool_decide (v ∈ l') then Some v else first_dup l'
  end.

(** [$n] against the bound arguments. *)
Definition param (args : list sqlval) (p : placeholder) : option sqlval :=
  match p with
  | Dollar 0 => None
  | Dollar (S i) => args !! i
  end.

Definition syntax_error : jsval := pg_error "42601" "syntax error".
Definition undefined_table : jsval := pg_error "42P01" "relation does not exist".
Definition missing_parameter : jsval := pg_error "08P01" "there is no such parameter".

(** The row an UPDATE writes: the assignments applied to the old row. *)
Definition assign (sets : list (string * sqlval)) (r : row) : row :=
  foldr (fun cv acc => <[cv.1 := cv.2]> acc) r sets.

(** The rows of the join of [SelectUserJoin]. *)
Definition join_rows (users sessions : list row) (v : sqlval) : list row :=
  flat_map
    (fun s =>
       if matching "id" v s
       then (fun u => <["__session_id" := col "id" s]> u)
              <$> List.filter (matching "id" (col "user_id" s)) users
       else [])
    sessions.

Section Schema.

Variable tables : Tables.

(** The tables that hold an entity, and among them the ones whose rows
    refer to a user. *)
Definition entity_tables : list string :=
  user tables :: key tables :: option_list (session tables).
Definition child_tables : list string :=
  key tables :: option_list (session tables).

Definition null_in (c : string) (d : database) (t : string) : bool :=
  existsb (fun r => is_null (col c r)) (table_rows d t).

Definition dup_in (d : database) (t : string) : option sqlval :=
  first_dup (col "id" <$> table_rows d t).

Definition dangling_in (d : database) (t : string) : option sqlval :=
  col "user_id" <$>
    List.find
      (fun r => negb (existsb (sql_eq (col "user_id" r))
                        (col "id" <$> table_rows d (user tables))))
      (table_rows d t).

Fixpoint first_some {A B : Type} (f : A -> option B) (l : list A) : option B :=
  match l with
  | [] => None
  | a :: l' => match f a with Some b => Some b | None => first_some f l' end
  end.

(** The constraint that database [d] breaks, if any, as the error a
    statement on table [target] reports: not-null first, then uniqueness,
    then the foreign key. *)
Definition violation (target : string) (d : database) : option jsval :=
  if existsb (null_in "id" d) entity_tables
     || existsb (null_in "user_id" d) child_tables
  then Some (pg_error "23502" "Failing row contains a null value.")
  else
    match first_some (dup_in d) entity_tables with
    | Some v => Some (pg_error "23505" ("Key (id)=(" +:+ render v +:+ ") already exists."))
    | None =>
        match first_some (dangling_in d) child_tables with
        | Some v =>
            Some (pg_error "23503"
                    (if String.eqb target (user tables)
                     then "Key (id)=(" +:+ render v +:+ ") is still referenced."
                     else "Key (user_id)=(" +:+ render v +:+ ") is not present in the user table."))
        | None => None
        end
    end.

Definition db_ok (d : database) : bool :=
  match violation "" d with None => true | Some _ => false end.

(** Replace the rows of table [t], unless a constraint forbids it. *)
Definition write (d : database) (t : string) (rows : list row)
  : outcome (list row * database) :=
  let d' := <[t := rows]> d in
  match violation t d' with
  | Some e => Throw e
  | None => Ok ([], d')
  end.

Definition resolve_sets (args : list sqlval) (sets : list (ident * option placeholder))
  : option (list (string * sqlval)) :=
  mapM (fun fp => v ← (fp.2 ≫= param args); Some (ident_name fp.1, v)) sets.

(** One statement against database [d]: the rows it returns and the
    database it leaves, or the error it fails with. *)
Definition exec_stmt (d : database) (s : stmt) (args : list sqlval)
  : outcome (list row * database) :=
  match s with
  | SelectWhere t c p =>
      match d !! ident_name t, param args p with
      | None, _ => Throw undefined_table
      | _, None => Throw missing_parameter
      | Some rows, Some v => Ok (List.filter (matching c v) rows, d)
      end
  | SelectUserJoin u s p =>
      match d !! ident_name u, d !! ident_name s, param args p with
      | None, _, _ | _, None, _ => Throw undefined_table
      | _, _, None => Throw missing_parameter
      | Some users, Some sessions, Some v => Ok (join_rows users sessions v, d)
      end
  | InsertInto t fields values =>
      match d !! ident_name t with
      | None => Throw undefined_table
      | Some rows =>
          if bool_decide (fields = []) || negb (length fields =? length values)%nat
          then Throw syntax_error
          else
            match mapM (param args) values with
            | None => Throw missing_parameter
            | Some vs =>
                write d (ident_name t)
                  (rows ++ [list_to_map (zip (ident_name <$> fields) vs)])
            end
      end
  | UpdateSet t sets c p =>
      match d !! ident_name t with
      | None => Throw undefined_table
      | Some rows =>
          if bool_decide (sets = []) || existsb (fun fp => bool_decide (fp.2 = None)) sets
          then Throw syntax_error
          else
            match resolve_sets args sets, param args p with
            | Some sets', Some v =>
                write d (ident_name t)
                  ((fun r => if matching c v r then assign sets' r else r) <$> rows)
            | _, _ => Throw missing_parameter
            end
      end
  | DeleteWhere t c p =>
      match d !! ident_name t, param args p with
      | None, _ => Throw undefined_table
      | _, None => Throw missing_parameter
      | Some rows, Some v =>
          write d (ident_name t) (List.filter (fun r => negb (matching c v r)) rows)
      end
  | Begin | Commit | Rollback => Ok ([], d)
  end.

End Schema.

(** ** The world and the monad of the adapter

    [db] is the committed database. [conns] counts the dedicated
    connections that are open and [tx] is the working copy of the
    transaction open on the dedicated connection, if any. [trace] records
    every call made to the SQL execution facility and to the transactional
    connection. [faults] is the plan of injected failures: each call that
    can fail takes the head of the plan, and [Some e] makes that call reject
    with [e] without touching the database (a lost connection, a timeout),
    whatever the statement would have done. *)

Inductive event :=
| SqlQuery (s : stmt) (args : list sqlval)      (* sql(s, args) *)
| Connect                                       (* client.connect() *)
| ClientQuery (s : stmt) (args : list sqlval)   (* client.query(s, args) *)
| End.                                          (* client.end() *)

Record world := World {
  db : database;
  conns : nat;
  tx : option database;
  trace : list event;
  faults : list (option jsval)
}.

Definition log (ev : event) (w : world) : world :=
  World (db w) (conns w) (tx w) (trace w ++ [ev]) (faults w).

Definition next_fault (w : world) : option jsval * world :=
  match faults w with
  | [] => (None, w)
  | f :: rest => (f, World (db w) (conns w) (tx w) (trace w) rest)
  end.

Definition M (A : Type) : Type := world -> outcome A * world.

Definition ret {A} (a : A) : M A := fun w => (Ok a, w).

Definition bind {A B} (m : M A) (k : A -> M B) : M B :=
  fun w =>
    match m w with
    | (Ok a, w') => k a w'
    | (Throw e, w') => (Throw e, w')
    end.

Definition throw {A} (e : jsval) : M A := fun w => (Throw e, w).

(** [await p] on a settled promise. *)
Definition await {A} (p : promise A) : M A := fun w => (p, w).

(** [try { body } catch (e) { handler e }]. *)
Definition try_catch {A} (body : M A) (handler : jsval -> M A) : M A :=
  fun w =>
    match body w with
    | (Ok a, w') => (Ok a, w')
    | (Throw e, w') => handler e w'
    end.

(** [try { body } finally { cleanup }]: the completion of [body] stands
    unless [cleanup] throws. *)
Definition try_finally {A} (body : M A) (cleanup : M unit) : M A :=
  fun w =>
    match body w with
    | (r, w') =>
        match cleanup w' with
        | (Ok _, w'') => (r, w'')
        | (Throw e, w'') => (Throw e, w'')
        end
    end.

Declare Scope adapter_scope.
Delimit Scope adapter_scope with adapter.
Notation "'let!' x ':=' m 'in' k" := (bind m (fun x => k))
  (at level 10, x pattern, m at level 100, k at level 200) : adapter_scope.
Local Open Scope adapter_scope.

(** [Promise.all([p, q])]. *)
Definition Promise_all {A B} (p : promise A) (q : promise B) : promise (A * B) :=
  match p, q with
  | Ok a, Ok b => Ok (a, b)
  | Throw e, _ => Throw e
  | Ok _, Throw e => Throw e
  end.

(** [get]: the first row of the result, or null. *)
Definition get {A} (queryPromise : promise (list A)) : promise (option A) :=
  match queryPromise with
  | Ok rows => Ok (head rows)
  | Throw e => Throw e
  end.

Definition getAll {A} (queryPromise : promise (list A)) : promise (list A) :=
  queryPromise.

(** The handle of the dedicated connection, [new Client(connectionUrl)]. *)
Inductive Client := new_Client.

(** ** A small installation, for the examples *)

Definition example_tables : Tables :=
  {| user := "auth_user"; session := Some "user_session"; key := "user_key" |}.

Definition tables_without_session : Tables :=
  {| user := "auth_user"; session := None; key := "user_key" |}.

Definition example_LuciaError (kind : string) : jsval :=
  JObj [("name", JStr "LuciaError"); ("message", JStr kind)].

(** A transform that leaves the session row as it is. *)
Definition keep_row (r : row) : row := r.

Definition alice : row :=
  <["id" := SqlText "u1"]> (<["name" := SqlText "Ann"]> ∅).

Definition alice_key : row :=
  <["id" := SqlText "email:a@b.com"]> (<["user_id" := SqlText "u1"]> ∅).

Definition other_key : row :=
  <["id" := SqlText "github:1"]> (<["user_id" := SqlText "u1"]> ∅).

Definition orphan_key : row :=
  <["id" := SqlText "github:2"]> (<["user_id" := SqlText "missing"]> ∅).

Definition alice_session : row :=
  <["id" := SqlText "s1"]>
    (<["user_id" := SqlText "u1"]> (<["active_expires" := SqlInt 5]> ∅)).

Definition empty_db : database :=
  <["auth_user" := []]> (<["user_session" := []]> (<["user_key" := []]> ∅)).

Definition db_with_alice : database :=
  <["auth_user" := [alice]]>
    (<["user_session" := [alice_session]]> (<["user_key" := [alice_key]]> ∅)).

(** A world with no connection open, nothing sent yet, and the given plan
    of injected failures. *)
Definition world_of (d : database) (plan : list (option jsval)) : world :=
  World d 0 None [] plan.

(** A configuration whose session table name is the empty string. *)
Definition tables_with_empty_session_name : Tables :=
  {| user := "auth_user"; session := Some ""; key := "user_key" |}.

(** A second user, with no key and no session stored. *)
Definition bob : row :=
  <["id" := SqlText "u2"]> (<["name" := SqlText "Bob"]> ∅).

Definition bob_key : row :=
  <["id" := SqlText "email:b@c.com"]> (<["user_id" := SqlText "u2"]> ∅).

Definition bob_session : row :=
  <["id" := SqlText "s2"]>
    (<["user_id" := SqlText "u2"]> (<["active_expires" := SqlInt 9]> ∅)).

Definition db_with_alice_and_bob : database :=
  <["auth_user" := [alice; bob]]>
    (<["user_session" := [alice_session]]> (<["user_key" := [alice_key]]> ∅)).

(** A partial object that renames. *)
Definition new_name : row := <["name" := SqlText "Anna"]> ∅.



Section Adapter.

Local Set Default Proof Using "Type".

(** The table names given to [neonAdapter], the error constructor the
    calling library supplies, and the session transform of [../utils],
    which is absent from the source and left as a parameter. The
    connection url only names the database, which the world holds. *)
Variable tables : Tables.
Variable LuciaError : string -> jsval.
Variable transformDatabaseSession : row -> row.

(** *** The SQL execution facility, [sql = neon(connectionUrl)]

    Each call is one statement in its own implicit transaction against the
    committed database. The call starts the query and returns its promise. *)
Definition sql (s : stmt) (args : list sqlval) : M (promise (list row)) :=
  fun w =>
    match next_fault (log (SqlQuery s args) w) with
    | (Some e, w') => (Ok (Throw e), w')
    | (None, w') =>
        match exec_stmt tables (db w') s args with
        | Ok (rows, d) =>
            (Ok (Ok rows), World d (conns w') (tx w') (trace w') (faults w'))
        | Throw e => (Ok (Throw e), w')
        end
    end.

(** *** The transactional connection

    BEGIN opens a working copy of the committed database, the statements
    that follow run on the copy, COMMIT installs it and ROLLBACK drops it;
    closing the connection drops a copy that was not committed. [end] does
    not reject. The state in which Postgres refuses every statement after a
    failure inside a transaction is left out: [transaction] sends nothing
    but ROLLBACK after a failure. *)
Definition client_connect (client : Client) : M (promise unit) :=
  fun w =>
    match next_fault (log Connect w) with
    | (Some e, w') => (Ok (Throw e), w')
    | (None, w') =>
        (Ok (Ok tt), World (db w') (S (conns w')) None (trace w') (faults w'))
    end.

Definition client_query (client : Client) (s : stmt) (args : list sqlval)
  : M (promise (list row)) :=
  fun w =>
    match next_fault (log (ClientQuery s args) w) with
    | (Some e, w') => (Ok (Throw e), w')
    | (None, w') =>
        match s, tx w' with
        | Begin, None =>
            (Ok (Ok []), World (db w') (conns w') (Some (db w')) (trace w') (faults w'))
        | Begin, Some _ => (Ok (Ok []), w')
        | Commit, Some d =>
            (Ok (Ok []), World d (conns w') None (trace w') (faults w'))
        | Commit, None => (Ok (Ok []), w')
        | Rollback, _ =>
            (Ok (Ok []), World (db w') (conns w') None (trace w') (faults w'))
        | _, Some d =>
            match exec_stmt tables d s args with
            | Ok (rows, d') =>
                (Ok (Ok rows), World (db w') (conns w') (Some d') (trace w') (faults w'))
            | Throw e => (Ok (Throw e), w')
            end
        | _, None =>
            match exec_stmt tables (db w') s args with
            | Ok (rows, d') =>
                (Ok (Ok rows), World d' (conns w') None (trace w') (faults w'))
            | Throw e => (Ok (Throw e), w')
            end
        end
    end.

Definition client_end (client : Client) : M (promise unit) :=
  fun w =>
    (Ok (Ok tt), World (db w) (pred (conns w)) None (trace w ++ [End]) (faults w)).

(** *** [neonAdapter] *)

(** The try block of [transaction]. *)
Definition transaction_try (execute : Client -> M unit) (client : Client) : M unit :=
  let! began := client_query client Begin [] in
  let! _ := await began in
  let! _ := execute client in
  let! committed := client_query client Commit [] in
  let! _ := await committed in
  ret tt.

Definition transaction (execute : Client -> M unit) : M unit :=
  let client := new_Client in
  let! connected := client_connect client in
  let! _ := await connected in
  try_finally
    (try_catch
       (transaction_try execute client)
       (fun e =>
          let! _ := client_query client Rollback [] in   (* not awaited *)
          throw e))
    (let! ended := client_end client in await ended).

Definition ESCAPED_USER_TABLE_NAME : ident := escapeName (user tables).

(** [tables.session ? escapeName(tables.session) : null]: a missing and an
    empty session table name are both falsy. *)
Definition ESCAPED_SESSION_TABLE_NAME : option ident :=
  match session tables with
  | Some name => if String.eqb name "" then None else Some (escapeName name)
  | None => None
  end.

Definition ESCAPED_KEY_TABLE_NAME : ident := escapeName (key tables).

(** The test of the catch handlers,
    [error.code === code && error.detail?.includes(sub)]. *)
Definition code_and_detail (error : jsval) (code sub : string) : M bool :=
  let! c := await (get_prop error "code") in
  if strict_eq_str c code
  then
    let! detail := await (get_prop error "detail") in
    let! included := await (optional_includes detail sub) in
    ret (truthy included)
  else ret false.

Definition getUser (userId : sqlval) : M (option row) :=
  let! query := sql (SelectWhere ESCAPED_USER_TABLE_NAME "id" (Dollar 1)) [userId] in
  let! result := await (get query) in
  ret result.

(** The body handed to [transaction] by [setUser]. *)
Definition setUser_execute (user key : row) (client : Client) : M unit :=
  let '(userFields, userValues, userArgs) := helper user in
  let! inserted := client_query client
    (InsertInto ESCAPED_USER_TABLE_NAME userFields userValues) userArgs in
  let! _ := await inserted in
  let '(keyFields, keyValues, keyArgs) := helper key in
  let! inserted := client_query client
    (InsertInto ESCAPED_KEY_TABLE_NAME keyFields keyValues) keyArgs in
  let! _ := await inserted in
  ret tt.

Definition setUser (user : row) (key : option row) : M unit :=
  match key with
  | None =>
      let '(userFields, userValues, userArgs) := helper user in
      let! inserted := sql
        (InsertInto ESCAPED_USER_TABLE_NAME userFields userValues) userArgs in
      let! _ := await inserted in
      ret tt
  | Some key =>
      try_catch
        (transaction (setUser_execute user key))
        (fun e =>
           let error := e in
           let! duplicate := code_and_detail error "23505" "Key (id)" in
           if duplicate then throw (LuciaError "AUTH_DUPLICATE_KEY_ID")
           else throw e)
  end.

Definition deleteUser (userId : sqlval) : M unit :=
  let! deleted := sql (DeleteWhere ESCAPED_USER_TABLE_NAME "id" (Dollar 1)) [userId] in
  let! _ := await deleted in
  ret tt.

Definition updateUser (userId : sqlval) (partialUser : row) : M unit :=
  let '(fields, values, args) := helper partialUser in
  let! updated := sql
    (UpdateSet ESCAPED_USER_TABLE_NAME (getSetArgs fields values)
       "id" (Dollar (length fields + 1)))
    (args ++ [userId]) in
  let! _ := await updated in
  ret tt.

Definition getSession (sessionId : sqlval) : M (option row) :=
  match ESCAPED_SESSION_TABLE_NAME with
  | None => throw (Error "Session table not defined")
  | Some session_table =>
      let! query := sql (SelectWhere session_table "id" (Dollar 1)) [sessionId] in
      let! result := await (get query) in
      ret (match result with
           | Some result => Some (transformDatabaseSession result)
           | None => None
           end)
  end.

Definition getSessionsByUserId (userId : sqlval) : M (list row) :=
  match ESCAPED_SESSION_TABLE_NAME with
  | None => throw (Error "Session table not defined")
  | Some session_table =>
      let! query := sql (SelectWhere session_table "user_id" (Dollar 1)) [userId] in
      let! result := await (getAll query) in
      ret (map (fun val => transformDatabaseSession val) result)
  end.

Definition setSession (session : row) : M unit :=
  match ESCAPED_SESSION_TABLE_NAME with
  | None => throw (Error "Session table not defined")
  | Some session_table =>
      try_catch
        (let '(fields, values, args) := helper session in
         let! inserted := sql (InsertInto session_table fields values) args in
         let! _ := await inserted in
         ret tt)
        (fun e =>
           let error := e in
           let! invalid := code_and_detail error "23503" "Key (user_id)" in
           if invalid then throw (LuciaError "AUTH_INVALID_USER_ID")
           else throw e)
  end.

Definition deleteSession (sessionId : sqlval) : M unit :=
  match ESCAPED_SESSION_TABLE_NAME with
  | None => throw (Error "Session table not defined")
  | Some session_table =>
      let! deleted := sql (DeleteWhere session_table "id" (Dollar 1)) [sessionId] in
      let! _ := await deleted in
      ret tt
  end.

Definition deleteSessionsByUserId (userId : sqlval) : M unit :=
  match ESCAPED_SESSION_TABLE_NAME with
  | None => throw (Error "Session table not defined")
  | Some session_table =>
      let! deleted := sql (DeleteWhere session_table "user_id" (Dollar 1)) [userId] in
      let! _ := await deleted in
      ret tt
  end.

Definition updateSession (sessionId : sqlval) (partialSession : row) : M unit :=
  match ESCAPED_SESSION_TABLE_NAME with
  | None => throw (Error "Session table not defined")
  | Some session_table =>
      let '(fields, values, args) := helper partialSession in
      let! updated := sql
        (UpdateSet session_table (getSetArgs fields values)
           "id" (Dollar (length fields + 1)))
        (args ++ [sessionId]) in
      let! _ := await updated in
      ret tt
  end.

Definition getKey (keyId : sqlval) : M (option row) :=
  let! query := sql (SelectWhere ESCAPED_KEY_TABLE_NAME "id" (Dollar 1)) [keyId] in
  let! result := await (get query) in
  ret result.

Definition getKeysByUserId (userId : sqlval) : M (list row) :=
  let! query := sql (SelectWhere ESCAPED_KEY_TABLE_NAME "user_id" (Dollar 1)) [userId] in
  let result := getAll query in
  await result.

Definition setKey (key : row) : M unit :=
  try_catch
    (let '(fields, values, args) := helper key in
     let! inserted := sql (InsertInto ESCAPED_KEY_TABLE_NAME fields values) args in
     let! _ := await inserted in
     ret tt)
    (fun e =>
       let error := e in
       let! invalid := code_and_detail error "23503" "Key (user_id)" in
       if invalid then throw (LuciaError "AUTH_INVALID_USER_ID")
       else
         let! duplicate := code_and_detail error "23505" "Key (id)" in
         if duplicate then throw (LuciaError "AUTH_DUPLICATE_KEY_ID")
         else throw e).

Definition deleteKey (keyId : sqlval) : M unit :=
  let! deleted := sql (DeleteWhere ESCAPED_KEY_TABLE_NAME "id" (Dollar 1)) [keyId] in
  let! _ := await deleted in
  ret tt.

Definition deleteKeysByUserId (userId : sqlval) : M unit :=
  let! deleted := sql (DeleteWhere ESCAPED_KEY_TABLE_NAME "user_id" (Dollar 1)) [userId] in
  let! _ := await deleted in
  ret tt.

Definition updateKey (keyId : sqlval) (partialKey : row) : M unit :=
  let '(fields, values, args) := helper partialKey in
  let! updated := sql
    (UpdateSet ESCAPED_KEY_TABLE_NAME (getSetArgs fields values)
       "id" (Dollar (length fields + 1)))
    (args ++ [keyId]) in
  let! _ := await updated in
  ret tt.

(** The two lookups are started one after the other and awaited together. *)
Definition getSessionAndUser (sessionId : sqlval) : M (option row * option row) :=
  match ESCAPED_SESSION_TABLE_NAME with
  | None => throw (Error "Session table not defined")
  | Some session_table =>
      let! sessionQuery := sql (SelectWhere session_table "id" (Dollar 1)) [sessionId] in
      let getSessionPromise := get sessionQuery in
      let! joinQuery := sql
        (SelectUserJoin ESCAPED_USER_TABLE_NAME session_table (Dollar 1))
        [sessionId] in
      let getUserFromJoinPromise := get joinQuery in
      let! results := await (Promise_all getSessionPromise getUserFromJoinPromise) in
      match results with
      | (Some sessionResult, Some userFromJoinResult) =>
          let userResult := delete "__session_id" userFromJoinResult in
          ret (Some (transformDatabaseSession sessionResult), Some userResult)
      | _ => ret (None, None)
      end
  end.

(** ** What the claims speak about *)

(** The INSERT of [obj] into table [t], as [setUser], [setSession] and
    [setKey] send it through the SQL execution facility. *)
Definition sql_insert (t : ident) (obj : row) : M (promise (list row)) :=
  let '(fields, values, args) := helper obj in
  sql (InsertInto t fields values) args.

(** The UPDATE of the row [id] of table [t] with the fields of [obj]. *)
Definition sql_update (t : ident) (id : sqlval) (obj : row) : M (promise (list row)) :=
  let '(fields, values, args) := helper obj in
  sql (UpdateSet t (getSetArgs fields values) "id" (Dollar (length fields + 1)))
    (args ++ [id]).

(** [v] owns a property [p]. *)
Definition has_field (v : jsval) (p : string) : bool :=
  match v with
  | JObj props => bool_decide (is_Some (own_prop props p))
  | JError _ _ => String.eqb p "name" || String.eqb p "message"
  | _ => false
  end.

Definition string_or_undefined (v : jsval) : bool :=
  match v with
  | JUndefined | JStr _ => true
  | _ => false
  end.

(** A value of the driver's type [DatabaseError]: an object whose [code]
    and [detail] are each a string or undefined. *)
Definition is_DatabaseError (e : jsval) : bool :=
  match e with
  | JObj props =>
      string_or_undefined (default JUndefined (own_prop props "code"))
      && string_or_undefined (default JUndefined (own_prop props "detail"))
  | _ => false
  end.

(** The words of the specification: an error with code [code] whose detail
    contains [sub]. *)
Definition spec_signals (e : jsval) (code sub : string) : bool :=
  match e with
  | JObj props =>
      match own_prop props "code", own_prop props "detail" with
      | Some (JStr c), Some (JStr d) => String.eqb c code && includes d sub
      | _, _ => false
      end
  | _ => false
  end.

(** The error each operation is specified to raise when the database
    raises [e]. *)
Definition spec_setKey_error (e : jsval) : jsval :=
  if spec_signals e "23503" "Key (user_id)" then LuciaError "AUTH_INVALID_USER_ID"
  else if spec_signals e "23505" "Key (id)" then LuciaError "AUTH_DUPLICATE_KEY_ID"
  else e.

Definition spec_setSession_error (e : jsval) : jsval :=
  if spec_signals e "23503" "Key (user_id)" then LuciaError "AUTH_INVALID_USER_ID"
  else e.

Definition spec_setUser_error (e : jsval) : jsval :=
  if spec_signals e "23505" "Key (id)" then LuciaError "AUTH_DUPLICATE_KEY_ID"
  else e.

(** A thrown value on which the test of a handler for [code] and [sub] is
    specified to find nothing: it lacks [code], it lacks [detail], or its
    detail is a string without [sub]. *)
Definition finds_nothing (e : jsval) (sub : string) : Prop :=
  has_field e "code" = false
  \/ has_field e "detail" = false
  \/ exists d, get_prop e "detail" = Ok (JStr d) /\ includes d sub = false.

Definition nullish (v : jsval) : bool :=
  match v with
  | JUndefined | JNull => true
  | _ => false
  end.

(** No injected failure on the next [n] calls. *)
Fixpoint calm (n : nat) (plan : list (option jsval)) : bool :=
  match n, plan with
  | 0, _ => true
  | S _, [] => true
  | S n', None :: plan' => calm n' plan'
  | S _, Some _ :: _ => false
  end.

(** [op] throws [e] itself whenever its statement [call] rejects with [e]. *)
Definition rethrows {A} (op : M A) (call : M (promise (list row)))
    (e : jsval) (w w' : world) : Prop :=
  call w = (Ok (Throw e), w') -> op w = (Throw e, w').

(** The row an update of [id] with the fields of [obj] makes of [r]. *)
Definition updated_row (id : sqlval) (obj r : row) : row :=
  if matching "id" id r then obj ∪ r else r.

(** The rows [new] are the rows [old] with the fields of [partial] set in
    the rows whose id is [id], and nothing else changed. *)
Definition updated_by (id : sqlval) (partial : row) (old new : list row) : Prop :=
  length new = length old
  /\ forall (i : nat) (r : row),
       old !! i = Some r ->
       exists r' : row,
         new !! i = Some r'
         /\ if matching "id" id r
            then (forall f v, partial !! f = Some v -> r' !! f = Some v)
                 /\ (forall f, partial !! f = None -> r' !! f = r !! f)
            else r' = r.

(** The INSERT statement for [obj], and its arguments. *)
Definition insert_stmt (t : ident) (obj : row) : stmt :=
  InsertInto t (helper obj).1.1 (helper obj).1.2.

Definition insert_args (obj : row) : list sqlval := (helper obj).2.

(** The INSERT of [obj] into [t], run by the database on [d]. *)
Definition run_insert (d : database) (t : ident) (obj : row)
  : outcome (list row * database) :=
  exec_stmt tables d (insert_stmt t obj) (insert_args obj).

(** The calls of a transaction of [setUser] that commits. *)
Definition committed_calls (user key : row) : list event :=
  [Connect;
   ClientQuery Begin [];
   ClientQuery (insert_stmt ESCAPED_USER_TABLE_NAME user) (insert_args user);
   ClientQuery (insert_stmt ESCAPED_KEY_TABLE_NAME key) (insert_args key);
   ClientQuery Commit [];
   End].

(** The reasons for which a transaction of [setUser] throws [e] in world
    [w]: an injected failure on one of its [n] calls, or the user insert
    failing with [e], or the key insert failing with [e] after the user
    insert. *)
Definition failure_cause (n : nat) (user key : row) (w : world) (e : jsval) : Prop :=
  calm n (faults w) = false
  \/ run_insert (db w) ESCAPED_USER_TABLE_NAME user = Throw e
  \/ exists rows d1,
       run_insert (db w) ESCAPED_USER_TABLE_NAME user = Ok (rows, d1)
       /\ run_insert d1 ESCAPED_KEY_TABLE_NAME key = Throw e.

(** The committed database and the working copy of an open transaction
    break no constraint. *)
Definition world_ok (w : world) : Prop :=
  db_ok tables (db w) = true
  /\ forall d, tx w = Some d -> db_ok tables d = true.

(** [m] keeps [world_ok]. *)
Definition preserves {A} (m : M A) : Prop :=
  forall w, world_ok w -> world_ok (m w).2.

(** ** What the further properties speak about *)

(** The UPDATE statement for the fields of [obj], and its arguments for
    the row [id]. *)
Definition update_stmt (t : ident) (obj : row) : stmt :=
  UpdateSet t (getSetArgs (helper obj).1.1 (helper obj).1.2) "id"
    (Dollar (length (helper obj).1.1 + 1)).

Definition update_args (id : sqlval) (obj : row) : list sqlval :=
  (helper obj).2 ++ [id].

(** What an update of the row [id] of table [t] with the fields of
    [partial] does, [result] being what the operation gave in world [w].

    - It sends one statement: the UPDATE of [t] whose assignments are the
      fields of [partial] with their values, no more and no fewer, for the
      rows whose id is [id].
    - If it returned, the table [t] holds the rows it held, with the fields
      of [partial] set in the rows whose id is [id], and the database is
      otherwise as before; if it threw, the database is as before.
    - With no failure injected and the table there, it returns exactly when
      [partial] has a field and the database with the updated rows breaks
      no constraint; it does so in particular when the database breaks no
      constraint and [partial] sets neither id nor user_id. *)
Definition update_effect (t : ident) (id : sqlval) (partial : row)
    (w : world) (result : outcome unit * world) : Prop :=
  trace result.2
  = trace w ++ [SqlQuery (update_stmt t partial) (update_args id partial)]
  /\ (exists sets p,
        update_stmt t partial = UpdateSet t sets "id" p
        /\ resolve_sets (update_args id partial) sets = Some (map_to_list partial)
        /\ param (update_args id partial) p = Some id)
  /\ match result.1 with
     | Ok _ =>
         exists old new : list row,
           db w !! ident_name t = Some old
           /\ db result.2 = <[ident_name t := new]> (db w)
           /\ updated_by id partial old new
     | Throw _ => db result.2 = db w
     end
  /\ forall old : list row,
       calm 1 (faults w) = true ->
       db w !! ident_name t = Some old ->
       (result.1 = Ok tt
        <-> partial <> ∅
            /\ db_ok tables
                 (<[ident_name t := updated_row id partial <$> old]> (db w)) = true)
       /\ (partial <> ∅ ->
           db_ok tables (db w) = true ->
           partial !! "id" = None ->
           partial !! "user_id" = None ->
           result.1 = Ok tt).

(** [op] sends the calls [calls] and nothing else, and leaves the
    committed database, the connections and the open transaction alone. *)
Definition only_reads {A} (op : M A) (calls : list event) (w : world) : Prop :=
  trace (op w).2 = trace w ++ calls
  /\ db (op w).2 = db w
  /\ conns (op w).2 = conns w
  /\ tx (op w).2 = tx w.

(** [op] sends the one call [call] and nothing else, leaves the
    connections and the open transaction alone, and leaves the committed
    database alone when it throws. *)
Definition writes_once {A} (op : M A) (call : event) (w : world) : Prop :=
  trace (op w).2 = trace w ++ [call]
  /\ conns (op w).2 = conns w
  /\ tx (op w).2 = tx w
  /\ forall e, (op w).1 = Throw e -> db (op w).2 = db w.

(** The constraints of the schema, one by one: in the entity tables ids
    are not null and pairwise distinct, and in the session and key tables
    user_id is not null and is the id of a stored user. *)
Definition constraints_hold (d : database) : Prop :=
  (forall t r, t ∈ entity_tables tables -> r ∈ table_rows d t ->
               is_null (col "id" r) = false)
  /\ (forall t r, t ∈ child_tables tables -> r ∈ table_rows d t ->
                  is_null (col "user_id" r) = false)
  /\ (forall t, t ∈ entity_tables tables -> NoDup (col "id" <$> table_rows d t))
  /\ (forall t r, t ∈ child_tables tables -> r ∈ table_rows d t ->
                  col "user_id" r ∈ (col "id" <$> table_rows d (user tables))).

(** The user table is neither the key table nor the session table. *)
Definition user_table_apart : Prop := user tables ∉ child_tables tables.

(** The detail of the uniqueness and foreign-key violations, as the
    database words them. *)
Definition already_exists (v : sqlval) : string :=
  "Key (id)=(" +:+ render v +:+ ") already exists.".

Definition not_present (v : sqlval) : string :=
  "Key (user_id)=(" +:+ render v +:+ ") is not present in the user table.".

(** The calls the library can make to the adapter, and the world a
    sequence of calls leaves, whatever each call returns or throws. *)
Inductive call :=
| GetUser (userId : sqlval)
| SetUser (u : row) (k : option row)
| DeleteUser (userId : sqlval)
| UpdateUser (userId : sqlval) (partialUser : row)
| GetSession (sessionId : sqlval)
| GetSessionsByUserId (userId : sqlval)
| SetSession (s : row)
| DeleteSession (sessionId : sqlval)
| DeleteSessionsByUserId (userId : sqlval)
| UpdateSession (sessionId : sqlval) (partialSession : row)
| GetKey (keyId : sqlval)
| GetKeysByUserId (userId : sqlval)
| SetKey (k : row)
| DeleteKey (keyId : sqlval)
| DeleteKeysByUserId (userId : sqlval)
| UpdateKey (keyId : sqlval) (partialKey : row)
| GetSessionAndUser (sessionId : sqlval).

Definition perform (c : call) (w : world) : world :=
  match c with
  | GetUser userId => (getUser userId w).2
  | SetUser u k => (setUser u k w).2
  | DeleteUser userId => (deleteUser userId w).2
  | UpdateUser userId partialUser => (updateUser userId partialUser w).2
  | GetSession sessionId => (getSession sessionId w).2
  | GetSessionsByUserId userId => (getSessionsByUserId userId w).2
  | SetSession s => (setSession s w).2
  | DeleteSession sessionId => (deleteSession sessionId w).2
  | DeleteSessionsByUserId userId => (deleteSessionsByUserId userId w).2
  | UpdateSession sessionId partialSession => (updateSession sessionId partialSession w).2
  | GetKey keyId => (getKey keyId w).2
  | GetKeysByUserId userId => (getKeysByUserId userId w).2
  | SetKey k => (setKey k w).2
  | DeleteKey keyId => (deleteKey keyId w).2
  | DeleteKeysByUserId userId => (deleteKeysByUserId userId w).2
  | UpdateKey keyId partialKey => (updateKey keyId partialKey w).2
  | GetSessionAndUser sessionId => (getSessionAndUser sessionId w).2
  end.

Definition perform_all (calls : list call) (w : world) : world :=
  foldl (fun w c => perform c w) w calls.

(** [m] leaves as many connections open as it found, and no transaction
    open when it found none. *)
Definition keeps_connections {A} (m : M A) : Prop :=
  forall w, conns (m w).2 = conns w /\ (tx w = None -> tx (m w).2 = None).

(** ** Running the monad *)

Local Arguments String.eqb : simpl never.
Local Arguments includes : simpl never.
Local Arguments exec_stmt : simpl never.

Ltac run := unfold bind, ret, throw, await, try_catch, try_finally in *; simpl.

Lemma code_and_detail_signals (e : jsval) (code sub : string) (w : world) :
  is_DatabaseError e = true ->
  code_and_detail e code sub w = (Ok (spec_signals e code sub), w).
Proof.
  destruct e as [| | | | | |props|]; try discriminate.
  unfold is_DatabaseError, code_and_detail, spec_signals. run.
  destruct (own_prop props "code") as [[]|]; simpl; try discriminate;
    destruct (own_prop props "detail") as [[]|]; simpl; try discriminate;
    intros _; try reflexivity; destruct (String.eqb _ code); reflexivity.
Qed.

Lemma code_and_detail_finds_nothing (e : jsval) (code sub : string) (w : world) :
  nullish e = false ->
  finds_nothing e sub ->
  code_and_detail e code sub w = (Ok false, w).
Proof.
  intros Hn [Hc | [Hd | (d & Hd & Hi)]]; unfold code_and_detail; run.
  - destruct e; try discriminate; simpl in *; try reflexivity.
    apply bool_decide_eq_false in Hc.
    destruct (own_prop props "code"); [exfalso; eauto | reflexivity].
  - destruct e; try discriminate; simpl in *; try reflexivity.
    apply bool_decide_eq_false in Hd.
    destruct (own_prop props "detail"); [exfalso; eauto |].
    simpl. destruct (strict_eq_str _ code); reflexivity.
  - destruct (get_prop e "code") as [c|] eqn:Hcode.
    + destruct (strict_eq_str c code); [| reflexivity].
      rewrite Hd. simpl. rewrite Hi. reflexivity.
    + destruct e; discriminate.
Qed.

Lemma sql_insert_eq (t : ident) (obj : row) :
  sql_insert t obj
  = sql (InsertInto t (helper obj).1.1 (helper obj).1.2) (helper obj).2.
Proof. reflexivity. Qed.

(** ** Configuration errors *)

Lemma no_session_table :
  session tables = None -> ESCAPED_SESSION_TABLE_NAME = None.
Proof. unfold ESCAPED_SESSION_TABLE_NAME. intros ->. reflexivity. Qed.

(** An empty session table name counts as no session table. *)
Lemma empty_session_table :
  session tables = Some "" -> ESCAPED_SESSION_TABLE_NAME = None.
Proof. unfold ESCAPED_SESSION_TABLE_NAME. intros ->. reflexivity. Qed.

(** C3: when no session table is configured, each of the seven session
    operations throws the error "Session table not defined" and leaves the
    world as it found it: nothing was sent to the database (the trace and
    the plan of failures are untouched), and the error is not one of the
    database (it has no [code]). *)
Theorem session_operations_need_session_table
    (w : world) (id : sqlval) (obj : row) :
  session tables = None ->
  let configuration_error := Error "Session table not defined" in
  getSession id w = (Throw configuration_error, w)
  /\ getSessionsByUserId id w = (Throw configuration_error, w)
  /\ setSession obj w = (Throw configuration_error, w)
  /\ deleteSession id w = (Throw configuration_error, w)
  /\ deleteSessionsByUserId id w = (Throw configuration_error, w)
  /\ updateSession id obj w = (Throw configuration_error, w)
  /\ getSessionAndUser id w = (Throw configuration_error, w)
  /\ has_field configuration_error "code" = false
  /\ is_DatabaseError configuration_error = false.
Proof.
  intros Hnone%no_session_table. cbv zeta.
  unfold getSession, getSessionsByUserId, setSession, deleteSession,
    deleteSessionsByUserId, updateSession, getSessionAndUser.
  rewrite Hnone. repeat split.
Qed.

(** ** Error translation *)

(** C2: when the database raises a database error [e], [setKey] raises
    AUTH_INVALID_USER_ID for code 23503 with "Key (user_id)" in the detail
    and AUTH_DUPLICATE_KEY_ID for code 23505 with "Key (id)" in the detail,
    [setSession] raises AUTH_INVALID_USER_ID for the former, [setUser] with
    a key raises AUTH_DUPLICATE_KEY_ID for the latter, and each raises [e]
    itself in every other case. *)
Theorem constraint_errors_are_translated (e : jsval) (w w' : world) :
  is_DatabaseError e = true ->
  (forall key : row,
     sql_insert ESCAPED_KEY_TABLE_NAME key w = (Ok (Throw e), w') ->
     setKey key w = (Throw (spec_setKey_error e), w'))
  /\ (forall (t : ident) (session : row),
        ESCAPED_SESSION_TABLE_NAME = Some t ->
        sql_insert t session w = (Ok (Throw e), w') ->
        setSession session w = (Throw (spec_setSession_error e), w'))
  /\ (forall user key : row,
        transaction (setUser_execute user key) w = (Throw e, w') ->
        setUser user (Some key) w = (Throw (spec_setUser_error e), w')).
Proof.
  intros He. repeat split.
  - intros key. rewrite sql_insert_eq. intros Hsql.
    unfold setKey, spec_setKey_error, try_catch, bind at 1.
    destruct (helper key) as [[fields values] args]. simpl in Hsql.
    unfold bind at 1. rewrite Hsql. run.
    rewrite !code_and_detail_signals by exact He.
    destruct (spec_signals e "23503" _); [reflexivity |].
    rewrite code_and_detail_signals by exact He.
    destruct (spec_signals e "23505" _); reflexivity.
  - intros t session Ht. rewrite sql_insert_eq. intros Hsql.
    unfold setSession, spec_setSession_error. rewrite Ht.
    unfold try_catch, bind at 1.
    destruct (helper session) as [[fields values] args]. simpl in Hsql.
    unfold bind at 1. rewrite Hsql. run.
    rewrite code_and_detail_signals by exact He.
    destruct (spec_signals e "23503" _); reflexivity.
  - intros user key Htx.
    unfold setUser, spec_setUser_error, try_catch. rewrite Htx.
    unfold bind. rewrite code_and_detail_signals by exact He.
    destruct (spec_signals e "23505" _); reflexivity.
Qed.

(** C10, as amended: for a thrown value [e] other than null and undefined
    that lacks a code, lacks a detail, or whose detail is a string without
    the substrings the handler looks for, the handlers of [setKey],
    [setSession] and [setUser] with a key raise nothing of their own and
    throw [e] itself. *)
Theorem classification_is_total_on_objects (e : jsval) (w w' : world) :
  nullish e = false ->
  (forall key : row,
     finds_nothing e "Key (user_id)" -> finds_nothing e "Key (id)" ->
     sql_insert ESCAPED_KEY_TABLE_NAME key w = (Ok (Throw e), w') ->
     setKey key w = (Throw e, w'))
  /\ (forall (t : ident) (session : row),
        finds_nothing e "Key (user_id)" ->
        ESCAPED_SESSION_TABLE_NAME = Some t ->
        sql_insert t session w = (Ok (Throw e), w') ->
        setSession session w = (Throw e, w'))
  /\ (forall user key : row,
        finds_nothing e "Key (id)" ->
        transaction (setUser_execute user key) w = (Throw e, w') ->
        setUser user (Some key) w = (Throw e, w')).
Proof.
  intros He. repeat split.
  - intros key Hu Hi. rewrite sql_insert_eq. intros Hsql.
    unfold setKey, try_catch, bind at 1.
    destruct (helper key) as [[fields values] args]. simpl in Hsql.
    unfold bind at 1. rewrite Hsql. run.
    rewrite !(code_and_detail_finds_nothing e "23503") by assumption.
    rewrite (code_and_detail_finds_nothing e "23505") by assumption.
    reflexivity.
  - intros t session Hu Ht. rewrite sql_insert_eq. intros Hsql.
    unfold setSession. rewrite Ht.
    unfold try_catch, bind at 1.
    destruct (helper session) as [[fields values] args]. simpl in Hsql.
    unfold bind at 1. rewrite Hsql. run.
    rewrite (code_and_detail_finds_nothing e "23503") by assumption.
    reflexivity.
  - intros user key Hi Htx.
    unfold setUser, try_catch. rewrite Htx.
    unfold bind. rewrite (code_and_detail_finds_nothing e "23505") by assumption.
    reflexivity.
Qed.

(** A call to either facility returns a promise: it does not throw. *)
Lemma sql_returns_promise (s : stmt) (args : list sqlval) (w : world) :
  exists p w', sql s args w = (Ok p, w').
Proof.
  unfold sql. destruct (next_fault _) as [[e|] w1]; [eauto |].
  destruct (exec_stmt _ _ _ _) as [[rows d]|e]; eauto.
Qed.

Lemma client_query_returns_promise
    (c : Client) (s : stmt) (args : list sqlval) (w : world) :
  exists p w', client_query c s args w = (Ok p, w').
Proof.
  unfold client_query. destruct (next_fault _) as [[e|] w1]; [eauto |].
  destruct s, (tx w1); eauto;
    destruct (exec_stmt _ _ _ _) as [[rows d']|e]; eauto.
Qed.

Ltac rethrow :=
  unfold rethrows, sql_insert, sql_update;
  let H := fresh "Hcall" in
  intros H; run; rewrite H; reflexivity.

(** C6: [setUser] without a key throws whatever error the database raises
    for its insert, unchanged, a uniqueness violation (code 23505) included.
    So does every other operation but [setUser] with a key and [setKey]:
    [setSession] lets an error with code 23505 through, and the remaining
    operations have no handler at all. *)
Theorem only_setUser_with_key_and_setKey_translate_duplicates
    (e : jsval) (w w' : world) :
  (forall user : row,
     rethrows (setUser user None) (sql_insert ESCAPED_USER_TABLE_NAME user) e w w')
  /\ (forall (t : ident) (session : row),
        ESCAPED_SESSION_TABLE_NAME = Some t ->
        get_prop e "code" = Ok (JStr "23505") ->
        rethrows (setSession session) (sql_insert t session) e w w')
  /\ (forall (id : sqlval) (partial : row),
        rethrows (updateUser id partial)
          (sql_update ESCAPED_USER_TABLE_NAME id partial) e w w'
        /\ rethrows (updateKey id partial)
             (sql_update ESCAPED_KEY_TABLE_NAME id partial) e w w')
  /\ (forall id : sqlval,
        rethrows (getUser id)
          (sql (SelectWhere ESCAPED_USER_TABLE_NAME "id" (Dollar 1)) [id]) e w w'
        /\ rethrows (deleteUser id)
             (sql (DeleteWhere ESCAPED_USER_TABLE_NAME "id" (Dollar 1)) [id]) e w w'
        /\ rethrows (getKey id)
             (sql (SelectWhere ESCAPED_KEY_TABLE_NAME "id" (Dollar 1)) [id]) e w w'
        /\ rethrows (getKeysByUserId id)
             (sql (SelectWhere ESCAPED_KEY_TABLE_NAME "user_id" (Dollar 1)) [id]) e w w'
        /\ rethrows (deleteKey id)
             (sql (DeleteWhere ESCAPED_KEY_TABLE_NAME "id" (Dollar 1)) [id]) e w w'
        /\ rethrows (deleteKeysByUserId id)
             (sql (DeleteWhere ESCAPED_KEY_TABLE_NAME "user_id" (Dollar 1)) [id]) e w w')
  /\ (forall (t : ident) (id : sqlval) (partial : row),
        ESCAPED_SESSION_TABLE_NAME = Some t ->
        rethrows (getSession id) (sql (SelectWhere t "id" (Dollar 1)) [id]) e w w'
        /\ rethrows (getSessionsByUserId id)
             (sql (SelectWhere t "user_id" (Dollar 1)) [id]) e w w'
        /\ rethrows (deleteSession id)
             (sql (DeleteWhere t "id" (Dollar 1)) [id]) e w w'
        /\ rethrows (deleteSessionsByUserId id)
             (sql (DeleteWhere t "user_id" (Dollar 1)) [id]) e w w'
        /\ rethrows (updateSession id partial) (sql_update t id partial) e w w'
        /\ (sql (SelectWhere t "id" (Dollar 1)) [id] w = (Ok (Throw e), w') ->
            fst (getSessionAndUser id w) = Throw e)
        /\ (forall rows w1,
              sql (SelectWhere t "id" (Dollar 1)) [id] w = (Ok (Ok rows), w1) ->
              sql (SelectUserJoin ESCAPED_USER_TABLE_NAME t (Dollar 1)) [id] w1
              = (Ok (Throw e), w') ->
              getSessionAndUser id w = (Throw e, w'))).
Proof.
  split; [| split; [| split; [| split]]].
  - intros user. unfold setUser.
    destruct (helper user) as [[fields values] args] eqn:Hh.
    unfold rethrows, sql_insert. rewrite Hh. intros Hcall. run.
    rewrite Hcall. reflexivity.
  - intros t session Ht Hcode. unfold setSession. rewrite Ht.
    destruct (helper session) as [[fields values] args] eqn:Hh.
    unfold rethrows, sql_insert. rewrite Hh. intros Hcall.
    unfold try_catch, bind at 1. unfold bind at 1. rewrite Hcall. run.
    unfold code_and_detail. run. rewrite Hcode. reflexivity.
  - intros id partial. unfold updateUser, updateKey.
    destruct (helper partial) as [[fields values] args] eqn:Hh.
    split; unfold rethrows, sql_update; rewrite Hh; intros Hcall; run;
      rewrite Hcall; reflexivity.
  - intros id.
    unfold getUser, deleteUser, getKey, getKeysByUserId, deleteKey,
      deleteKeysByUserId.
    repeat split; rethrow.
  - intros t id partial Ht.
    unfold getSession, getSessionsByUserId, deleteSession,
      deleteSessionsByUserId, updateSession, getSessionAndUser.
    rewrite Ht. destruct (helper partial) as [[fields values] args] eqn:Hh.
    repeat split; try rethrow.
    + unfold rethrows, sql_update. rewrite Hh. intros Hcall. run.
      rewrite Hcall. reflexivity.
    + intros Hcall. run. rewrite Hcall.
      destruct (sql_returns_promise
                  (SelectUserJoin ESCAPED_USER_TABLE_NAME t (Dollar 1)) [id] w')
        as (p & w2 & ->).
      reflexivity.
    + intros rows w1 H1 H2. run. rewrite H1, H2. reflexivity.
Qed.

(** ** The statements built by [helper] and [getSetArgs] *)

Section Fragments.

Variable obj : row.

Let entries := map_to_list obj.

Lemma helper_fields : ident_name <$> (helper obj).1.1 = entries.*1.
Proof.
  unfold helper. simpl. rewrite <- list_fmap_compose.
  apply list_fmap_id.
Qed.

Lemma helper_args : (helper obj).2 = entries.*2.
Proof. reflexivity. Qed.

Lemma helper_lengths :
  length (helper obj).1.1 = length entries
  /\ length (helper obj).1.2 = length entries
  /\ length (helper obj).2 = length entries.
Proof.
  unfold helper. simpl. rewrite !length_fmap, length_imap. auto.
Qed.

Lemma helper_fields_nil : (helper obj).1.1 = [] <-> obj = ∅.
Proof.
  rewrite <- (map_to_list_empty_iff obj). fold entries.
  destruct helper_lengths as (Hl & _ & _).
  split; intros H.
  - rewrite H in Hl. destruct entries; [reflexivity | discriminate].
  - rewrite H in Hl. destruct (helper obj).1.1; [reflexivity | discriminate].
Qed.

(** The placeholders of [helper] pick the arguments of [helper], whatever
    is bound after them. *)
Lemma helper_params (extra : list sqlval) :
  mapM (param ((helper obj).2 ++ extra)) (helper obj).1.2 = Some (helper obj).2.
Proof.
  apply mapM_Some, Forall2_same_length_lookup_2.
  - destruct helper_lengths as (_ & -> & ->). reflexivity.
  - intros i p v Hp Hv. unfold helper in Hp. simpl in Hp.
    rewrite list_lookup_imap in Hp.
    destruct (map_to_list obj !! i); [| discriminate].
    injection Hp as <-. rewrite Nat.add_1_r. simpl.
    apply lookup_app_l_Some. exact Hv.
Qed.

(** The row an INSERT built by [helper] writes is the object itself. *)
Lemma helper_row :
  list_to_map (zip (ident_name <$> (helper obj).1.1) (helper obj).2) = obj.
Proof.
  rewrite helper_fields, helper_args, zip_fst_snd.
  apply list_to_map_to_list.
Qed.

Lemma getSetArgs_complete :
  existsb (fun fp : ident * option placeholder => bool_decide (fp.2 = None))
    (getSetArgs (helper obj).1.1 (helper obj).1.2) = false.
Proof.
  apply not_true_is_false. intros H.
  apply existsb_exists in H as (fp & Hin & Hnone).
  apply bool_decide_eq_true in Hnone.
  apply list_elem_of_In, list_elem_of_lookup in Hin as (i & Hi).
  unfold getSetArgs in Hi. rewrite list_lookup_imap in Hi.
  destruct ((helper obj).1.1 !! i) as [f|] eqn:Hf; [| discriminate].
  injection Hi as <-. simpl in Hnone.
  apply lookup_lt_Some in Hf. apply lookup_ge_None in Hnone.
  rewrite ?length_imap in Hnone.
  destruct helper_lengths as (H1 & _). unfold entries in H1. lia.
Qed.

(** The assignments of an UPDATE built by [helper] and [getSetArgs] are
    the entries of the object. *)
Lemma helper_sets (extra : list sqlval) :
  resolve_sets ((helper obj).2 ++ extra)
    (getSetArgs (helper obj).1.1 (helper obj).1.2)
  = Some entries.
Proof.
  apply mapM_Some, Forall2_same_length_lookup_2.
  - unfold getSetArgs. rewrite length_imap.
    destruct helper_lengths as (-> & _). reflexivity.
  - intros i fp kv Hfp Hkv. unfold getSetArgs, helper in Hfp. simpl in Hfp.
    rewrite list_lookup_imap, !list_lookup_fmap, list_lookup_imap in Hfp.
    fold entries in Hfp. rewrite Hkv in Hfp. simpl in Hfp.
    injection Hfp as <-. simpl. rewrite Nat.add_1_r. simpl.
    rewrite lookup_app_l.
    + rewrite list_lookup_fmap. fold entries. rewrite Hkv. simpl.
      destruct kv; reflexivity.
    + rewrite length_fmap. eapply lookup_lt_Some, Hkv.
Qed.

Lemma helper_where (id : sqlval) :
  param ((helper obj).2 ++ [id]) (Dollar (length (helper obj).1.1 + 1)) = Some id.
Proof.
  rewrite Nat.add_1_r. simpl. rewrite !length_fmap.
  rewrite lookup_app_r by (rewrite length_fmap; lia).
  rewrite length_fmap, Nat.sub_diag. reflexivity.
Qed.

Lemma assign_entries (r : row) : assign entries r = obj ∪ r.
Proof.
  rewrite <- (list_to_map_to_list obj) at 1. fold entries.
  induction entries as [|[k v] l IH]; simpl.
  - symmetry. apply (left_id ∅ (∪)).
  - rewrite IH. apply insert_union_l.
Qed.

End Fragments.

(** ** INSERT and UPDATE as the database runs them *)

Lemma exec_insert_helper (d : database) (t : ident) (obj : row) :
  exec_stmt tables d (InsertInto t (helper obj).1.1 (helper obj).1.2) (helper obj).2
  = match d !! ident_name t with
    | None => Throw undefined_table
    | Some rows =>
        if bool_decide (obj = ∅) then Throw syntax_error
        else write tables d (ident_name t) (rows ++ [obj])
    end.
Proof.
  unfold exec_stmt. destruct (d !! ident_name t) as [rows|]; [| reflexivity].
  destruct (helper_lengths obj) as (H1 & H2 & _).
  rewrite H1, H2, Nat.eqb_refl, orb_false_r.
  rewrite (bool_decide_ext _ _ (helper_fields_nil obj)).
  case_bool_decide; [reflexivity |].
  pose proof (helper_params obj []) as Hp. rewrite app_nil_r in Hp.
  rewrite Hp, helper_row. reflexivity.
Qed.

Lemma exec_update_helper (d : database) (t : ident) (id : sqlval) (obj : row) :
  exec_stmt tables d
    (UpdateSet t (getSetArgs (helper obj).1.1 (helper obj).1.2) "id"
       (Dollar (length (helper obj).1.1 + 1)))
    ((helper obj).2 ++ [id])
  = match d !! ident_name t with
    | None => Throw undefined_table
    | Some rows =>
        if bool_decide (obj = ∅) then Throw syntax_error
        else write tables d (ident_name t) (updated_row id obj <$> rows)
    end.
Proof.
  unfold exec_stmt. destruct (d !! ident_name t) as [rows|]; [| reflexivity].
  rewrite getSetArgs_complete, orb_false_r.
  assert (getSetArgs (helper obj).1.1 (helper obj).1.2 = [] <-> obj = ∅) as Hnil.
  { rewrite <- helper_fields_nil. unfold getSetArgs.
    destruct (helper obj).1.1; simpl; split; congruence. }
  rewrite (bool_decide_ext _ _ Hnil).
  case_bool_decide; [reflexivity |].
  rewrite helper_sets, helper_where. f_equal.
  apply list_fmap_ext. intros i r _. unfold updated_row.
  rewrite assign_entries. reflexivity.
Qed.

Lemma write_cases (d : database) (t : string) (rows : list row) :
  (write tables d t rows = Ok ([], <[t := rows]> d)
   /\ violation tables t (<[t := rows]> d) = None)
  \/ exists e, write tables d t rows = Throw e.
Proof.
  unfold write. destruct (violation _ _ _); eauto.
Qed.

(** What one call of the SQL execution facility does to the world. *)
Lemma sql_call (s : stmt) (args : list sqlval) (w : world) :
  exists p w',
    sql s args w = (Ok p, w')
    /\ trace w' = trace w ++ [SqlQuery s args]
    /\ conns w' = conns w /\ tx w' = tx w
    /\ match p with
       | Ok rows =>
           calm 1 (faults w) = true
           /\ exec_stmt tables (db w) s args = Ok (rows, db w')
       | Throw e => db w' = db w
       end.
Proof.
  unfold sql, next_fault, log. simpl.
  destruct (faults w) as [|[e|] plan]; simpl.
  - destruct (exec_stmt _ _ _ _) as [[rows d]|e]; simpl; eauto 10.
  - eauto 10.
  - destruct (exec_stmt _ _ _ _) as [[rows d]|e]; simpl; eauto 10.
Qed.

Lemma sql_calm (s : stmt) (args : list sqlval) (w : world) :
  calm 1 (faults w) = true ->
  exists w',
    sql s args w
    = (Ok (match exec_stmt tables (db w) s args with
           | Ok (rows, _) => Ok rows
           | Throw e => Throw e
           end), w')
    /\ faults w' = tail (faults w)
    /\ db w' = match exec_stmt tables (db w) s args with
               | Ok (_, d) => d
               | Throw _ => db w
               end.
Proof.
  unfold sql, next_fault, log. simpl.
  destruct (faults w) as [|[e|] plan]; simpl; try discriminate; intros _;
    destruct (exec_stmt _ _ _ _) as [[rows d]|e]; simpl; eauto.
Qed.

(** ** Updates *)

Lemma updated_row_updated_by (id : sqlval) (partial : row) (rows : list row) :
  updated_by id partial rows (updated_row id partial <$> rows).
Proof.
  split; [apply length_fmap |].
  intros i r Hr. exists (updated_row id partial r).
  rewrite list_lookup_fmap, Hr. split; [reflexivity |].
  unfold updated_row. destruct (matching "id" id r); [| reflexivity].
  split.
  - intros f v Hf. apply lookup_union_Some_l. exact Hf.
  - intros f Hf. apply lookup_union_r. exact Hf.
Qed.

(** ** The transactional connection, call by call *)

Lemma calm_S (n : nat) (plan : list (option jsval)) :
  calm (S n) plan = calm 1 plan && calm n (tail plan).
Proof.
  destruct plan as [|[e|] plan]; simpl; [destruct n | |]; reflexivity.
Qed.

Lemma calm_nil (n : nat) : calm n [] = true.
Proof. destruct n; reflexivity. Qed.

(** What one call of [client.query] does to the world. A statement runs on
    the working copy of the open transaction, or else on the committed
    database. *)
Lemma client_query_call (c : Client) (s : stmt) (args : list sqlval) (w : world) :
  exists p w',
    client_query c s args w = (Ok p, w')
    /\ trace w' = trace w ++ [ClientQuery s args]
    /\ conns w' = conns w
    /\ faults w' = tail (faults w)
    /\ match p with
       | Throw e =>
           db w' = db w /\ tx w' = tx w
           /\ (calm 1 (faults w) = false
               \/ exec_stmt tables (default (db w) (tx w)) s args = Throw e)
       | Ok rows =>
           calm 1 (faults w) = true
           /\ exists d',
                exec_stmt tables (default (db w) (tx w)) s args = Ok (rows, d')
                /\ match s with
                   | Begin => db w' = db w /\ tx w' = Some (default (db w) (tx w))
                   | Commit => db w' = default (db w) (tx w) /\ tx w' = None
                   | Rollback => db w' = db w /\ tx w' = None
                   | _ =>
                       match tx w with
                       | Some _ => db w' = db w /\ tx w' = Some d'
                       | None => db w' = d' /\ tx w' = None
                       end
                   end
       end.
Proof.
  unfold client_query, next_fault, log. simpl.
  destruct (faults w) as [|[e|] plan]; simpl.
  2: { eexists _, _. split; [reflexivity |]. simpl. auto 10. }
  all: destruct s, (tx w) as [d|]; simpl;
    try (eexists _, _; split; [reflexivity |]; simpl; eauto 10; fail);
    try match goal with
    | |- context [exec_stmt _ ?d ?s ?a] =>
        destruct (exec_stmt tables d s a) as [[rows d']|e] eqn:Hexec
    end;
    eexists _, _; (split; [reflexivity |]); simpl; eauto 10.
Qed.

Lemma client_connect_call (c : Client) (w : world) :
  exists p w',
    client_connect c w = (Ok p, w')
    /\ trace w' = trace w ++ [Connect]
    /\ db w' = db w
    /\ faults w' = tail (faults w)
    /\ match p with
       | Ok _ => calm 1 (faults w) = true /\ conns w' = S (conns w) /\ tx w' = None
       | Throw e => calm 1 (faults w) = false /\ conns w' = conns w /\ tx w' = tx w
       end.
Proof.
  unfold client_connect, next_fault, log. simpl.
  destruct (faults w) as [|[e|] plan]; simpl;
    eexists _, _; (split; [reflexivity |]); simpl; auto 10.
Qed.

(** [transaction], path by path: the connection that was opened is closed
    after the try block, and after a ROLLBACK when the try block threw. *)
Lemma transaction_paths (execute : Client -> M unit) (w : world) :
  transaction execute w
  = match client_connect new_Client w with
    | (Ok (Ok _), w1) =>
        match transaction_try execute new_Client w1 with
        | (Ok _, w2) => (Ok tt, (client_end new_Client w2).2)
        | (Throw e, w2) =>
            (Throw e,
             (client_end new_Client (client_query new_Client Rollback [] w2).2).2)
        end
    | (Ok (Throw e), w1) => (Throw e, w1)
    | (Throw e, w1) => (Throw e, w1)
    end.
Proof.
  unfold transaction. run.
  destruct (client_connect new_Client w) as [[[[]|e]|e] w1]; try reflexivity.
  destruct (transaction_try execute new_Client w1) as [[[]|e] w2]; [reflexivity |].
  destruct (client_query_returns_promise new_Client Rollback [] w2)
    as (p & w3 & ->).
  reflexivity.
Qed.

(** ** [setUser] with a key, path by path *)

Local Arguments calm : simpl never.

Lemma setUser_execute_eq (user key : row) (client : Client) :
  setUser_execute user key client
  = (let! inserted := client_query client
       (insert_stmt ESCAPED_USER_TABLE_NAME user) (insert_args user) in
     let! _ := await inserted in
     let! inserted := client_query client
       (insert_stmt ESCAPED_KEY_TABLE_NAME key) (insert_args key) in
     let! _ := await inserted in
     ret tt).
Proof.
  unfold setUser_execute, insert_stmt, insert_args.
  destruct (helper user) as [[? ?] ?], (helper key) as [[? ?] ?]. reflexivity.
Qed.

Lemma transaction_try_setUser (user key : row) (w1 : world) :
  tx w1 = None ->
  exists r w2,
    transaction_try (setUser_execute user key) new_Client w1 = (r, w2)
    /\ conns w2 = conns w1
    /\ (exists mid, trace w2 = trace w1 ++ ClientQuery Begin [] :: mid)
    /\ match r with
       | Ok _ =>
           exists rows1 d1 rows2 d2,
             run_insert (db w1) ESCAPED_USER_TABLE_NAME user = Ok (rows1, d1)
             /\ run_insert d1 ESCAPED_KEY_TABLE_NAME key = Ok (rows2, d2)
             /\ db w2 = d2 /\ tx w2 = None
             /\ trace w2 = trace w1 ++
                  [ClientQuery Begin [];
                   ClientQuery (insert_stmt ESCAPED_USER_TABLE_NAME user) (insert_args user);
                   ClientQuery (insert_stmt ESCAPED_KEY_TABLE_NAME key) (insert_args key);
                   ClientQuery Commit []]
       | Throw e => db w2 = db w1 /\ failure_cause 4 user key w1 e
       end.
Proof.
  intros Htx. unfold transaction_try, failure_cause, run_insert.
  rewrite setUser_execute_eq. run.
  pose proof (calm_S 3 (faults w1)) as Hcalm4.
  rewrite (calm_S 2), (calm_S 1) in Hcalm4.
  destruct (client_query_call new_Client Begin [] w1)
    as (p1 & wa & -> & Ht1 & Hc1 & Hf1 & Hp1).
  destruct p1 as [r1|e]; simpl.
  { destruct Hp1 as (Hcalm1 & _ & _ & Hda & Hta).
    rewrite Htx in Hta. simpl in Hta.
    destruct (client_query_call new_Client
                (insert_stmt ESCAPED_USER_TABLE_NAME user) (insert_args user) wa)
      as (p2 & wb & -> & Ht2 & Hc2 & Hf2 & Hp2).
    rewrite Hta, Hda, Hf1 in Hp2. rewrite Hf1 in Hf2. simpl in Hp2.
    destruct p2 as [r2|e]; simpl.
    { destruct Hp2 as (Hcalm2 & d1 & Hx1 & Hdb & Htb).
      destruct (client_query_call new_Client
                  (insert_stmt ESCAPED_KEY_TABLE_NAME key) (insert_args key) wb)
        as (p3 & wc & -> & Ht3 & Hc3 & Hf3 & Hp3).
      rewrite Htb, Hdb, Hf2 in Hp3. rewrite Hf2 in Hf3. simpl in Hp3.
      destruct p3 as [r3|e]; simpl.
      { destruct Hp3 as (Hcalm3 & d2 & Hx2 & Hdc & Htc).
        destruct (client_query_call new_Client Commit [] wc)
          as (p4 & wd & -> & Ht4 & Hc4 & Hf4 & Hp4).
        rewrite Htc, Hdc, Hf3 in Hp4. simpl in Hp4.
        destruct p4 as [r4|e]; simpl.
        - destruct Hp4 as (_ & _ & _ & Hdd & Htd).
          eexists _, _. split; [reflexivity |]. split; [congruence |].
          rewrite Ht4, Ht3, Ht2, Ht1, <- !app_assoc. simpl.
          split; [eauto |]. exists r2, d1, r3, d2. auto 10.
        - destruct Hp4 as (Hd & _ & [Hwhy | Hx]); [| discriminate].
          eexists _, _. split; [reflexivity |]. split; [congruence |].
          rewrite Ht4, Ht3, Ht2, Ht1, <- !app_assoc. simpl.
          split; [eauto |]. split; [congruence |]. left.
          rewrite Hcalm4, Hcalm1, Hcalm2, Hcalm3, Hwhy. reflexivity. }
      destruct Hp3 as (Hd & _ & Hwhy).
      eexists _, _. split; [reflexivity |]. split; [congruence |].
      rewrite Ht3, Ht2, Ht1, <- !app_assoc. simpl.
      split; [eauto |]. split; [congruence |].
      destruct Hwhy as [Hwhy | Hx]; [left | eauto 10].
      rewrite Hcalm4, Hcalm1, Hcalm2, Hwhy. reflexivity. }
    destruct Hp2 as (Hd & _ & Hwhy).
    eexists _, _. split; [reflexivity |]. split; [congruence |].
    rewrite Ht2, Ht1, <- !app_assoc. simpl.
    split; [eauto |]. split; [congruence |].
    destruct Hwhy as [Hwhy | Hx]; [left | eauto 10].
    rewrite Hcalm4, Hcalm1, Hwhy. reflexivity. }
  destruct Hp1 as (Hd & _ & [Hwhy | Hx]); [| discriminate].
  eexists _, _. split; [reflexivity |]. split; [congruence |].
  rewrite Ht1. split; [eauto |]. split; [congruence |]. left.
  rewrite Hcalm4, Hwhy. reflexivity.
Qed.

Lemma code_and_detail_pure (e : jsval) (code sub : string) (w : world) :
  (code_and_detail e code sub w).2 = w.
Proof.
  unfold code_and_detail. run.
  destruct (get_prop e "code") as [c|]; [| reflexivity].
  destruct (strict_eq_str c code); [| reflexivity].
  destruct (get_prop e "detail") as [d|]; [| reflexivity].
  destruct (optional_includes d sub); reflexivity.
Qed.

(** The handler of [setUser] touches nothing: the world [setUser] leaves
    is the one its transaction left. *)
Lemma setUser_world (user key : row) (w : world) :
  (setUser user (Some key) w).2 = (transaction (setUser_execute user key) w).2
  /\ ((setUser user (Some key) w).1 = Ok tt
      <-> (transaction (setUser_execute user key) w).1 = Ok tt).
Proof.
  unfold setUser, try_catch.
  destruct (transaction (setUser_execute user key) w) as [[[]|e] w']; simpl.
  - split; [reflexivity | split; reflexivity].
  - unfold bind.
    pose proof (code_and_detail_pure e "23505" "Key (id)" w') as Hpure.
    destruct (code_and_detail e "23505" "Key (id)" w') as [[[]|e'] w''];
      simpl in Hpure |- *; subst w''; split; try reflexivity; split; discriminate.
Qed.

Lemma transaction_setUser (user key : row) (w : world) :
  exists r w',
    transaction (setUser_execute user key) w = (r, w')
    /\ conns w' = conns w
    /\ match r with
       | Ok _ =>
           exists rows1 d1 rows2 d2,
             run_insert (db w) ESCAPED_USER_TABLE_NAME user = Ok (rows1, d1)
             /\ run_insert d1 ESCAPED_KEY_TABLE_NAME key = Ok (rows2, d2)
             /\ db w' = d2 /\ tx w' = None
             /\ trace w' = trace w ++ committed_calls user key
       | Throw e =>
           db w' = db w
           /\ (calm 1 (faults w) = false /\ trace w' = trace w ++ [Connect]
               \/ calm 1 (faults w) = true
                  /\ exists mid,
                       trace w' = trace w ++ [Connect; ClientQuery Begin []] ++ mid
                                    ++ [ClientQuery Rollback []; End])
           /\ failure_cause 5 user key w e
       end.
Proof.
  rewrite transaction_paths. unfold failure_cause. rewrite (calm_S 4).
  destruct (client_connect_call new_Client w)
    as (p & w1 & -> & Ht1 & Hd1 & Hf1 & Hp).
  destruct p as [[]|e].
  - destruct Hp as (Hcalm & Hc1 & Htx).
    destruct (transaction_try_setUser user key w1 Htx)
      as (r & w2 & -> & Hc2 & [mid Hmid] & Hr).
    unfold failure_cause in Hr. rewrite Hd1, Hf1 in Hr.
    destruct r as [[]|e].
    + destruct Hr as (rows1 & d1 & rows2 & d2 & Hx1 & Hx2 & Hdb & _ & Htr).
      eexists _, _. split; [reflexivity |]. simpl.
      rewrite Hc2, Hc1, Htr, Ht1, <- !app_assoc. simpl.
      split; [reflexivity |]. exists rows1, d1, rows2, d2. auto.
    + destruct Hr as (Hdb & Hwhy).
      destruct (client_query_call new_Client Rollback [] w2)
        as (p3 & w3 & Heq & Ht3 & Hc3 & _ & Hp3).
      rewrite Heq. eexists _, _. split; [reflexivity |]. simpl.
      rewrite Hc3, Hc2, Hc1, Ht3, Hmid, Ht1, <- !app_assoc. simpl.
      split; [reflexivity |]. split.
      { transitivity (db w2); [| congruence].
        destruct p3; [destruct Hp3 as (_ & _ & _ & Hp3 & _) | destruct Hp3 as (Hp3 & _)];
          exact Hp3. }
      split; [right; split; [exact Hcalm | exists mid; reflexivity] |].
      rewrite Hcalm. exact Hwhy.
  - destruct Hp as (Hcalm & Hc1 & _).
    eexists _, _. split; [reflexivity |]. rewrite Hcalm. auto 10.
Qed.

(** ** The release of the connection *)

(** C7, as amended: whatever happens inside [setUser] with a key, no
    dedicated connection stays open. Once [connect] has succeeded the last
    call is [client.end()]: right after the try block when it completed, and
    right after a ROLLBACK whose promise is dropped when it threw, and then
    the error of the try block is the one thrown. If [connect] itself
    rejects, no connection was opened, nothing else is sent and
    [client.end()] is not called. [setUser] leaves the world its
    transaction left, whether it translates the error or not. *)
Theorem transaction_always_closes_the_connection (user key : row) (w : world) :
  let result := transaction (setUser_execute user key) w in
  conns result.2 = conns w
  /\ (setUser user (Some key) w).2 = result.2
  /\ match client_connect new_Client w with
     | (Ok (Ok _), w1) =>
         last (trace result.2) = Some End
         /\ match transaction_try (setUser_execute user key) new_Client w1 with
            | (Ok _, w2) =>
                result.1 = Ok tt /\ trace result.2 = trace w2 ++ [End]
            | (Throw e, w2) =>
                result.1 = Throw e
                /\ trace result.2 = trace w2 ++ [ClientQuery Rollback []; End]
            end
     | (Ok (Throw e), w1) | (Throw e, w1) =>
         result = (Throw e, w1)
         /\ conns w1 = conns w /\ trace w1 = trace w ++ [Connect]
     end.
Proof.
  cbv zeta. split; [| split].
  - destruct (transaction_setUser user key w) as (r & w' & -> & Hc & _). exact Hc.
  - apply setUser_world.
  - rewrite transaction_paths.
    destruct (client_connect_call new_Client w)
      as (p & w1 & -> & Ht1 & _ & _ & Hp).
    destruct p as [[]|e].
    + destruct (transaction_try (setUser_execute user key) new_Client w1)
        as [[[]|e] w2].
      * simpl. rewrite last_snoc. auto.
      * destruct (client_query_call new_Client Rollback [] w2)
          as (p3 & w3 & Heq & Ht3 & _).
        rewrite Heq. simpl. split; [apply last_snoc |].
        split; [reflexivity |]. rewrite Ht3, <- app_assoc. reflexivity.
    + destruct Hp as (_ & Hc & _). auto.
Qed.

(** ** What the constraints give *)

Lemma first_dup_None (l : list sqlval) : first_dup l = None -> NoDup l.
Proof.
  induction l as [|v l IH]; simpl; [constructor |].
  case_bool_decide; [discriminate |]. intros Hd. constructor; auto.
Qed.

Lemma first_some_None {A B : Type} (f : A -> option B) (l : list A) (a : A) :
  first_some f l = None -> a ∈ l -> f a = None.
Proof.
  induction l as [|x l IH]; simpl; intros H Hin.
  - inversion Hin.
  - destruct (f x) eqn:Hx; [discriminate |].
    apply elem_of_cons in Hin as [-> | Hin]; auto.
Qed.

Lemma existsb_false_elem {A : Type} (f : A -> bool) (l : list A) (a : A) :
  existsb f l = false -> a ∈ l -> f a = false.
Proof.
  intros H Hin. apply not_true_is_false. intros Hfa.
  assert (existsb f l = true) as Ht; [| congruence].
  apply existsb_exists. exists a. split; [| exact Hfa].
  apply list_elem_of_In. exact Hin.
Qed.

(** The message of a violation depends on the table written; whether there
    is a violation does not. *)
Lemma violation_target (t t' : string) (d : database) :
  violation tables t d = None -> violation tables t' d = None.
Proof.
  unfold violation.
  destruct (existsb _ (entity_tables tables) || existsb _ (child_tables tables));
    [discriminate |].
  destruct (first_some (dup_in d) (entity_tables tables)); [discriminate |].
  destruct (first_some (dangling_in tables d) (child_tables tables));
    [discriminate |].
  reflexivity.
Qed.

Lemma db_ok_violation (t : string) (d : database) :
  db_ok tables d = true <-> violation tables t d = None.
Proof.
  unfold db_ok. split.
  - destruct (violation tables "" d) eqn:H; [discriminate |].
    intros _. eapply violation_target, H.
  - intros H%(violation_target t ""). rewrite H. reflexivity.
Qed.

(** In a database that breaks no constraint, the ids of an entity table
    are not null and pairwise distinct. *)
Lemma db_ok_ids (d : database) (t : string) :
  db_ok tables d = true ->
  t ∈ entity_tables tables ->
  (forall r, r ∈ table_rows d t -> is_null (col "id" r) = false)
  /\ NoDup (col "id" <$> table_rows d t).
Proof.
  unfold db_ok, violation. intros H Ht.
  destruct (existsb (null_in "id" d) (entity_tables tables)
            || existsb (null_in "user_id" d) (child_tables tables)) eqn:Hor;
    [discriminate |].
  apply orb_false_elim in Hor as [Hnull _].
  destruct (first_some (dup_in d) (entity_tables tables)) eqn:Hdup; [discriminate |].
  split.
  - intros r Hr.
    pose proof (existsb_false_elem _ _ t Hnull Ht) as Hn. unfold null_in in Hn.
    exact (existsb_false_elem _ _ r Hn Hr).
  - apply first_dup_None. exact (first_some_None _ _ t Hdup Ht).
Qed.

Lemma filter_nothing {A : Type} (f : A -> bool) (l : list A) :
  (forall x, x ∈ l -> f x = false) -> List.filter f l = [].
Proof.
  induction l as [|x l IH]; intros H; [reflexivity |]. simpl.
  rewrite (H x) by left. apply IH. intros y Hy. apply H. right. exact Hy.
Qed.

(** A lookup by id finds the one row that has the id. *)
Lemma filter_unique (rows : list row) (r : row) :
  NoDup (col "id" <$> rows) ->
  r ∈ rows ->
  is_null (col "id" r) = false ->
  List.filter (matching "id" (col "id" r)) rows = [r].
Proof.
  intros Hnd Hin Hnn.
  assert (forall r', matching "id" (col "id" r) r' = true -> col "id" r' = col "id" r)
    as Hm.
  { intros r'. unfold matching, sql_eq.
    intros H. apply andb_prop in H as [_ H]. apply bool_decide_eq_true in H. exact H. }
  assert (matching "id" (col "id" r) r = true) as Hself.
  { unfold matching, sql_eq. rewrite Hnn. simpl. apply bool_decide_eq_true. reflexivity. }
  induction rows as [|x rows IH]; [inversion Hin |].
  rewrite fmap_cons in Hnd. apply NoDup_cons in Hnd as [Hx Hnd]. simpl.
  apply elem_of_cons in Hin as [<- | Hin].
  - rewrite Hself. f_equal.
    apply filter_nothing. intros r' Hr'.
    destruct (matching "id" (col "id" r) r') eqn:Hr; [| reflexivity].
    exfalso. apply Hx. rewrite <- (Hm r' Hr).
    apply list_elem_of_fmap_2. exact Hr'.
  - destruct (matching "id" (col "id" r) x) eqn:Hmx; [| auto].
    exfalso. apply Hx. rewrite (Hm x Hmx).
    apply list_elem_of_fmap_2. exact Hin.
Qed.

Lemma filter_none (rows : list row) (v : sqlval) :
  (forall r, r ∈ rows -> col "id" r <> v) ->
  List.filter (matching "id" v) rows = [].
Proof.
  intros H. apply filter_nothing. intros r Hr.
  destruct (matching "id" v r) eqn:Hm; [| reflexivity].
  exfalso. apply (H r Hr).
  unfold matching, sql_eq in Hm. apply andb_prop in Hm as [_ Hm].
  apply bool_decide_eq_true in Hm. exact Hm.
Qed.

(** A successful INSERT appended the object to its table, and the database
    it leaves breaks no constraint. *)
Lemma run_insert_Ok (d d' : database) (t : ident) (obj : row) (rows : list row) :
  run_insert d t obj = Ok (rows, d') ->
  exists old,
    d !! ident_name t = Some old
    /\ d' = <[ident_name t := old ++ [obj]]> d
    /\ db_ok tables d' = true.
Proof.
  unfold run_insert, insert_stmt, insert_args. rewrite exec_insert_helper.
  destruct (d !! ident_name t) as [old|]; [| discriminate].
  case_bool_decide; [discriminate |].
  destruct (write_cases d (ident_name t) (old ++ [obj])) as [[Hw Hv] | [e He]];
    rewrite ?Hw, ?He; [| discriminate].
  intros [= _ <-]. exists old. split; [reflexivity |]. split; [reflexivity |].
  eapply db_ok_violation, Hv.
Qed.

Lemma user_is_entity : user tables ∈ entity_tables tables.
Proof. left. Qed.

Lemma getUser_calm (userId : sqlval) (w : world) (rows : list row) :
  calm 1 (faults w) = true ->
  db w !! user tables = Some rows ->
  exists w',
    getUser userId w = (Ok (head (List.filter (matching "id" userId) rows)), w')
    /\ db w' = db w.
Proof.
  intros Hcalm Hrows. unfold getUser. run.
  destruct (sql_calm (SelectWhere ESCAPED_USER_TABLE_NAME "id" (Dollar 1))
              [userId] w Hcalm) as (w' & -> & _ & Hdb).
  unfold exec_stmt in *. simpl in *. rewrite Hrows in *. simpl. eauto.
Qed.

Lemma setUser_without_key_eq (user : row) :
  setUser user None
  = (let! inserted := sql (insert_stmt ESCAPED_USER_TABLE_NAME user)
                        (insert_args user) in
     let! _ := await inserted in
     ret tt).
Proof.
  unfold setUser, insert_stmt, insert_args.
  destruct (helper user) as [[? ?] ?]. reflexivity.
Qed.

(** After a [setUser] that returned, the user row is in the user table and
    the database breaks no constraint. *)
Lemma setUser_Ok_stored (u : row) (k : option row) (w0 w : world) :
  setUser u k w0 = (Ok tt, w) ->
  db_ok tables (db w) = true
  /\ exists rows, db w !! user tables = Some rows /\ u ∈ rows.
Proof.
  destruct k as [k|].
  - intros H.
    destruct (setUser_world u k w0) as [Hw [Hok _]].
    rewrite H in Hw, Hok. simpl in Hw, Hok. specialize (Hok eq_refl).
    destruct (transaction_setUser u k w0) as (r & w' & Htx & _ & Hr).
    rewrite Htx in Hw, Hok. simpl in Hw, Hok. subst r w'.
    destruct Hr as (rows1 & d1 & rows2 & d2 & Hx1 & Hx2 & Hdb & _).
    apply run_insert_Ok in Hx1 as (old & Hold & -> & _).
    apply run_insert_Ok in Hx2 as (oldk & Holdk & -> & Hok).
    rewrite Hdb. split; [exact Hok |]. simpl in *.
    destruct (decide (key tables = user tables)) as [Heq | Hne].
    + rewrite Heq in *. rewrite lookup_insert_eq in Holdk. injection Holdk as <-.
      eexists. rewrite lookup_insert_eq. split; [reflexivity |].
      rewrite !elem_of_app, !list_elem_of_singleton. auto.
    + eexists. rewrite lookup_insert_ne, lookup_insert_eq by exact Hne.
      split; [reflexivity |]. rewrite elem_of_app, list_elem_of_singleton. auto.
  - rewrite setUser_without_key_eq. run.
    destruct (sql_call (insert_stmt ESCAPED_USER_TABLE_NAME u) (insert_args u) w0)
      as (p & w' & -> & _ & _ & _ & Hp).
    destruct p as [rows|e]; simpl; [| discriminate].
    intros [= <-]. destruct Hp as [_ Hx].
    apply run_insert_Ok in Hx as (old & Hold & -> & Hok).
    split; [exact Hok |]. eexists. rewrite lookup_insert_eq.
    split; [reflexivity |]. rewrite elem_of_app, list_elem_of_singleton. auto.
Qed.

(** ** The constraints are an invariant

    Whatever the adapter does, the committed database and the working copy
    of an open transaction keep satisfying the constraints. *)

Lemma write_ok (d d' : database) (t : string) (rows rows' : list row) :
  write tables d t rows = Ok (rows', d') -> db_ok tables d' = true.
Proof.
  destruct (write_cases d t rows) as [[Hw Hv] | [e He]]; rewrite ?Hw, ?He;
    [| discriminate].
  intros [= _ <-]. eapply db_ok_violation, Hv.
Qed.

Lemma exec_stmt_ok (d d' : database) (s : stmt) (args : list sqlval) (rows : list row) :
  db_ok tables d = true ->
  exec_stmt tables d s args = Ok (rows, d') ->
  db_ok tables d' = true.
Proof.
  intros Hok. unfold exec_stmt. destruct s.
  - destruct (d !! ident_name t), (param args p); try discriminate.
    intros [= _ <-]. exact Hok.
  - destruct (d !! ident_name u), (d !! ident_name s), (param args p);
      try discriminate.
    intros [= _ <-]. exact Hok.
  - destruct (d !! ident_name t); [| discriminate].
    destruct (_ || _); [discriminate |].
    destruct (mapM _ _); [| discriminate]. apply write_ok.
  - destruct (d !! ident_name t); [| discriminate].
    destruct (_ || _); [discriminate |].
    destruct (resolve_sets _ _), (param args p); try discriminate.
    apply write_ok.
  - destruct (d !! ident_name t), (param args p); try discriminate.
    apply write_ok.
  - intros [= _ <-]. exact Hok.
  - intros [= _ <-]. exact Hok.
  - intros [= _ <-]. exact Hok.
Qed.

Lemma sql_preserves (s : stmt) (args : list sqlval) : preserves (sql s args).
Proof.
  intros w [Hdb Htx].
  destruct (sql_call s args w) as (p & w' & -> & _ & _ & Ht & Hp). simpl.
  split; [| rewrite Ht; exact Htx].
  destruct p as [rows|e]; [| rewrite Hp; exact Hdb].
  destruct Hp as [_ Hx]. exact (exec_stmt_ok _ _ _ _ _ Hdb Hx).
Qed.

Lemma client_query_preserves (c : Client) (s : stmt) (args : list sqlval) :
  preserves (client_query c s args).
Proof.
  intros w [Hdb Htx].
  assert (db_ok tables (default (db w) (tx w)) = true) as Hcur.
  { destruct (tx w) as [d|]; simpl; auto. }
  destruct (client_query_call c s args w) as (p & w' & -> & _ & _ & _ & Hp). simpl.
  destruct p as [rows|e].
  - destruct Hp as (_ & d' & Hx & Hs).
    pose proof (exec_stmt_ok _ _ _ _ _ Hcur Hx) as Hd'.
    unfold world_ok.
    destruct s; try destruct (tx w) as [d|]; destruct Hs as [-> ->];
      split; auto; intros d0 [= <-]; auto.
  - destruct Hp as (Hd & Ht & _). unfold world_ok. rewrite Hd, Ht.
    split; assumption.
Qed.

Lemma client_connect_preserves (c : Client) : preserves (client_connect c).
Proof.
  intros w [Hdb Htx].
  destruct (client_connect_call c w) as (p & w' & -> & _ & Hd & _ & Hp). simpl.
  split; [rewrite Hd; exact Hdb |].
  destruct p; destruct Hp as (_ & _ & ->); [discriminate | exact Htx].
Qed.

Lemma client_end_preserves (c : Client) : preserves (client_end c).
Proof. intros w [Hdb Htx]. split; [exact Hdb | discriminate]. Qed.

Lemma ret_preserves {A} (a : A) : preserves (ret a).
Proof. intros w H. exact H. Qed.

Lemma throw_preserves {A} (e : jsval) : preserves (@throw A e).
Proof. intros w H. exact H. Qed.

Lemma await_preserves {A} (p : promise A) : preserves (await p).
Proof. intros w H. exact H. Qed.

Lemma bind_preserves {A B} (m : M A) (k : A -> M B) :
  preserves m -> (forall a, preserves (k a)) -> preserves (bind m k).
Proof.
  intros Hm Hk w Hw. unfold bind. specialize (Hm w Hw).
  destruct (m w) as [[a|e] w']; simpl in Hm; [apply Hk |]; exact Hm.
Qed.

Lemma try_catch_preserves {A} (body : M A) (handler : jsval -> M A) :
  preserves body -> (forall e, preserves (handler e)) ->
  preserves (try_catch body handler).
Proof.
  intros Hb Hh w Hw. unfold try_catch. specialize (Hb w Hw).
  destruct (body w) as [[a|e] w']; simpl in Hb; [| apply Hh]; exact Hb.
Qed.

Lemma try_finally_preserves {A} (body : M A) (cleanup : M unit) :
  preserves body -> preserves cleanup -> preserves (try_finally body cleanup).
Proof.
  intros Hb Hc w Hw. unfold try_finally. specialize (Hb w Hw).
  destruct (body w) as [r w']. specialize (Hc w' Hb).
  destruct (cleanup w') as [[[]|e] w'']; exact Hc.
Qed.

Lemma code_and_detail_preserves (e : jsval) (code sub : string) :
  preserves (code_and_detail e code sub).
Proof. intros w Hw. rewrite code_and_detail_pure. exact Hw. Qed.

Ltac preserve :=
  repeat first
    [ apply bind_preserves; [| intros ?]
    | apply try_catch_preserves; [| intros ?]
    | apply try_finally_preserves
    | apply sql_preserves
    | apply client_query_preserves
    | apply client_connect_preserves
    | apply client_end_preserves
    | apply code_and_detail_preserves
    | apply ret_preserves
    | apply throw_preserves
    | apply await_preserves
    | match goal with
      | |- preserves (let '(_, _) := ?x in _) => destruct x
      | |- preserves (match ?x with _ => _ end) => destruct x
      | |- preserves (if ?b then _ else _) => destruct b
      end ].

(** Every operation of the adapter keeps the constraints. *)
Lemma operations_preserve (id : sqlval) (obj : row) (k : option row) :
  preserves (getUser id) /\ preserves (setUser obj k)
  /\ preserves (deleteUser id) /\ preserves (updateUser id obj)
  /\ preserves (getSession id) /\ preserves (getSessionsByUserId id)
  /\ preserves (setSession obj) /\ preserves (deleteSession id)
  /\ preserves (deleteSessionsByUserId id) /\ preserves (updateSession id obj)
  /\ preserves (getKey id) /\ preserves (getKeysByUserId id)
  /\ preserves (setKey obj) /\ preserves (deleteKey id)
  /\ preserves (deleteKeysByUserId id) /\ preserves (updateKey id obj)
  /\ preserves (getSessionAndUser id).
Proof.
  unfold getUser, setUser, deleteUser, updateUser, getSession,
    getSessionsByUserId, setSession, deleteSession, deleteSessionsByUserId,
    updateSession, getKey, getKeysByUserId, setKey, deleteKey,
    deleteKeysByUserId, updateKey, getSessionAndUser, transaction,
    transaction_try, setUser_execute.
  repeat match goal with |- _ /\ _ => split end; preserve.
Qed.

(** ** Lookups *)

(** C5: when no failure is injected, [getUser] returns the row of the user
    table that has the id, and null when no row has it; in particular it
    returns the user that a [setUser] that returned has just stored, equal
    to the object [setUser] was given. *)
Theorem getUser_returns_the_stored_row (userId : sqlval) (w : world) :
  calm 1 (faults w) = true ->
  (forall (rows : list row) (r : row),
     db w !! user tables = Some rows -> db_ok tables (db w) = true ->
     r ∈ rows -> col "id" r = userId ->
     (getUser userId w).1 = Ok (Some r))
  /\ (forall rows : list row,
        db w !! user tables = Some rows ->
        (forall r, r ∈ rows -> col "id" r <> userId) ->
        (getUser userId w).1 = Ok None)
  /\ (forall (u : row) (k : option row) (w0 : world),
        setUser u k w0 = (Ok tt, w) ->
        col "id" u = userId ->
        (getUser userId w).1 = Ok (Some u)).
Proof.
  intros Hcalm.
  assert (forall (rows : list row) (r : row),
            db w !! user tables = Some rows -> db_ok tables (db w) = true ->
            r ∈ rows -> col "id" r = userId ->
            (getUser userId w).1 = Ok (Some r)) as Hpresent.
  { intros rows r Hrows Hok Hr <-.
    destruct (getUser_calm (col "id" r) w rows Hcalm Hrows) as (w' & -> & _).
    destruct (db_ok_ids (db w) (user tables) Hok user_is_entity) as [Hnn Hnd].
    unfold table_rows in Hnn, Hnd. rewrite Hrows in Hnn, Hnd. simpl in Hnn, Hnd.
    rewrite (filter_unique rows r Hnd Hr (Hnn r Hr)). reflexivity. }
  split; [exact Hpresent |]. split.
  - intros rows Hrows Habsent.
    destruct (getUser_calm userId w rows Hcalm Hrows) as (w' & -> & _).
    rewrite (filter_none rows userId Habsent). reflexivity.
  - intros u k w0 Hset Hid.
    destruct (setUser_Ok_stored u k w0 w Hset) as (Hok & rows & Hrows & Hin).
    exact (Hpresent rows u Hrows Hok Hin Hid).
Qed.

(** ** Atomicity of [setUser] with a key *)

(** C1, as amended: [setUser] with a key runs BEGIN, the user insert, the
    key insert and COMMIT on a connection of its own, and when it returns
    both rows are stored. When it throws, its transaction threw, for an
    injected failure or a failed insert; unless [connect] itself rejected, a
    ROLLBACK was sent before the connection was closed; and the committed
    database is what it was before the call, so that [getUser] then finds
    what it would have found before, and null when no user had that id. It
    does return when no failure is injected and both inserts succeed. *)
Theorem setUser_with_key_is_atomic (u k : row) (w : world) :
  let result := setUser u (Some k) w in
  match result.1 with
  | Ok _ =>
      trace result.2 = trace w ++ committed_calls u k
      /\ (exists rows1 d1 rows2,
            run_insert (db w) ESCAPED_USER_TABLE_NAME u = Ok (rows1, d1)
            /\ run_insert d1 ESCAPED_KEY_TABLE_NAME k = Ok (rows2, db result.2))
      /\ exists users keys,
           db result.2 !! user tables = Some users /\ u ∈ users
           /\ db result.2 !! key tables = Some keys /\ k ∈ keys
  | Throw e =>
      db result.2 = db w
      /\ (calm 1 (faults w) = false /\ trace result.2 = trace w ++ [Connect]
          \/ calm 1 (faults w) = true
             /\ exists mid,
                  trace result.2
                  = trace w ++ [Connect; ClientQuery Begin []] ++ mid
                      ++ [ClientQuery Rollback []; End])
      /\ (exists e0,
            (transaction (setUser_execute u k) w).1 = Throw e0
            /\ failure_cause 5 u k w e0)
      /\ (forall (userId : sqlval) (rows : list row),
            db w !! user tables = Some rows ->
            calm 1 (faults result.2) = true ->
            (getUser userId result.2).1
            = Ok (head (List.filter (matching "id" userId) rows)))
      /\ (forall rows : list row,
            db w !! user tables = Some rows ->
            (forall r, r ∈ rows -> col "id" r <> col "id" u) ->
            calm 1 (faults result.2) = true ->
            (getUser (col "id" u) result.2).1 = Ok None)
  end
  /\ (calm 5 (faults w) = true ->
      forall rows1 d1 rows2 d2,
        run_insert (db w) ESCAPED_USER_TABLE_NAME u = Ok (rows1, d1) ->
        run_insert d1 ESCAPED_KEY_TABLE_NAME k = Ok (rows2, d2) ->
        result.1 = Ok tt).
Proof.
  cbv zeta.
  destruct (setUser_world u k w) as [Hw Hiff].
  destruct (transaction_setUser u k w) as (r & w' & Htx & _ & Hr).
  rewrite Htx in Hw, Hiff. cbn [fst snd] in Hw, Hiff.
  split.
  - destruct (setUser u (Some k) w) as [[[]|e] w''] eqn:Hset;
      cbn [fst snd] in *; subst w''.
    + destruct Hiff as [Hiff _]. specialize (Hiff eq_refl). subst r.
      destruct Hr as (rows1 & d1 & rows2 & d2 & Hx1 & Hx2 & Hdb & _ & Htr).
      split; [exact Htr |]. subst d2. split; [eauto |].
      destruct (setUser_Ok_stored u (Some k) w w' Hset) as (_ & users & Hu & Hin).
      apply run_insert_Ok in Hx2 as (oldk & _ & Hd2 & _).
      exists users, (oldk ++ [k]). split; [exact Hu |]. split; [exact Hin |].
      rewrite Hd2. simpl. rewrite lookup_insert_eq. split; [reflexivity |].
      rewrite elem_of_app, list_elem_of_singleton. auto.
    + destruct r as [[]|e0].
      { destruct Hiff as [_ Hiff]. discriminate (Hiff eq_refl). }
      destruct Hr as (Hdb & Htr & Hcause).
      split; [exact Hdb |]. split; [exact Htr |].
      split; [exists e0; rewrite Htx; auto |].
      assert (forall (userId : sqlval) (rows : list row),
                db w !! user tables = Some rows ->
                calm 1 (faults w') = true ->
                (getUser userId w').1
                = Ok (head (List.filter (matching "id" userId) rows))) as Hget.
      { intros userId rows Hrows Hcalm. rewrite <- Hdb in Hrows.
        destruct (getUser_calm userId w' rows Hcalm Hrows) as (w2 & -> & _).
        reflexivity. }
      split; [exact Hget |].
      intros rows Hrows Habsent Hcalm.
      rewrite (Hget _ rows Hrows Hcalm), (filter_none rows _ Habsent). reflexivity.
  - intros Hcalm rows1 d1 rows2 d2 Hx1 Hx2. apply Hiff.
    destruct r as [[]|e0]; [reflexivity |]. exfalso.
    destruct Hr as (_ & _ & [Hf | [Hf | (r1 & d1' & Hf1 & Hf2)]]); congruence.
Qed.

(** ** The joined lookup *)

Lemma join_rows_elem (users sessions : list row) (v : sqlval) (j : row) :
  j ∈ join_rows users sessions v ->
  exists s u,
    s ∈ sessions /\ matching "id" v s = true
    /\ u ∈ users /\ matching "id" (col "user_id" s) u = true
    /\ j = <["__session_id" := col "id" s]> u.
Proof.
  unfold join_rows. intros Hj.
  apply list_elem_of_In, in_flat_map in Hj as (s & Hs & Hj).
  destruct (matching "id" v s) eqn:Hm; [| inversion Hj].
  apply list_elem_of_In, list_elem_of_fmap in Hj as (u & -> & Hu).
  apply list_elem_of_In, filter_In in Hu as [Hu Hmu].
  exists s, u. rewrite <- !list_elem_of_In in *. auto.
Qed.

Lemma matching_col (c : string) (v : sqlval) (r : row) :
  matching c v r = true -> r !! c = Some v /\ is_null v = false.
Proof.
  unfold matching, sql_eq, col. intros H.
  apply andb_prop in H as [H Heq]. apply andb_prop in H as [Hr Hv].
  apply bool_decide_eq_true in Heq. apply negb_true_iff in Hv.
  split; [| exact Hv].
  destruct (r !! c) as [x|]; simpl in *; [congruence | discriminate].
Qed.

Lemma session_is_entity (t : ident) :
  ESCAPED_SESSION_TABLE_NAME = Some t -> ident_name t ∈ entity_tables tables.
Proof.
  unfold ESCAPED_SESSION_TABLE_NAME, entity_tables.
  destruct (session tables) as [name|]; [| discriminate].
  destruct (String.eqb name ""); [discriminate |].
  intros [= <-]. simpl. right. right. left.
Qed.

(** With no failure injected, [getSessionAndUser] returns what the two
    lookups find. *)
Lemma getSessionAndUser_calm
    (sessionId : sqlval) (w : world) (t : ident) (sessions users : list row) :
  ESCAPED_SESSION_TABLE_NAME = Some t ->
  calm 2 (faults w) = true ->
  db w !! ident_name t = Some sessions ->
  db w !! user tables = Some users ->
  (getSessionAndUser sessionId w).1
  = Ok (match head (List.filter (matching "id" sessionId) sessions),
              head (join_rows users sessions sessionId) with
        | Some s, Some j =>
            (Some (transformDatabaseSession s), Some (delete "__session_id" j))
        | _, _ => (None, None)
        end).
Proof.
  intros Ht Hcalm Hs Hu. rewrite calm_S in Hcalm.
  apply andb_prop in Hcalm as [Hc1 Hc2].
  unfold getSessionAndUser. rewrite Ht. run.
  destruct (sql_calm (SelectWhere t "id" (Dollar 1)) [sessionId] w Hc1)
    as (w1 & -> & Hf1 & Hd1).
  unfold exec_stmt in Hd1 |- *. rewrite Hs in Hd1 |- *. simpl in Hd1 |- *.
  rewrite <- Hf1 in Hc2.
  destruct (sql_calm (SelectUserJoin ESCAPED_USER_TABLE_NAME t (Dollar 1))
              [sessionId] w1 Hc2) as (w2 & -> & _ & _).
  unfold exec_stmt. rewrite Hd1. simpl. rewrite Hs, Hu. simpl.
  destruct (head (List.filter _ sessions)) as [s|]; simpl;
    [destruct (head (join_rows users sessions sessionId)) as [j|] |];
    reflexivity.
Qed.


(** C9: the user [getSessionAndUser] returns is the first row of the joined
    lookup without the alias [__session_id]: it has no such property, and
    every other column of the joined row is in it, unchanged. *)
Theorem getSessionAndUser_strips_the_alias
    (sessionId : sqlval) (w : world) (sessionResult userResult : row) :
  (getSessionAndUser sessionId w).1 = Ok (Some sessionResult, Some userResult) ->
  exists (t : ident) (sessions users : list row) (j : row),
    ESCAPED_SESSION_TABLE_NAME = Some t
    /\ db w !! ident_name t = Some sessions
    /\ db w !! user tables = Some users
    /\ head (join_rows users sessions sessionId) = Some j
    /\ is_Some (j !! "__session_id")
    /\ userResult !! "__session_id" = None
    /\ forall c : string, c <> "__session_id" -> userResult !! c = j !! c.
Proof.
  unfold getSessionAndUser.
  destruct ESCAPED_SESSION_TABLE_NAME as [t|]; [| discriminate]. run.
  destruct (sql_call (SelectWhere t "id" (Dollar 1)) [sessionId] w)
    as (p1 & w1 & -> & _ & _ & _ & Hp1).
  destruct (sql_call (SelectUserJoin ESCAPED_USER_TABLE_NAME t (Dollar 1))
              [sessionId] w1) as (p2 & w2 & -> & _ & _ & _ & Hp2).
  destruct p1 as [rows1|e1]; simpl.
  2: { destruct p2; discriminate. }
  destruct p2 as [rows2|e2]; simpl; [| discriminate].
  destruct Hp1 as [_ Hx1], Hp2 as [_ Hx2].
  unfold exec_stmt in Hx1, Hx2. simpl in Hx1, Hx2.
  destruct (db w !! ident_name t) as [sessions|] eqn:Hs; [| discriminate].
  injection Hx1 as _ Hd1. rewrite <- Hd1 in Hx2.
  destruct (db w !! user tables) as [users|] eqn:Hu; [| discriminate].
  rewrite Hs in Hx2. injection Hx2 as <- _.
  destruct (head rows1) as [s|]; simpl; [| discriminate].
  destruct (head (join_rows users sessions sessionId)) as [j|] eqn:Hj;
    simpl; [| discriminate].
  intros [= _ <-]. exists t, sessions, users, j.
  repeat split; try reflexivity; try assumption.
  - apply head_Some_elem_of in Hj.
    apply join_rows_elem in Hj as (s' & u & _ & _ & _ & _ & ->).
    rewrite lookup_insert_eq. eauto.
  - apply lookup_delete_eq.
  - intros c Hc. apply lookup_delete_ne. congruence.
Qed.

(** ** Further properties *)

(** X1: a session table configured with the empty name counts as no
    session table: each of the seven session operations throws the
    configuration error and sends nothing. *)
Theorem empty_session_name_is_no_session_table
    (w : world) (id : sqlval) (obj : row) :
  session tables = Some "" ->
  let configuration_error := Error "Session table not defined" in
  getSession id w = (Throw configuration_error, w)
  /\ getSessionsByUserId id w = (Throw configuration_error, w)
  /\ setSession obj w = (Throw configuration_error, w)
  /\ deleteSession id w = (Throw configuration_error, w)
  /\ deleteSessionsByUserId id w = (Throw configuration_error, w)
  /\ updateSession id obj w = (Throw configuration_error, w)
  /\ getSessionAndUser id w = (Throw configuration_error, w).
Proof.
  intros Hempty%empty_session_table. cbv zeta.
  unfold getSession, getSessionsByUserId, setSession, deleteSession,
    deleteSessionsByUserId, updateSession, getSessionAndUser.
  rewrite Hempty. repeat split.
Qed.

(** A session table with a name that is not empty is configured, under
    its escaped name. *)
Lemma named_session_table (name : string) :
  session tables = Some name -> name <> "" ->
  ESCAPED_SESSION_TABLE_NAME = Some (escapeName name).
Proof.
  unfold ESCAPED_SESSION_TABLE_NAME. intros -> Hne.
  destruct (String.eqb_spec name ""); [contradiction | reflexivity].
Qed.

(** A SELECT leaves the database as it is. *)
Lemma exec_select_db (d d' : database) (s : stmt) (args : list sqlval) (rows : list row) :
  match s with SelectWhere _ _ _ | SelectUserJoin _ _ _ => True | _ => False end ->
  exec_stmt tables d s args = Ok (rows, d') -> d' = d.
Proof.
  unfold exec_stmt. destruct s; try contradiction; intros _.
  - destruct (d !! ident_name t), (param args p); try discriminate.
    intros [= _ <-]. reflexivity.
  - destruct (d !! ident_name u), (d !! ident_name s), (param args p);
      try discriminate.
    intros [= _ <-]. reflexivity.
Qed.

Lemma sql_select_reads (s : stmt) (args : list sqlval) (w : world) :
  match s with SelectWhere _ _ _ | SelectUserJoin _ _ _ => True | _ => False end ->
  exists p w',
    sql s args w = (Ok p, w')
    /\ trace w' = trace w ++ [SqlQuery s args]
    /\ db w' = db w /\ conns w' = conns w /\ tx w' = tx w.
Proof.
  intros Hs. destruct (sql_call s args w) as (p & w' & Hsql & Ht & Hc & Hx & Hp).
  exists p, w'. repeat split; try assumption.
  destruct p as [rows|e]; [| exact Hp].
  destruct Hp as [_ Hexec]. exact (exec_select_db _ _ _ _ _ Hs Hexec).
Qed.

Ltac one_read :=
  match goal with
  | |- only_reads _ [SqlQuery ?s ?a] ?w =>
      let p := fresh "p" in
      let w' := fresh "w'" in
      let H := fresh "H" in
      destruct (sql_select_reads s a w I) as (p & w' & H & ? & ? & ? & ?);
      unfold only_reads; run; rewrite H; destruct p; simpl; auto
  end.

Ltac one_write :=
  match goal with
  | |- writes_once _ (SqlQuery ?s ?a) ?w =>
      let p := fresh "p" in
      let w' := fresh "w'" in
      let H := fresh "H" in
      let Hp := fresh "Hp" in
      destruct (sql_call s a w) as (p & w' & H & ? & ? & ? & Hp);
      unfold writes_once; run; rewrite H; destruct p; simpl;
      repeat split; try assumption; intros ?; [discriminate | intros _; exact Hp]
  end.

Lemma setKey_eq (k : row) :
  setKey k
  = try_catch
      (let! inserted := sql (insert_stmt ESCAPED_KEY_TABLE_NAME k) (insert_args k) in
       let! _ := await inserted in
       ret tt)
      (fun e =>
         let! invalid := code_and_detail e "23503" "Key (user_id)" in
         if invalid then throw (LuciaError "AUTH_INVALID_USER_ID")
         else
           let! duplicate := code_and_detail e "23505" "Key (id)" in
           if duplicate then throw (LuciaError "AUTH_DUPLICATE_KEY_ID")
           else throw e).
Proof.
  unfold setKey, insert_stmt, insert_args.
  destruct (helper k) as [[? ?] ?]. reflexivity.
Qed.

Lemma setSession_eq (t : ident) (s : row) :
  ESCAPED_SESSION_TABLE_NAME = Some t ->
  setSession s
  = try_catch
      (let! inserted := sql (insert_stmt t s) (insert_args s) in
       let! _ := await inserted in
       ret tt)
      (fun e =>
         let! invalid := code_and_detail e "23503" "Key (user_id)" in
         if invalid then throw (LuciaError "AUTH_INVALID_USER_ID")
         else throw e).
Proof.
  intros Ht. unfold setSession, insert_stmt, insert_args. rewrite Ht.
  destruct (helper s) as [[? ?] ?]. reflexivity.
Qed.

(** [setKey] and [setSession] return when their insert is fulfilled and
    throw when it is rejected, in the world the insert left. *)
Lemma setKey_paths (k : row) (w : world) :
  exists p w',
    sql (insert_stmt ESCAPED_KEY_TABLE_NAME k) (insert_args k) w = (Ok p, w')
    /\ (setKey k w).2 = w'
    /\ match p with
       | Ok _ => (setKey k w).1 = Ok tt
       | Throw _ => exists e', (setKey k w).1 = Throw e'
       end.
Proof.
  rewrite setKey_eq.
  destruct (sql_returns_promise (insert_stmt ESCAPED_KEY_TABLE_NAME k) (insert_args k) w)
    as (p & w' & Hsql).
  exists p, w'. split; [exact Hsql |]. run. rewrite Hsql.
  destruct p as [rows|e]; simpl; [auto |].
  pose proof (code_and_detail_pure e "23503" "Key (user_id)" w') as H1.
  destruct (code_and_detail e "23503" "Key (user_id)" w') as [[[]|e1] w1];
    simpl in H1 |- *; subst w1; eauto.
  pose proof (code_and_detail_pure e "23505" "Key (id)" w') as H2.
  destruct (code_and_detail e "23505" "Key (id)" w') as [[[]|e2] w2];
    simpl in H2 |- *; subst w2; eauto.
Qed.

Lemma setSession_paths (t : ident) (s : row) (w : world) :
  ESCAPED_SESSION_TABLE_NAME = Some t ->
  exists p w',
    sql (insert_stmt t s) (insert_args s) w = (Ok p, w')
    /\ (setSession s w).2 = w'
    /\ match p with
       | Ok _ => (setSession s w).1 = Ok tt
       | Throw _ => exists e', (setSession s w).1 = Throw e'
       end.
Proof.
  intros Ht. rewrite (setSession_eq t s Ht).
  destruct (sql_returns_promise (insert_stmt t s) (insert_args s) w)
    as (p & w' & Hsql).
  exists p, w'. split; [exact Hsql |]. run. rewrite Hsql.
  destruct p as [rows|e]; simpl; [auto |].
  pose proof (code_and_detail_pure e "23503" "Key (user_id)" w') as H1.
  destruct (code_and_detail e "23503" "Key (user_id)" w') as [[[]|e1] w1];
    simpl in H1 |- *; subst w1; eauto.
Qed.

Lemma setKey_writes_once (k : row) (w : world) :
  writes_once (setKey k)
    (SqlQuery (insert_stmt ESCAPED_KEY_TABLE_NAME k) (insert_args k)) w.
Proof.
  destruct (setKey_paths k w) as (p & w' & Hsql & Hw & Hp).
  destruct (sql_call (insert_stmt ESCAPED_KEY_TABLE_NAME k) (insert_args k) w)
    as (p0 & w0 & Hsql0 & Ht & Hc & Hx & Hp0).
  rewrite Hsql in Hsql0. injection Hsql0 as <- <-.
  unfold writes_once. rewrite Hw. repeat split; try assumption.
  intros e He. destruct p as [rows|e0]; [congruence | exact Hp0].
Qed.

Lemma setSession_writes_once (t : ident) (s : row) (w : world) :
  ESCAPED_SESSION_TABLE_NAME = Some t ->
  writes_once (setSession s) (SqlQuery (insert_stmt t s) (insert_args s)) w.
Proof.
  intros Hes. destruct (setSession_paths t s w Hes) as (p & w' & Hsql & Hw & Hp).
  destruct (sql_call (insert_stmt t s) (insert_args s) w)
    as (p0 & w0 & Hsql0 & Ht & Hc & Hx & Hp0).
  rewrite Hsql in Hsql0. injection Hsql0 as <- <-.
  unfold writes_once. rewrite Hw. repeat split; try assumption.
  intros e He. destruct p as [rows|e0]; [congruence | exact Hp0].
Qed.

(** X2: every operation other than [setUser] with a key goes through the
    SQL execution facility alone. The lookups send their one SELECT
    ([getSessionAndUser] its two) and change nothing; the other operations
    send their one statement, and change nothing when they throw. None of
    them opens a connection or a transaction. *)
Theorem operations_send_one_statement (id : sqlval) (obj : row) (w : world) :
  (only_reads (getUser id)
     [SqlQuery (SelectWhere ESCAPED_USER_TABLE_NAME "id" (Dollar 1)) [id]] w
   /\ only_reads (getKey id)
        [SqlQuery (SelectWhere ESCAPED_KEY_TABLE_NAME "id" (Dollar 1)) [id]] w
   /\ only_reads (getKeysByUserId id)
        [SqlQuery (SelectWhere ESCAPED_KEY_TABLE_NAME "user_id" (Dollar 1)) [id]] w)
  /\ (writes_once (setUser obj None)
        (SqlQuery (insert_stmt ESCAPED_USER_TABLE_NAME obj) (insert_args obj)) w
      /\ writes_once (setKey obj)
           (SqlQuery (insert_stmt ESCAPED_KEY_TABLE_NAME obj) (insert_args obj)) w
      /\ writes_once (updateUser id obj)
           (SqlQuery (update_stmt ESCAPED_USER_TABLE_NAME obj) (update_args id obj)) w
      /\ writes_once (updateKey id obj)
           (SqlQuery (update_stmt ESCAPED_KEY_TABLE_NAME obj) (update_args id obj)) w
      /\ writes_once (deleteUser id)
           (SqlQuery (DeleteWhere ESCAPED_USER_TABLE_NAME "id" (Dollar 1)) [id]) w
      /\ writes_once (deleteKey id)
           (SqlQuery (DeleteWhere ESCAPED_KEY_TABLE_NAME "id" (Dollar 1)) [id]) w
      /\ writes_once (deleteKeysByUserId id)
           (SqlQuery (DeleteWhere ESCAPED_KEY_TABLE_NAME "user_id" (Dollar 1)) [id]) w)
  /\ forall t : ident,
       ESCAPED_SESSION_TABLE_NAME = Some t ->
       only_reads (getSession id) [SqlQuery (SelectWhere t "id" (Dollar 1)) [id]] w
       /\ only_reads (getSessionsByUserId id)
            [SqlQuery (SelectWhere t "user_id" (Dollar 1)) [id]] w
       /\ only_reads (getSessionAndUser id)
            [SqlQuery (SelectWhere t "id" (Dollar 1)) [id];
             SqlQuery (SelectUserJoin ESCAPED_USER_TABLE_NAME t (Dollar 1)) [id]] w
       /\ writes_once (setSession obj)
            (SqlQuery (insert_stmt t obj) (insert_args obj)) w
       /\ writes_once (updateSession id obj)
            (SqlQuery (update_stmt t obj) (update_args id obj)) w
       /\ writes_once (deleteSession id)
            (SqlQuery (DeleteWhere t "id" (Dollar 1)) [id]) w
       /\ writes_once (deleteSessionsByUserId id)
            (SqlQuery (DeleteWhere t "user_id" (Dollar 1)) [id]) w.
Proof.
  split; [| split].
  - unfold getUser, getKey, getKeysByUserId.
    repeat match goal with |- _ /\ _ => split end; one_read.
  - repeat match goal with |- _ /\ _ => split end.
    + rewrite setUser_without_key_eq. one_write.
    + apply setKey_writes_once.
    + unfold updateUser, update_stmt, update_args.
      destruct (helper obj) as [[fields values] args]. cbn [fst snd]. one_write.
    + unfold updateKey, update_stmt, update_args.
      destruct (helper obj) as [[fields values] args]. cbn [fst snd]. one_write.
    + unfold deleteUser. one_write.
    + unfold deleteKey. one_write.
    + unfold deleteKeysByUserId. one_write.
  - intros t Ht.
    repeat match goal with |- _ /\ _ => split end.
    + unfold getSession. rewrite Ht. one_read.
    + unfold getSessionsByUserId. rewrite Ht. one_read.
    + unfold getSessionAndUser, only_reads. rewrite Ht. run.
      destruct (sql_select_reads (SelectWhere t "id" (Dollar 1)) [id] w I)
        as (p1 & w1 & -> & Ht1 & Hd1 & Hc1 & Hx1).
      destruct (sql_select_reads
                  (SelectUserJoin ESCAPED_USER_TABLE_NAME t (Dollar 1)) [id] w1 I)
        as (p2 & w2 & -> & Ht2 & Hd2 & Hc2 & Hx2).
      assert (trace w2 = trace w ++
                [SqlQuery (SelectWhere t "id" (Dollar 1)) [id];
                 SqlQuery (SelectUserJoin ESCAPED_USER_TABLE_NAME t (Dollar 1)) [id]])
        as Htr by (rewrite Ht2, Ht1, <- app_assoc; reflexivity).
      destruct p1 as [rows1|e1], p2 as [rows2|e2]; simpl;
        try (destruct (head rows1); [destruct (head rows2) |]); simpl;
        repeat split; congruence.
    + apply setSession_writes_once. exact Ht.
    + unfold updateSession, update_stmt, update_args. rewrite Ht.
      destruct (helper obj) as [[fields values] args]. cbn [fst snd]. one_write.
    + unfold deleteSession. rewrite Ht. one_write.
    + unfold deleteSessionsByUserId. rewrite Ht. one_write.
Qed.

(** ** The constraints, spelled out *)

Lemma existsb_false_all {A : Type} (f : A -> bool) (l : list A) :
  (forall a, a ∈ l -> f a = false) -> existsb f l = false.
Proof.
  induction l as [|x l IH]; intros H; [reflexivity |]. simpl.
  rewrite (H x) by left. apply IH. intros a Ha. apply H. right. exact Ha.
Qed.

Lemma first_some_all_None {A B : Type} (f : A -> option B) (l : list A) :
  (forall a, a ∈ l -> f a = None) -> first_some f l = None.
Proof.
  induction l as [|x l IH]; intros H; [reflexivity |]. simpl.
  rewrite (H x) by left. apply IH. intros a Ha. apply H. right. exact Ha.
Qed.

Lemma first_some_Some {A B : Type} (f : A -> option B) (l : list A) (a : A) (b : B) :
  a ∈ l -> f a = Some b -> exists b', first_some f l = Some b'.
Proof.
  induction l as [|x l IH]; intros Hin Hb; [inversion Hin |]. simpl.
  destruct (f x) eqn:Hx; [eauto |].
  apply elem_of_cons in Hin as [-> | Hin]; [congruence | auto].
Qed.

Lemma NoDup_first_dup (l : list sqlval) : NoDup l -> first_dup l = None.
Proof.
  induction 1 as [|v l Hv Hnd IH]; [reflexivity |]. simpl.
  case_bool_decide; [contradiction | exact IH].
Qed.

Lemma first_dup_Some (l : list sqlval) : ~ NoDup l -> exists v, first_dup l = Some v.
Proof.
  intros H. destruct (first_dup l) eqn:Hd; [eauto |].
  exfalso. apply H, first_dup_None, Hd.
Qed.

Lemma sql_eq_true (a b : sqlval) :
  sql_eq a b = true <-> a = b /\ is_null a = false.
Proof.
  unfold sql_eq. split.
  - intros H. apply andb_prop in H as [H Heq]. apply andb_prop in H as [Ha _].
    apply bool_decide_eq_true in Heq. apply negb_true_iff in Ha. auto.
  - intros [<- Ha]. rewrite Ha. simpl. apply bool_decide_eq_true. reflexivity.
Qed.

Lemma existsb_sql_eq (v : sqlval) (ids : list sqlval) :
  existsb (sql_eq v) ids = true <-> v ∈ ids /\ is_null v = false.
Proof.
  rewrite existsb_exists. split.
  - intros (x & Hin & Heq). apply sql_eq_true in Heq as [<- Hn].
    split; [apply list_elem_of_In; exact Hin | exact Hn].
  - intros [Hin Hn]. exists v. split; [apply list_elem_of_In; exact Hin |].
    apply sql_eq_true. auto.
Qed.

Lemma dangling_in_None (d : database) (t : string) :
  dangling_in tables d t = None
  <-> forall r, r ∈ table_rows d t ->
        existsb (sql_eq (col "user_id" r))
          (col "id" <$> table_rows d (user tables)) = true.
Proof.
  unfold dangling_in.
  induction (table_rows d t) as [|x l IH]; simpl.
  - split; [intros _ r Hr; inversion Hr | reflexivity].
  - destruct (existsb _ _) eqn:Hx; simpl.
    + rewrite IH. split.
      * intros H r Hr. apply elem_of_cons in Hr as [-> | Hr]; auto.
      * intros H r Hr. apply H. right. exact Hr.
    + split; [discriminate |]. intros H.
      rewrite (H x) in Hx by left. discriminate.
Qed.

(** The boolean check of the database is the conjunction of the
    constraints. *)
Lemma db_ok_constraints (d : database) :
  db_ok tables d = true <-> constraints_hold d.
Proof.
  unfold db_ok, violation, constraints_hold. split.
  - intros H.
    destruct (existsb (null_in "id" d) (entity_tables tables)
              || existsb (null_in "user_id" d) (child_tables tables)) eqn:Hor;
      [discriminate |].
    apply orb_false_elim in Hor as [Hid Huid].
    destruct (first_some (dup_in d) (entity_tables tables)) eqn:Hdup; [discriminate |].
    destruct (first_some (dangling_in tables d) (child_tables tables)) eqn:Hdang;
      [discriminate |].
    split; [| split; [| split]].
    + intros t r Ht Hr.
      exact (existsb_false_elem _ _ r (existsb_false_elem _ _ t Hid Ht) Hr).
    + intros t r Ht Hr.
      exact (existsb_false_elem _ _ r (existsb_false_elem _ _ t Huid Ht) Hr).
    + intros t Ht. apply first_dup_None. exact (first_some_None _ _ t Hdup Ht).
    + intros t r Ht Hr.
      pose proof (first_some_None _ _ t Hdang Ht) as Hnone.
      rewrite dangling_in_None in Hnone. specialize (Hnone r Hr).
      apply existsb_sql_eq in Hnone as [Hin _]. exact Hin.
  - intros (Hid & Huid & Hnd & Hfk).
    rewrite (existsb_false_all (null_in "id" d) (entity_tables tables)).
    2: { intros t Ht. apply existsb_false_all. intros r Hr. exact (Hid t r Ht Hr). }
    rewrite (existsb_false_all (null_in "user_id" d) (child_tables tables)).
    2: { intros t Ht. apply existsb_false_all. intros r Hr. exact (Huid t r Ht Hr). }
    rewrite (first_some_all_None (dup_in d) (entity_tables tables)).
    2: { intros t Ht. apply NoDup_first_dup, Hnd, Ht. }
    rewrite (first_some_all_None (dangling_in tables d) (child_tables tables)).
    2: { intros t Ht. apply dangling_in_None. intros r Hr.
         apply existsb_sql_eq. split; [exact (Hfk t r Ht Hr) | exact (Huid t r Ht Hr)]. }
    reflexivity.
Qed.

(** The rows of the tables after the rows of one table were replaced. *)
Lemma table_rows_insert (d : database) (t t' : string) (rows : list row) :
  table_rows (<[t := rows]> d) t' = if decide (t = t') then rows else table_rows d t'.
Proof.
  unfold table_rows. rewrite lookup_insert. destruct (decide (t = t')); reflexivity.
Qed.

Lemma table_rows_Some (d : database) (t : string) (rows : list row) :
  d !! t = Some rows -> table_rows d t = rows.
Proof. unfold table_rows. intros ->. reflexivity. Qed.

(** A write succeeds exactly when the database it would leave satisfies
    the constraints. *)
Lemma write_Ok (d : database) (t : string) (rows : list row) :
  constraints_hold (<[t := rows]> d) ->
  write tables d t rows = Ok ([], <[t := rows]> d).
Proof.
  intros H%db_ok_constraints%(db_ok_violation t). unfold write. rewrite H. reflexivity.
Qed.

(** ** Deletions *)

Lemma exec_delete (d : database) (t : ident) (c : string) (v : sqlval) :
  exec_stmt tables d (DeleteWhere t c (Dollar 1)) [v]
  = match d !! ident_name t with
    | None => Throw undefined_table
    | Some rows =>
        write tables d (ident_name t)
          (List.filter (fun r => negb (matching c v r)) rows)
    end.
Proof. unfold exec_stmt. simpl. destruct (d !! ident_name t); reflexivity. Qed.

Lemma exec_select (d : database) (t : ident) (c : string) (v : sqlval) :
  exec_stmt tables d (SelectWhere t c (Dollar 1)) [v]
  = match d !! ident_name t with
    | None => Throw undefined_table
    | Some rows => Ok (List.filter (matching c v) rows, d)
    end.
Proof. unfold exec_stmt. simpl. destruct (d !! ident_name t); reflexivity. Qed.

Lemma filter_after_delete (c : string) (v : sqlval) (rows : list row) :
  List.filter (matching c v) (List.filter (fun r => negb (matching c v r)) rows) = [].
Proof.
  apply filter_nothing. intros r Hr.
  apply list_elem_of_In, filter_In in Hr as [_ Hr].
  apply negb_true_iff in Hr. exact Hr.
Qed.

Lemma filter_keeps_all (c : string) (v : sqlval) (rows : list row) :
  (forall r, r ∈ rows -> col c r <> v) ->
  List.filter (fun r => negb (matching c v r)) rows = rows.
Proof.
  intros H. induction rows as [|x rows IH]; [reflexivity |]. simpl.
  destruct (matching c v x) eqn:Hm; simpl.
  - exfalso. apply (H x); [left |].
    unfold matching in Hm. apply sql_eq_true in Hm as [Hm _]. exact Hm.
  - f_equal. apply IH. intros r Hr. apply H. right. exact Hr.
Qed.

(** A row that a DELETE removed is not found by the SELECT on the same
    column and value. *)
Lemma delete_then_select
    (t : ident) (c : string) (v : sqlval) (w0 w : world) (rows : list row) :
  sql (DeleteWhere t c (Dollar 1)) [v] w0 = (Ok (Ok rows), w) ->
  calm 1 (faults w) = true ->
  exists w', sql (SelectWhere t c (Dollar 1)) [v] w = (Ok (Ok []), w').
Proof.
  intros Hdel Hcalm.
  destruct (sql_call (DeleteWhere t c (Dollar 1)) [v] w0)
    as (p & w1 & Hsql & _ & _ & _ & Hp).
  rewrite Hdel in Hsql. injection Hsql as <- <-. destruct Hp as [_ Hexec].
  rewrite exec_delete in Hexec.
  destruct (db w0 !! ident_name t) as [old|]; [| discriminate].
  destruct (write_cases (db w0) (ident_name t)
              (List.filter (fun r => negb (matching c v r)) old))
    as [[Hw _] | [e He]]; rewrite ?Hw, ?He in Hexec; [| discriminate].
  injection Hexec as _ Hdb.
  destruct (sql_calm (SelectWhere t c (Dollar 1)) [v] w Hcalm) as (w' & Hsel & _).
  rewrite exec_select, <- Hdb, lookup_insert_eq, filter_after_delete in Hsel.
  eauto.
Qed.

(** A DELETE that matches no row succeeds and changes nothing. *)
Lemma delete_nothing
    (t : ident) (c : string) (v : sqlval) (w : world) (rows : list row) :
  calm 1 (faults w) = true ->
  db_ok tables (db w) = true ->
  db w !! ident_name t = Some rows ->
  (forall r, r ∈ rows -> col c r <> v) ->
  exists w',
    sql (DeleteWhere t c (Dollar 1)) [v] w = (Ok (Ok []), w') /\ db w' = db w.
Proof.
  intros Hcalm Hok Hrows Hnone.
  destruct (sql_calm (DeleteWhere t c (Dollar 1)) [v] w Hcalm) as (w' & Hsql & _ & Hdb).
  rewrite exec_delete, Hrows, (filter_keeps_all c v rows Hnone) in Hsql, Hdb.
  unfold write in Hsql, Hdb. rewrite (insert_id _ _ _ Hrows) in Hsql, Hdb.
  apply (db_ok_violation (ident_name t)) in Hok. rewrite Hok in Hsql, Hdb.
  eauto.
Qed.

Ltac run_delete H :=
  match type of H with
  | context [sql ?s ?a ?w0] =>
      let p := fresh "p" in
      let w1 := fresh "w1" in
      let Hs := fresh "Hsql" in
      destruct (sql_returns_promise s a w0) as (p & w1 & Hs);
      rewrite Hs in H; destruct p; simpl in H;
      [injection H as <- | discriminate]
  end.

(** X3: what a delete that returned has removed is not found afterwards:
    [getUser], [getKey] and [getSession] return null for the id that
    [deleteUser], [deleteKey] and [deleteSession] were given, and
    [getKeysByUserId] and [getSessionsByUserId] return no row for the user
    id that [deleteKeysByUserId] and [deleteSessionsByUserId] were given. *)
Theorem deleted_rows_are_gone (id : sqlval) (w : world) :
  calm 1 (faults w) = true ->
  (forall w0, deleteUser id w0 = (Ok tt, w) -> (getUser id w).1 = Ok None)
  /\ (forall w0, deleteKey id w0 = (Ok tt, w) -> (getKey id w).1 = Ok None)
  /\ (forall w0, deleteKeysByUserId id w0 = (Ok tt, w) ->
                 (getKeysByUserId id w).1 = Ok [])
  /\ (forall w0, is_Some ESCAPED_SESSION_TABLE_NAME ->
                 deleteSession id w0 = (Ok tt, w) -> (getSession id w).1 = Ok None)
  /\ (forall w0, is_Some ESCAPED_SESSION_TABLE_NAME ->
                 deleteSessionsByUserId id w0 = (Ok tt, w) ->
                 (getSessionsByUserId id w).1 = Ok []).
Proof.
  intros Hcalm. repeat split.
  - intros w0 H. unfold deleteUser, getUser in *. unfold bind, ret, await in H |- *.
    run_delete H.
    destruct (delete_then_select _ _ _ _ _ _ Hsql Hcalm) as (w' & ->). reflexivity.
  - intros w0 H. unfold deleteKey, getKey in *. unfold bind, ret, await in H |- *.
    run_delete H.
    destruct (delete_then_select _ _ _ _ _ _ Hsql Hcalm) as (w' & ->). reflexivity.
  - intros w0 H. unfold deleteKeysByUserId, getKeysByUserId in *.
    unfold bind, ret, await in H |- *. run_delete H.
    destruct (delete_then_select _ _ _ _ _ _ Hsql Hcalm) as (w' & ->). reflexivity.
  - intros w0 [t Ht] H. unfold deleteSession, getSession in *. rewrite Ht in H |- *.
    unfold bind, ret, await in H |- *. run_delete H.
    destruct (delete_then_select _ _ _ _ _ _ Hsql Hcalm) as (w' & ->). reflexivity.
  - intros w0 [t Ht] H. unfold deleteSessionsByUserId, getSessionsByUserId in *.
    rewrite Ht in H |- *. unfold bind, ret, await in H |- *. run_delete H.
    destruct (delete_then_select _ _ _ _ _ _ Hsql Hcalm) as (w' & ->). reflexivity.
Qed.

(** X4: deleting what is not there is no error. With no failure injected
    and a database that satisfies its constraints, a delete whose id (or
    user id) no row of the table has returns, and leaves the database as it
    was. *)
Theorem deleting_nothing_succeeds (id : sqlval) (w : world) :
  calm 1 (faults w) = true ->
  db_ok tables (db w) = true ->
  (forall rows, db w !! user tables = Some rows ->
     (forall r, r ∈ rows -> col "id" r <> id) ->
     (deleteUser id w).1 = Ok tt /\ db (deleteUser id w).2 = db w)
  /\ (forall rows, db w !! key tables = Some rows ->
        (forall r, r ∈ rows -> col "id" r <> id) ->
        (deleteKey id w).1 = Ok tt /\ db (deleteKey id w).2 = db w)
  /\ (forall rows, db w !! key tables = Some rows ->
        (forall r, r ∈ rows -> col "user_id" r <> id) ->
        (deleteKeysByUserId id w).1 = Ok tt /\ db (deleteKeysByUserId id w).2 = db w)
  /\ (forall t rows, ESCAPED_SESSION_TABLE_NAME = Some t ->
        db w !! ident_name t = Some rows ->
        (forall r, r ∈ rows -> col "id" r <> id) ->
        (deleteSession id w).1 = Ok tt /\ db (deleteSession id w).2 = db w)
  /\ (forall t rows, ESCAPED_SESSION_TABLE_NAME = Some t ->
        db w !! ident_name t = Some rows ->
        (forall r, r ∈ rows -> col "user_id" r <> id) ->
        (deleteSessionsByUserId id w).1 = Ok tt
        /\ db (deleteSessionsByUserId id w).2 = db w).
Proof.
  intros Hcalm Hok. repeat match goal with |- _ /\ _ => split end.
  - intros rows Hrows Hnone. unfold deleteUser. run.
    destruct (delete_nothing ESCAPED_USER_TABLE_NAME "id" id w rows
                Hcalm Hok Hrows Hnone) as (w' & -> & Hdb). auto.
  - intros rows Hrows Hnone. unfold deleteKey. run.
    destruct (delete_nothing ESCAPED_KEY_TABLE_NAME "id" id w rows
                Hcalm Hok Hrows Hnone) as (w' & -> & Hdb). auto.
  - intros rows Hrows Hnone. unfold deleteKeysByUserId. run.
    destruct (delete_nothing ESCAPED_KEY_TABLE_NAME "user_id" id w rows
                Hcalm Hok Hrows Hnone) as (w' & -> & Hdb). auto.
  - intros t rows Ht Hrows Hnone. unfold deleteSession. rewrite Ht. run.
    destruct (delete_nothing t "id" id w rows Hcalm Hok Hrows Hnone)
      as (w' & -> & Hdb). auto.
  - intros t rows Ht Hrows Hnone. unfold deleteSessionsByUserId. rewrite Ht. run.
    destruct (delete_nothing t "user_id" id w rows Hcalm Hok Hrows Hnone)
      as (w' & -> & Hdb). auto.
Qed.

(** ** Lookups of keys and sessions *)

Lemma matching_iff (c : string) (v : sqlval) (r : row) :
  matching c v r = true <-> r !! c = Some v /\ is_null v = false.
Proof.
  split; [apply matching_col |]. intros [Hr Hv].
  unfold matching, col. rewrite Hr. simpl. apply sql_eq_true. auto.
Qed.

Lemma select_calm (t : ident) (c : string) (v : sqlval) (w : world) (rows : list row) :
  calm 1 (faults w) = true ->
  db w !! ident_name t = Some rows ->
  exists w',
    sql (SelectWhere t c (Dollar 1)) [v] w
    = (Ok (Ok (List.filter (matching c v) rows)), w').
Proof.
  intros Hcalm Hrows.
  destruct (sql_calm (SelectWhere t c (Dollar 1)) [v] w Hcalm) as (w' & Hsql & _).
  rewrite exec_select, Hrows in Hsql. eauto.
Qed.

Lemma key_is_entity : key tables ∈ entity_tables tables.
Proof. right. left. Qed.

Lemma key_is_child : key tables ∈ child_tables tables.
Proof. left. Qed.

Lemma session_is_child (t : ident) :
  ESCAPED_SESSION_TABLE_NAME = Some t -> ident_name t ∈ child_tables tables.
Proof.
  unfold ESCAPED_SESSION_TABLE_NAME, child_tables.
  destruct (session tables) as [name|]; [| discriminate].
  destruct (String.eqb name ""); [discriminate |].
  intros [= <-]. simpl. right. left.
Qed.

(** In a database that satisfies its constraints, the SELECT by id finds
    a stored row of an entity table, and only it. *)
Lemma select_by_id (t : ident) (w : world) (rows : list row) (r : row) :
  calm 1 (faults w) = true ->
  db_ok tables (db w) = true ->
  ident_name t ∈ entity_tables tables ->
  db w !! ident_name t = Some rows ->
  r ∈ rows ->
  exists w', sql (SelectWhere t "id" (Dollar 1)) [col "id" r] w = (Ok (Ok [r]), w').
Proof.
  intros Hcalm Hok Ht Hrows Hr.
  destruct (select_calm t "id" (col "id" r) w rows Hcalm Hrows) as (w' & Hsql).
  destruct (db_ok_ids (db w) (ident_name t) Hok Ht) as [Hnn Hnd].
  rewrite (table_rows_Some _ _ _ Hrows) in Hnn, Hnd.
  rewrite (filter_unique rows r Hnd Hr (Hnn r Hr)) in Hsql. eauto.
Qed.

(** X5: with no failure injected, [getKeysByUserId] returns the rows of
    the key table whose user_id is the given one, all of them and no other,
    and [getSessionsByUserId] returns the rows of the session table whose
    user_id is the given one, each passed through
    [transformDatabaseSession], in the order of the table. *)
Theorem lookups_by_user_id (userId : sqlval) (w : world) :
  calm 1 (faults w) = true ->
  (forall rows, db w !! key tables = Some rows ->
     exists found,
       (getKeysByUserId userId w).1 = Ok found
       /\ forall r, r ∈ found
                    <-> r ∈ rows /\ r !! "user_id" = Some userId
                        /\ is_null userId = false)
  /\ (forall t rows, ESCAPED_SESSION_TABLE_NAME = Some t ->
        db w !! ident_name t = Some rows ->
        exists found,
          (getSessionsByUserId userId w).1 = Ok (transformDatabaseSession <$> found)
          /\ found = List.filter (matching "user_id" userId) rows
          /\ forall r, r ∈ found
                       <-> r ∈ rows /\ r !! "user_id" = Some userId
                           /\ is_null userId = false).
Proof.
  intros Hcalm.
  assert (forall rows r,
            r ∈ List.filter (matching "user_id" userId) rows
            <-> r ∈ rows /\ r !! "user_id" = Some userId /\ is_null userId = false)
    as Hfound.
  { intros rows r. rewrite <- matching_iff, !list_elem_of_In. apply filter_In. }
  split.
  - intros rows Hrows.
    destruct (select_calm ESCAPED_KEY_TABLE_NAME "user_id" userId w rows Hcalm Hrows)
      as (w' & Hsql).
    exists (List.filter (matching "user_id" userId) rows).
    unfold getKeysByUserId. run. rewrite Hsql. split; [reflexivity | apply Hfound].
  - intros t rows Ht Hrows.
    destruct (select_calm t "user_id" userId w rows Hcalm Hrows) as (w' & Hsql).
    exists (List.filter (matching "user_id" userId) rows).
    unfold getSessionsByUserId. rewrite Ht. run. rewrite Hsql.
    split; [reflexivity |]. split; [reflexivity | apply Hfound].
Qed.

(** After a [setKey] or a [setSession] that returned, the row is in its
    table and the database satisfies its constraints. *)
Lemma setKey_Ok_stored (k : row) (w0 w : world) :
  setKey k w0 = (Ok tt, w) ->
  db_ok tables (db w) = true
  /\ exists rows, db w !! key tables = Some rows /\ k ∈ rows.
Proof.
  intros H. destruct (setKey_paths k w0) as (p & w' & Hsql & Hw & Hp).
  rewrite H in Hw, Hp. cbn [fst snd] in Hw, Hp. subst w'.
  destruct p as [rows|e]; [| destruct Hp as [e' He']; discriminate].
  destruct (sql_call (insert_stmt ESCAPED_KEY_TABLE_NAME k) (insert_args k) w0)
    as (p0 & w1 & Hsql0 & _ & _ & _ & Hp0).
  rewrite Hsql in Hsql0. injection Hsql0 as <- <-. destruct Hp0 as [_ Hx].
  apply run_insert_Ok in Hx as (old & Hold & -> & Hok).
  split; [exact Hok |]. eexists. rewrite lookup_insert_eq.
  split; [reflexivity |]. rewrite elem_of_app, list_elem_of_singleton. auto.
Qed.

Lemma setSession_Ok_stored (t : ident) (s : row) (w0 w : world) :
  ESCAPED_SESSION_TABLE_NAME = Some t ->
  setSession s w0 = (Ok tt, w) ->
  db_ok tables (db w) = true
  /\ exists rows, db w !! ident_name t = Some rows /\ s ∈ rows.
Proof.
  intros Ht H. destruct (setSession_paths t s w0 Ht) as (p & w' & Hsql & Hw & Hp).
  rewrite H in Hw, Hp. cbn [fst snd] in Hw, Hp. subst w'.
  destruct p as [rows|e]; [| destruct Hp as [e' He']; discriminate].
  destruct (sql_call (insert_stmt t s) (insert_args s) w0)
    as (p0 & w1 & Hsql0 & _ & _ & _ & Hp0).
  rewrite Hsql in Hsql0. injection Hsql0 as <- <-. destruct Hp0 as [_ Hx].
  apply run_insert_Ok in Hx as (old & Hold & -> & Hok).
  split; [exact Hok |]. eexists. rewrite lookup_insert_eq.
  split; [reflexivity |]. rewrite elem_of_app, list_elem_of_singleton. auto.
Qed.

(** X6: what [setKey] and [setSession] stored is what the lookups return.
    After a [setKey] that returned, [getKey] of the key's id returns the
    key and [getKeysByUserId] of its user id returns it among the keys;
    after a [setSession] that returned, [getSession] of the session's id
    returns the session passed through [transformDatabaseSession]. *)
Theorem stored_keys_and_sessions_are_found (w : world) :
  calm 1 (faults w) = true ->
  (forall k w0, setKey k w0 = (Ok tt, w) ->
     (getKey (col "id" k) w).1 = Ok (Some k)
     /\ exists found,
          (getKeysByUserId (col "user_id" k) w).1 = Ok found /\ k ∈ found)
  /\ (forall s w0, is_Some ESCAPED_SESSION_TABLE_NAME ->
        setSession s w0 = (Ok tt, w) ->
        (getSession (col "id" s) w).1 = Ok (Some (transformDatabaseSession s))).
Proof.
  intros Hcalm. split.
  - intros k w0 Hset.
    destruct (setKey_Ok_stored k w0 w Hset) as (Hok & rows & Hrows & Hin).
    split.
    + destruct (select_by_id ESCAPED_KEY_TABLE_NAME w rows k Hcalm Hok
                  key_is_entity Hrows Hin) as (w' & Hsql).
      unfold getKey. run. rewrite Hsql. reflexivity.
    + destruct (select_calm ESCAPED_KEY_TABLE_NAME "user_id" (col "user_id" k)
                  w rows Hcalm Hrows) as (w' & Hsql).
      eexists. unfold getKeysByUserId. run. rewrite Hsql.
      split; [reflexivity |].
      apply list_elem_of_In, filter_In. split; [apply list_elem_of_In, Hin |].
      apply db_ok_constraints in Hok as (_ & Huid & _).
      specialize (Huid (key tables) k key_is_child).
      rewrite (table_rows_Some _ _ _ Hrows) in Huid. specialize (Huid Hin).
      unfold matching. apply sql_eq_true. auto.
  - intros s w0 [t Ht] Hset.
    destruct (setSession_Ok_stored t s w0 w Ht Hset) as (Hok & rows & Hrows & Hin).
    destruct (select_by_id t w rows s Hcalm Hok (session_is_entity t Ht) Hrows Hin)
      as (w' & Hsql).
    unfold getSession. rewrite Ht. run. rewrite Hsql. reflexivity.
Qed.

(** ** Constraint violations, end to end *)

Lemma violation_duplicate (target : string) (d : database) (t : string) :
  (forall t r, t ∈ entity_tables tables -> r ∈ table_rows d t ->
               is_null (col "id" r) = false) ->
  (forall t r, t ∈ child_tables tables -> r ∈ table_rows d t ->
               is_null (col "user_id" r) = false) ->
  t ∈ entity_tables tables ->
  ~ NoDup (col "id" <$> table_rows d t) ->
  exists v, violation tables target d = Some (pg_error "23505" (already_exists v)).
Proof.
  intros Hid Huid Ht Hdup. unfold violation.
  rewrite (existsb_false_all (null_in "id" d) (entity_tables tables)).
  2: { intros t' Ht'. apply existsb_false_all. intros r Hr. exact (Hid t' r Ht' Hr). }
  rewrite (existsb_false_all (null_in "user_id" d) (child_tables tables)).
  2: { intros t' Ht'. apply existsb_false_all. intros r Hr. exact (Huid t' r Ht' Hr). }
  destruct (first_dup_Some _ Hdup) as [v Hv].
  destruct (first_some_Some (dup_in d) (entity_tables tables) t v Ht Hv) as [v' ->].
  exists v'. reflexivity.
Qed.

Lemma violation_dangling (target : string) (d : database) (t : string) (r : row) :
  (forall t r, t ∈ entity_tables tables -> r ∈ table_rows d t ->
               is_null (col "id" r) = false) ->
  (forall t r, t ∈ child_tables tables -> r ∈ table_rows d t ->
               is_null (col "user_id" r) = false) ->
  (forall t, t ∈ entity_tables tables -> NoDup (col "id" <$> table_rows d t)) ->
  target <> user tables ->
  t ∈ child_tables tables ->
  r ∈ table_rows d t ->
  col "user_id" r ∉ (col "id" <$> table_rows d (user tables)) ->
  exists v, violation tables target d = Some (pg_error "23503" (not_present v)).
Proof.
  intros Hid Huid Hnd Htarget Ht Hr Hdang. unfold violation.
  rewrite (existsb_false_all (null_in "id" d) (entity_tables tables)).
  2: { intros t' Ht'. apply existsb_false_all. intros r' Hr'. exact (Hid t' r' Ht' Hr'). }
  rewrite (existsb_false_all (null_in "user_id" d) (child_tables tables)).
  2: { intros t' Ht'. apply existsb_false_all. intros r' Hr'. exact (Huid t' r' Ht' Hr'). }
  rewrite (first_some_all_None (dup_in d) (entity_tables tables)).
  2: { intros t' Ht'. apply NoDup_first_dup, Hnd, Ht'. }
  destruct (dangling_in tables d t) as [v|] eqn:Hd.
  - destruct (first_some_Some (dangling_in tables d) (child_tables tables) t v Ht Hd)
      as [v' ->].
    exists v'. apply String.eqb_neq in Htarget. simpl. rewrite Htarget. reflexivity.
  - exfalso. rewrite dangling_in_None in Hd. specialize (Hd r Hr).
    apply existsb_sql_eq in Hd as [Hin _]. contradiction.
Qed.

(** The not-null constraints after one row was appended to a table. *)
Lemma appended_not_null (d : database) (n : string) (rows : list row) (obj : row) :
  constraints_hold d ->
  d !! n = Some rows ->
  is_null (col "id" obj) = false ->
  (n ∈ child_tables tables -> is_null (col "user_id" obj) = false) ->
  (forall t r, t ∈ entity_tables tables ->
               r ∈ table_rows (<[n := rows ++ [obj]]> d) t ->
               is_null (col "id" r) = false)
  /\ (forall t r, t ∈ child_tables tables ->
                  r ∈ table_rows (<[n := rows ++ [obj]]> d) t ->
                  is_null (col "user_id" r) = false).
Proof.
  intros (Hid & Huid & _) Hrows Hobj Hobju.
  split; intros t r Ht; rewrite table_rows_insert;
    destruct (decide (n = t)) as [<- | Hne]; eauto;
    rewrite elem_of_app, list_elem_of_singleton;
    rewrite <- (table_rows_Some _ _ _ Hrows); intros [Hr | ->]; eauto.
Qed.

Lemma not_empty (obj : row) : is_null (col "id" obj) = false -> obj <> ∅.
Proof. intros H ->. unfold col in H. rewrite lookup_empty in H. discriminate. Qed.

Lemma run_insert_write (d : database) (t : ident) (obj : row) (rows : list row) :
  d !! ident_name t = Some rows ->
  is_null (col "id" obj) = false ->
  run_insert d t obj = write tables d (ident_name t) (rows ++ [obj]).
Proof.
  intros Hrows Hid. unfold run_insert, insert_stmt, insert_args.
  rewrite exec_insert_helper, Hrows.
  case_bool_decide as Hempty; [| reflexivity].
  exfalso. exact (not_empty obj Hid Hempty).
Qed.

(** An INSERT of a row whose id a row of the table has already is
    refused as a uniqueness violation. *)
Lemma run_insert_duplicate (d : database) (t : ident) (obj r : row) (rows : list row) :
  db_ok tables d = true ->
  ident_name t ∈ entity_tables tables ->
  d !! ident_name t = Some rows ->
  r ∈ rows -> col "id" r = col "id" obj ->
  (ident_name t ∈ child_tables tables -> is_null (col "user_id" obj) = false) ->
  exists v, run_insert d t obj = Throw (pg_error "23505" (already_exists v)).
Proof.
  intros Hok Ht Hrows Hr Heq Huid.
  pose proof (proj1 (db_ok_constraints d) Hok) as Hc.
  assert (is_null (col "id" obj) = false) as Hid.
  { rewrite <- Heq. destruct Hc as (Hid & _). apply (Hid (ident_name t)); [exact Ht |].
    rewrite (table_rows_Some _ _ _ Hrows). exact Hr. }
  destruct (appended_not_null d (ident_name t) rows obj Hc Hrows Hid Huid) as [H1 H2].
  destruct (violation_duplicate (ident_name t) (<[ident_name t := rows ++ [obj]]> d)
              (ident_name t) H1 H2 Ht) as [v Hv].
  { rewrite table_rows_insert. destruct (decide _); [| contradiction].
    rewrite fmap_app. intros Hnd. apply NoDup_app in Hnd as (_ & Hdisj & _).
    apply (Hdisj (col "id" obj)); [| left].
    rewrite <- Heq. apply list_elem_of_fmap_2. exact Hr. }
  exists v. rewrite (run_insert_write d t obj rows Hrows Hid).
  unfold write. rewrite Hv. reflexivity.
Qed.

(** An INSERT into the key or the session table of a row with a fresh id
    whose user_id no stored user has is refused as a foreign-key
    violation. *)
Lemma run_insert_dangling (d : database) (t : ident) (obj : row) (rows : list row) :
  db_ok tables d = true ->
  user_table_apart ->
  ident_name t ∈ child_tables tables ->
  d !! ident_name t = Some rows ->
  is_null (col "id" obj) = false ->
  is_null (col "user_id" obj) = false ->
  (forall r, r ∈ rows -> col "id" r <> col "id" obj) ->
  col "user_id" obj ∉ (col "id" <$> table_rows d (user tables)) ->
  exists v, run_insert d t obj = Throw (pg_error "23503" (not_present v)).
Proof.
  intros Hok Hapart Ht Hrows Hid Huid Hfresh Hdang.
  pose proof (proj1 (db_ok_constraints d) Hok) as Hc.
  assert (ident_name t <> user tables) as Hne by (intros Heq; apply Hapart; congruence).
  assert (ident_name t ∈ entity_tables tables) as Hte by (right; exact Ht).
  destruct (appended_not_null d (ident_name t) rows obj Hc Hrows Hid (fun _ => Huid))
    as [H1 H2].
  destruct (violation_dangling (ident_name t) (<[ident_name t := rows ++ [obj]]> d)
              (ident_name t) obj H1 H2) as [v Hv]; try assumption.
  - intros t' Ht'. rewrite table_rows_insert.
    destruct Hc as (_ & _ & Hnd & _). destruct (decide _) as [<- | _]; [| auto].
    rewrite fmap_app. apply NoDup_app. split; [| split].
    + rewrite <- (table_rows_Some _ _ _ Hrows). auto.
    + intros x Hx Hx'. apply list_elem_of_singleton in Hx'. subst x.
      apply list_elem_of_fmap in Hx as (r & Hr & Hin). exact (Hfresh r Hin (eq_sym Hr)).
    + apply NoDup_singleton.
  - rewrite table_rows_insert. destruct (decide _); [| contradiction].
    rewrite elem_of_app, list_elem_of_singleton. auto.
  - rewrite table_rows_insert. destruct (decide _); [contradiction | exact Hdang].
  - exists v. rewrite (run_insert_write d t obj rows Hrows Hid).
    unfold write. rewrite Hv. reflexivity.
Qed.

Lemma sql_insert_rejected (t : ident) (obj : row) (w : world) (e : jsval) :
  calm 1 (faults w) = true ->
  run_insert (db w) t obj = Throw e ->
  exists w',
    sql (insert_stmt t obj) (insert_args obj) w = (Ok (Throw e), w')
    /\ db w' = db w.
Proof.
  intros Hcalm Hx.
  destruct (sql_calm (insert_stmt t obj) (insert_args obj) w Hcalm)
    as (w' & Hsql & _ & Hdb).
  unfold run_insert in Hx. rewrite Hx in Hsql, Hdb. eauto.
Qed.

Lemma signals_duplicate (v : sqlval) :
  is_DatabaseError (pg_error "23505" (already_exists v)) = true
  /\ spec_signals (pg_error "23505" (already_exists v)) "23503" "Key (user_id)" = false
  /\ spec_signals (pg_error "23505" (already_exists v)) "23505" "Key (id)" = true.
Proof. repeat split. Qed.

(** X7: a key whose id a stored key has already is refused as
    AUTH_DUPLICATE_KEY_ID by [setKey], and the database stays as it was. *)
Theorem duplicate_key_id_is_reported (k r : row) (rows : list row) (w : world) :
  calm 1 (faults w) = true ->
  db_ok tables (db w) = true ->
  db w !! key tables = Some rows ->
  r ∈ rows -> col "id" r = col "id" k ->
  is_null (col "user_id" k) = false ->
  (setKey k w).1 = Throw (LuciaError "AUTH_DUPLICATE_KEY_ID")
  /\ db (setKey k w).2 = db w.
Proof.
  intros Hcalm Hok Hrows Hr Heq Huid.
  destruct (run_insert_duplicate (db w) ESCAPED_KEY_TABLE_NAME k r rows
              Hok key_is_entity Hrows Hr Heq (fun _ => Huid)) as [v Hv].
  destruct (sql_insert_rejected _ _ _ _ Hcalm Hv) as (w' & Hsql & Hdb).
  rewrite setKey_eq. run. rewrite Hsql. simpl. auto.
Qed.

(** X8: a key or a session with a fresh id whose user_id no stored user
    has is refused as AUTH_INVALID_USER_ID, by [setKey] and by
    [setSession], when the user table is a table of its own; the database
    stays as it was. *)
Theorem unknown_user_is_reported (obj : row) (w : world) :
  calm 1 (faults w) = true ->
  db_ok tables (db w) = true ->
  user_table_apart ->
  is_null (col "id" obj) = false ->
  is_null (col "user_id" obj) = false ->
  col "user_id" obj ∉ (col "id" <$> table_rows (db w) (user tables)) ->
  (forall rows, db w !! key tables = Some rows ->
     (forall r, r ∈ rows -> col "id" r <> col "id" obj) ->
     (setKey obj w).1 = Throw (LuciaError "AUTH_INVALID_USER_ID")
     /\ db (setKey obj w).2 = db w)
  /\ (forall t rows, ESCAPED_SESSION_TABLE_NAME = Some t ->
        db w !! ident_name t = Some rows ->
        (forall r, r ∈ rows -> col "id" r <> col "id" obj) ->
        (setSession obj w).1 = Throw (LuciaError "AUTH_INVALID_USER_ID")
        /\ db (setSession obj w).2 = db w).
Proof.
  intros Hcalm Hok Hapart Hid Huid Hdang. split.
  - intros rows Hrows Hfresh.
    destruct (run_insert_dangling (db w) ESCAPED_KEY_TABLE_NAME obj rows
                Hok Hapart key_is_child Hrows Hid Huid Hfresh Hdang) as [v Hv].
    destruct (sql_insert_rejected _ _ _ _ Hcalm Hv) as (w' & Hsql & Hdb).
    rewrite setKey_eq. run. rewrite Hsql. simpl. auto.
  - intros t rows Ht Hrows Hfresh.
    destruct (run_insert_dangling (db w) t obj rows
                Hok Hapart (session_is_child t Ht) Hrows Hid Huid Hfresh Hdang)
      as [v Hv].
    destruct (sql_insert_rejected _ _ _ _ Hcalm Hv) as (w' & Hsql & Hdb).
    rewrite (setSession_eq t obj Ht). run. rewrite Hsql. simpl. auto.
Qed.

Lemma first_dup_appended (l : list sqlval) (x : sqlval) :
  NoDup l -> x ∈ l -> first_dup (l ++ [x]) = Some x.
Proof.
  induction 1 as [|v l Hv Hnd IH]; intros Hx; [inversion Hx |]. simpl.
  apply elem_of_cons in Hx as [-> | Hx].
  - rewrite bool_decide_eq_true_2; [reflexivity |].
    rewrite elem_of_app, list_elem_of_singleton. auto.
  - rewrite bool_decide_eq_false_2; [auto |].
    rewrite elem_of_app, list_elem_of_singleton. intros [Hin | ->]; contradiction.
Qed.

(** The INSERT of a user whose id a stored user has is refused with the
    uniqueness violation of that id. *)
Lemma run_insert_duplicate_user (d : database) (u r : row) (rows : list row) :
  db_ok tables d = true ->
  user_table_apart ->
  d !! user tables = Some rows ->
  r ∈ rows -> col "id" r = col "id" u ->
  run_insert d ESCAPED_USER_TABLE_NAME u
  = Throw (pg_error "23505" (already_exists (col "id" u))).
Proof.
  intros Hok Hapart Hrows Hr Heq.
  pose proof (proj1 (db_ok_constraints d) Hok) as Hc.
  assert (is_null (col "id" u) = false) as Hid.
  { rewrite <- Heq. destruct Hc as (Hid & _).
    apply (Hid (user tables)); [apply user_is_entity |].
    rewrite (table_rows_Some _ _ _ Hrows). exact Hr. }
  destruct (appended_not_null d (user tables) rows u Hc Hrows Hid) as [H1 H2].
  { intros Hin. contradiction. }
  rewrite (run_insert_write d ESCAPED_USER_TABLE_NAME u rows Hrows Hid).
  unfold write, violation. simpl ident_name.
  rewrite (existsb_false_all (null_in "id" _) (entity_tables tables)).
  2: { intros t' Ht'. apply existsb_false_all. intros r' Hr'. exact (H1 t' r' Ht' Hr'). }
  rewrite (existsb_false_all (null_in "user_id" _) (child_tables tables)).
  2: { intros t' Ht'. apply existsb_false_all. intros r' Hr'. exact (H2 t' r' Ht' Hr'). }
  unfold entity_tables at 1. simpl first_some. unfold dup_in at 1.
  rewrite table_rows_insert. destruct (decide _); [| contradiction].
  rewrite fmap_app. simpl. rewrite first_dup_appended; [reflexivity | |].
  - destruct Hc as (_ & _ & Hnd & _). specialize (Hnd _ user_is_entity).
    rewrite (table_rows_Some _ _ _ Hrows) in Hnd. exact Hnd.
  - rewrite <- Heq. apply list_elem_of_fmap_2. exact Hr.
Qed.

(** X9: a user whose id a stored user has is refused, and the database
    stays as it was: without a key [setUser] throws the uniqueness
    violation of the database as it is, with a key it throws
    AUTH_DUPLICATE_KEY_ID, whatever the id of the key. *)
Theorem duplicate_user_id_is_reported (u r : row) (rows : list row) (w : world) :
  calm 5 (faults w) = true ->
  db_ok tables (db w) = true ->
  user_table_apart ->
  db w !! user tables = Some rows ->
  r ∈ rows -> col "id" r = col "id" u ->
  ((setUser u None w).1
   = Throw (pg_error "23505" (already_exists (col "id" u)))
   /\ db (setUser u None w).2 = db w)
  /\ forall k : row,
       (setUser u (Some k) w).1 = Throw (LuciaError "AUTH_DUPLICATE_KEY_ID")
       /\ db (setUser u (Some k) w).2 = db w.
Proof.
  intros Hcalm Hok Hapart Hrows Hr Heq.
  pose proof (run_insert_duplicate_user (db w) u r rows Hok Hapart Hrows Hr Heq) as Hx.
  split.
  - assert (calm 1 (faults w) = true) as Hcalm1.
    { rewrite calm_S in Hcalm. apply andb_prop in Hcalm as [H _]. exact H. }
    destruct (sql_insert_rejected _ _ _ _ Hcalm1 Hx) as (w' & Hsql & Hdb).
    rewrite setUser_without_key_eq. run. rewrite Hsql. simpl. auto.
  - intros k.
    destruct (transaction_setUser u k w) as (res & w' & Htx & _ & Hres).
    destruct res as [[]|e].
    + destruct Hres as (rows1 & d1 & _ & _ & Hins & _). congruence.
    + destruct Hres as (Hdb & _ & [Hc | [Hc | (rows1 & d1 & Hc & _)]]);
        try congruence.
      rewrite Hx in Hc. injection Hc as <-.
      destruct (signals_duplicate (col "id" u)) as (He & _ & H2).
      unfold setUser, try_catch. rewrite Htx. unfold bind.
      rewrite code_and_detail_signals, H2 by exact He. simpl. auto.
Qed.

(** ** Empty objects and absent rows *)

Lemma run_insert_empty (d : database) (t : ident) :
  is_Some (d !! ident_name t) -> run_insert d t ∅ = Throw syntax_error.
Proof.
  intros [rows Hrows]. unfold run_insert, insert_stmt, insert_args.
  rewrite exec_insert_helper, Hrows. rewrite bool_decide_eq_true_2; reflexivity.
Qed.

Lemma sql_update_calm (t : ident) (id : sqlval) (obj : row) (w : world) (rows : list row) :
  calm 1 (faults w) = true ->
  db w !! ident_name t = Some rows ->
  exists w',
    sql (update_stmt t obj) (update_args id obj) w
    = (Ok (if bool_decide (obj = ∅) then Throw syntax_error
           else match write tables (db w) (ident_name t) (updated_row id obj <$> rows) with
                | Ok (found, _) => Ok found
                | Throw e => Throw e
                end), w')
    /\ db w' = (if bool_decide (obj = ∅) then db w
                else match write tables (db w) (ident_name t)
                             (updated_row id obj <$> rows) with
                     | Ok (_, d) => d
                     | Throw _ => db w
                     end).
Proof.
  intros Hcalm Hrows.
  destruct (sql_calm (update_stmt t obj) (update_args id obj) w Hcalm)
    as (w' & Hsql & _ & Hdb).
  unfold update_stmt, update_args in Hsql, Hdb.
  rewrite exec_update_helper, Hrows in Hsql, Hdb.
  exists w'. case_bool_decide; auto.
Qed.

Lemma update_eq (id : sqlval) (obj : row) :
  updateUser id obj
  = (let! updated := sql (update_stmt ESCAPED_USER_TABLE_NAME obj) (update_args id obj) in
     let! _ := await updated in ret tt)
  /\ updateKey id obj
     = (let! updated := sql (update_stmt ESCAPED_KEY_TABLE_NAME obj) (update_args id obj) in
        let! _ := await updated in ret tt)
  /\ forall t, ESCAPED_SESSION_TABLE_NAME = Some t ->
       updateSession id obj
       = (let! updated := sql (update_stmt t obj) (update_args id obj) in
          let! _ := await updated in ret tt).
Proof.
  unfold updateUser, updateKey, updateSession, update_stmt, update_args.
  repeat split; try intros t ->; destruct (helper obj) as [[? ?] ?]; reflexivity.
Qed.

(** X10: an object without fields makes a statement that the database
    refuses. With no failure injected, [setUser], [setKey] and [setSession]
    of the empty object and [updateUser], [updateKey] and [updateSession]
    with the empty object throw the syntax error of the database, as it is,
    whenever their table exists. *)
Theorem empty_objects_are_refused (id : sqlval) (w : world) :
  calm 1 (faults w) = true ->
  (is_Some (db w !! user tables) ->
   (setUser ∅ None w).1 = Throw syntax_error
   /\ (updateUser id ∅ w).1 = Throw syntax_error
   /\ forall k, calm 5 (faults w) = true ->
                (setUser ∅ (Some k) w).1 = Throw syntax_error)
  /\ (is_Some (db w !! key tables) ->
      (setKey ∅ w).1 = Throw syntax_error
      /\ (updateKey id ∅ w).1 = Throw syntax_error)
  /\ (forall t, ESCAPED_SESSION_TABLE_NAME = Some t ->
        is_Some (db w !! ident_name t) ->
        (setSession ∅ w).1 = Throw syntax_error
        /\ (updateSession id ∅ w).1 = Throw syntax_error).
Proof.
  intros Hcalm. destruct (update_eq id ∅) as (Huu & Huk & Hus).
  split; [| split].
  - intros Hsome. pose proof (run_insert_empty _ ESCAPED_USER_TABLE_NAME Hsome) as Hx.
    split; [| split].
    + destruct (sql_insert_rejected _ _ _ _ Hcalm Hx) as (w' & Hsql & _).
      rewrite setUser_without_key_eq. run. rewrite Hsql. reflexivity.
    + destruct Hsome as [rows Hrows].
      destruct (sql_update_calm ESCAPED_USER_TABLE_NAME id ∅ w rows Hcalm Hrows)
        as (w' & Hsql & _).
      rewrite Huu. run. rewrite Hsql. reflexivity.
    + intros k Hcalm5.
      destruct (transaction_setUser ∅ k w) as (res & w' & Htx & _ & Hres).
      destruct res as [[]|e].
      * destruct Hres as (rows1 & d1 & _ & _ & Hins & _). congruence.
      * destruct Hres as (_ & _ & [Hc | [Hc | (rows1 & d1 & Hc & _)]]);
          try congruence.
        rewrite Hx in Hc. injection Hc as <-.
        unfold setUser, try_catch. rewrite Htx. reflexivity.
  - intros Hsome. pose proof (run_insert_empty _ ESCAPED_KEY_TABLE_NAME Hsome) as Hx.
    split.
    + destruct (sql_insert_rejected _ _ _ _ Hcalm Hx) as (w' & Hsql & _).
      rewrite setKey_eq. run. rewrite Hsql. reflexivity.
    + destruct Hsome as [rows Hrows].
      destruct (sql_update_calm ESCAPED_KEY_TABLE_NAME id ∅ w rows Hcalm Hrows)
        as (w' & Hsql & _).
      rewrite Huk. run. rewrite Hsql. reflexivity.
  - intros t Ht Hsome. pose proof (run_insert_empty _ t Hsome) as Hx.
    split.
    + destruct (sql_insert_rejected _ _ _ _ Hcalm Hx) as (w' & Hsql & _).
      rewrite (setSession_eq t ∅ Ht). run. rewrite Hsql. reflexivity.
    + destruct Hsome as [rows Hrows].
      destruct (sql_update_calm t id ∅ w rows Hcalm Hrows) as (w' & Hsql & _).
      rewrite (Hus t Ht). run. rewrite Hsql. reflexivity.
Qed.

Lemma updated_row_absent (id : sqlval) (obj : row) (rows : list row) :
  (forall r, r ∈ rows -> col "id" r <> id) ->
  updated_row id obj <$> rows = rows.
Proof.
  intros H. induction rows as [|x rows IH]; [reflexivity |].
  rewrite fmap_cons, IH by (intros r Hr; apply H; right; exact Hr). f_equal.
  unfold updated_row. destruct (matching "id" id x) eqn:Hm; [| reflexivity].
  exfalso. apply (H x); [left |]. apply matching_col in Hm as [Hm _].
  unfold col. rewrite Hm. reflexivity.
Qed.

Lemma update_nothing (t : ident) (id : sqlval) (obj : row) (w : world) (rows : list row) :
  calm 1 (faults w) = true ->
  db_ok tables (db w) = true ->
  obj <> ∅ ->
  db w !! ident_name t = Some rows ->
  (forall r, r ∈ rows -> col "id" r <> id) ->
  exists w',
    sql (update_stmt t obj) (update_args id obj) w = (Ok (Ok []), w')
    /\ db w' = db w.
Proof.
  intros Hcalm Hok Hne Hrows Hnone.
  destruct (sql_update_calm t id obj w rows Hcalm Hrows) as (w' & Hsql & Hdb).
  rewrite bool_decide_eq_false_2 in Hsql, Hdb by exact Hne.
  rewrite (updated_row_absent id obj rows Hnone) in Hsql, Hdb.
  unfold write in Hsql, Hdb. rewrite (insert_id _ _ _ Hrows) in Hsql, Hdb.
  apply (db_ok_violation (ident_name t)) in Hok. rewrite Hok in Hsql, Hdb.
  eauto.
Qed.

(** X11: updating what is not there is no error. With no failure
    injected and a database that satisfies its constraints, an update with
    some field for an id that no row of the table has returns, and leaves
    the database as it was. *)
Theorem updating_nothing_succeeds (id : sqlval) (partial : row) (w : world) :
  calm 1 (faults w) = true ->
  db_ok tables (db w) = true ->
  partial <> ∅ ->
  (forall rows, db w !! user tables = Some rows ->
     (forall r, r ∈ rows -> col "id" r <> id) ->
     (updateUser id partial w).1 = Ok tt /\ db (updateUser id partial w).2 = db w)
  /\ (forall rows, db w !! key tables = Some rows ->
        (forall r, r ∈ rows -> col "id" r <> id) ->
        (updateKey id partial w).1 = Ok tt /\ db (updateKey id partial w).2 = db w)
  /\ (forall t rows, ESCAPED_SESSION_TABLE_NAME = Some t ->
        db w !! ident_name t = Some rows ->
        (forall r, r ∈ rows -> col "id" r <> id) ->
        (updateSession id partial w).1 = Ok tt
        /\ db (updateSession id partial w).2 = db w).
Proof.
  intros Hcalm Hok Hne. destruct (update_eq id partial) as (Huu & Huk & Hus).
  split; [| split].
  - intros rows Hrows Hnone.
    destruct (update_nothing ESCAPED_USER_TABLE_NAME id partial w rows
                Hcalm Hok Hne Hrows Hnone) as (w' & Hsql & Hdb).
    rewrite Huu. run. rewrite Hsql. auto.
  - intros rows Hrows Hnone.
    destruct (update_nothing ESCAPED_KEY_TABLE_NAME id partial w rows
                Hcalm Hok Hne Hrows Hnone) as (w' & Hsql & Hdb).
    rewrite Huk. run. rewrite Hsql. auto.
  - intros t rows Ht Hrows Hnone.
    destruct (update_nothing t id partial w rows Hcalm Hok Hne Hrows Hnone)
      as (w' & Hsql & Hdb).
    rewrite (Hus t Ht). run. rewrite Hsql. auto.
Qed.

(** ** Inserts that succeed *)

(** Appending a row with a fresh id that is not null, and in a table
    whose rows refer to a user a user_id that a stored user has, keeps
    the constraints. *)
Lemma append_keeps_constraints (d : database) (n : string) (rows : list row) (obj : row) :
  constraints_hold d ->
  d !! n = Some rows ->
  is_null (col "id" obj) = false ->
  (forall r, r ∈ rows -> col "id" r <> col "id" obj) ->
  (n ∈ child_tables tables ->
   is_null (col "user_id" obj) = false
   /\ col "user_id" obj ∈ (col "id" <$> table_rows d (user tables))) ->
  constraints_hold (<[n := rows ++ [obj]]> d).
Proof.
  intros Hc Hrows Hid Hfresh Hchild.
  destruct (appended_not_null d n rows obj Hc Hrows Hid) as [H1 H2].
  { intros Hn. apply Hchild, Hn. }
  destruct Hc as (_ & _ & Hnd & Hfk).
  assert (forall v, v ∈ (col "id" <$> table_rows d (user tables)) ->
                    v ∈ (col "id" <$> table_rows (<[n := rows ++ [obj]]> d) (user tables)))
    as Hmono.
  { intros v Hv. rewrite table_rows_insert.
    destruct (decide (n = user tables)) as [-> | _]; [| exact Hv].
    rewrite (table_rows_Some _ _ _ Hrows) in Hv.
    rewrite fmap_app, elem_of_app. auto. }
  split; [exact H1 |]. split; [exact H2 |]. split.
  - intros t Ht. rewrite table_rows_insert.
    destruct (decide (n = t)) as [<- | _]; [| auto].
    rewrite fmap_app. apply NoDup_app. split; [| split].
    + rewrite <- (table_rows_Some _ _ _ Hrows). auto.
    + intros x Hx Hx'. apply list_elem_of_singleton in Hx'. subst x.
      apply list_elem_of_fmap in Hx as (r & Hr & Hin). exact (Hfresh r Hin (eq_sym Hr)).
    + apply NoDup_singleton.
  - intros t r Ht. rewrite table_rows_insert.
    destruct (decide (n = t)) as [<- | _].
    + rewrite elem_of_app, list_elem_of_singleton.
      intros [Hr | ->]; apply Hmono; [| apply Hchild, Ht].
      rewrite <- (table_rows_Some _ _ _ Hrows) in Hr. eauto.
    + intros Hr. apply Hmono. eauto.
Qed.

Lemma run_insert_valid (d : database) (t : ident) (obj : row) (rows : list row) :
  db_ok tables d = true ->
  d !! ident_name t = Some rows ->
  is_null (col "id" obj) = false ->
  (forall r, r ∈ rows -> col "id" r <> col "id" obj) ->
  (ident_name t ∈ child_tables tables ->
   is_null (col "user_id" obj) = false
   /\ col "user_id" obj ∈ (col "id" <$> table_rows d (user tables))) ->
  run_insert d t obj = Ok ([], <[ident_name t := rows ++ [obj]]> d).
Proof.
  intros Hok%db_ok_constraints Hrows Hid Hfresh Hchild.
  rewrite (run_insert_write d t obj rows Hrows Hid). apply write_Ok.
  exact (append_keeps_constraints d (ident_name t) rows obj Hok Hrows Hid Hfresh Hchild).
Qed.

Lemma sql_insert_fulfilled (t : ident) (obj : row) (w : world) (d' : database) :
  calm 1 (faults w) = true ->
  run_insert (db w) t obj = Ok ([], d') ->
  exists w',
    sql (insert_stmt t obj) (insert_args obj) w = (Ok (Ok []), w') /\ db w' = d'.
Proof.
  intros Hcalm Hx.
  destruct (sql_calm (insert_stmt t obj) (insert_args obj) w Hcalm)
    as (w' & Hsql & _ & Hdb).
  unfold run_insert in Hx. rewrite Hx in Hsql, Hdb. eauto.
Qed.

(** X12: an insert that breaks no constraint returns and stores its row.
    With no failure injected and a database that satisfies its constraints,
    [setUser] without a key appends a user whose id is not null and fresh,
    and [setKey] and [setSession] append a key and a session whose id is not
    null and fresh and whose user_id is the id of a stored user. *)
Theorem valid_inserts_are_stored (obj : row) (w : world) :
  calm 1 (faults w) = true ->
  db_ok tables (db w) = true ->
  is_null (col "id" obj) = false ->
  (forall rows, user_table_apart ->
     db w !! user tables = Some rows ->
     (forall r, r ∈ rows -> col "id" r <> col "id" obj) ->
     (setUser obj None w).1 = Ok tt
     /\ db (setUser obj None w).2 = <[user tables := rows ++ [obj]]> (db w))
  /\ (is_null (col "user_id" obj) = false ->
      col "user_id" obj ∈ (col "id" <$> table_rows (db w) (user tables)) ->
      (forall rows, db w !! key tables = Some rows ->
         (forall r, r ∈ rows -> col "id" r <> col "id" obj) ->
         (setKey obj w).1 = Ok tt
         /\ db (setKey obj w).2 = <[key tables := rows ++ [obj]]> (db w))
      /\ (forall t rows, ESCAPED_SESSION_TABLE_NAME = Some t ->
            db w !! ident_name t = Some rows ->
            (forall r, r ∈ rows -> col "id" r <> col "id" obj) ->
            (setSession obj w).1 = Ok tt
            /\ db (setSession obj w).2 = <[ident_name t := rows ++ [obj]]> (db w))).
Proof.
  intros Hcalm Hok Hid. split.
  - intros rows Hapart Hrows Hfresh.
    assert (run_insert (db w) ESCAPED_USER_TABLE_NAME obj
            = Ok ([], <[user tables := rows ++ [obj]]> (db w))) as Hx.
    { apply run_insert_valid; try assumption. intros Hin. contradiction. }
    destruct (sql_insert_fulfilled _ _ _ _ Hcalm Hx) as (w' & Hsql & Hdb).
    rewrite setUser_without_key_eq. run. rewrite Hsql. auto.
  - intros Huid Huser. split.
    + intros rows Hrows Hfresh.
      assert (run_insert (db w) ESCAPED_KEY_TABLE_NAME obj
              = Ok ([], <[key tables := rows ++ [obj]]> (db w))) as Hx.
      { apply run_insert_valid; auto. }
      destruct (sql_insert_fulfilled _ _ _ _ Hcalm Hx) as (w' & Hsql & Hdb).
      rewrite setKey_eq. run. rewrite Hsql. auto.
    + intros t rows Ht Hrows Hfresh.
      assert (run_insert (db w) t obj
              = Ok ([], <[ident_name t := rows ++ [obj]]> (db w))) as Hx.
      { apply run_insert_valid; auto. }
      destruct (sql_insert_fulfilled _ _ _ _ Hcalm Hx) as (w' & Hsql & Hdb).
      rewrite (setSession_eq t obj Ht). run. rewrite Hsql. auto.
Qed.

(** X13: creating a user with her first key. With no failure injected, a
    database that satisfies its constraints and a user table of its own,
    [setUser] with a key returns when the user's id is not null and fresh
    and the key has a fresh id that is not null and the user's id as
    user_id; both rows are then stored, and no other row changed. *)
Theorem new_user_with_key_is_stored (u k : row) (users keys : list row) (w : world) :
  calm 5 (faults w) = true ->
  db_ok tables (db w) = true ->
  user_table_apart ->
  db w !! user tables = Some users ->
  db w !! key tables = Some keys ->
  is_null (col "id" u) = false ->
  (forall r, r ∈ users -> col "id" r <> col "id" u) ->
  is_null (col "id" k) = false ->
  (forall r, r ∈ keys -> col "id" r <> col "id" k) ->
  col "user_id" k = col "id" u ->
  (setUser u (Some k) w).1 = Ok tt
  /\ db (setUser u (Some k) w).2
     = <[key tables := keys ++ [k]]> (<[user tables := users ++ [u]]> (db w)).
Proof.
  intros Hcalm Hok Hapart Husers Hkeys Hidu Hfreshu Hidk Hfreshk Hfk.
  assert (key tables <> user tables) as Hne.
  { intros Heq. apply Hapart. rewrite <- Heq. apply key_is_child. }
  pose (d1 := <[user tables := users ++ [u]]> (db w)).
  assert (run_insert (db w) ESCAPED_USER_TABLE_NAME u = Ok ([], d1)) as Hx1.
  { apply run_insert_valid; try assumption. intros Hin. contradiction. }
  assert (db_ok tables d1 = true) as Hok1.
  { apply run_insert_Ok in Hx1 as (old & _ & _ & H). exact H. }
  assert (run_insert d1 ESCAPED_KEY_TABLE_NAME k
          = Ok ([], <[key tables := keys ++ [k]]> d1)) as Hx2.
  { apply run_insert_valid; try assumption.
    - unfold d1. simpl. rewrite lookup_insert_ne by congruence. exact Hkeys.
    - intros _. rewrite Hfk. split; [exact Hidu |].
      unfold d1. rewrite table_rows_insert. destruct (decide _); [| contradiction].
      rewrite fmap_app, elem_of_app. right. left. }
  destruct (setUser_world u k w) as [Hw Hiff].
  destruct (transaction_setUser u k w) as (res & w' & Htx & _ & Hres).
  rewrite Htx in Hw, Hiff. cbn [fst snd] in Hw, Hiff.
  destruct res as [[]|e].
  - destruct Hres as (rows1 & d1' & rows2 & d2 & Hy1 & Hy2 & Hdb & _).
    rewrite Hx1 in Hy1. injection Hy1 as _ <-.
    rewrite Hx2 in Hy2. injection Hy2 as _ <-.
    split; [apply Hiff; reflexivity |]. rewrite Hw. exact Hdb.
  - exfalso.
    destruct Hres as (_ & _ & [Hc | [Hc | (rows1 & d1' & Hc1 & Hc2)]]);
      [congruence | congruence |].
    rewrite Hx1 in Hc1. injection Hc1 as _ <-. congruence.
Qed.

(** ** Sequences of calls *)

Lemma sql_keeps (s : stmt) (args : list sqlval) : keeps_connections (sql s args).
Proof.
  intros w. destruct (sql_call s args w) as (p & w' & -> & _ & Hc & Ht & _).
  simpl. split; [exact Hc | congruence].
Qed.

Lemma ret_keeps {A} (a : A) : keeps_connections (ret a).
Proof. intros w. auto. Qed.

Lemma throw_keeps {A} (e : jsval) : keeps_connections (@throw A e).
Proof. intros w. auto. Qed.

Lemma await_keeps {A} (p : promise A) : keeps_connections (await p).
Proof. intros w. auto. Qed.

Lemma bind_keeps {A B} (m : M A) (k : A -> M B) :
  keeps_connections m -> (forall a, keeps_connections (k a)) ->
  keeps_connections (bind m k).
Proof.
  intros Hm Hk w. unfold bind. destruct (Hm w) as [Hc Ht].
  destruct (m w) as [[a|e] w']; simpl in Hc, Ht; [| auto].
  destruct (Hk a w') as [Hc' Ht']. split; [congruence | auto].
Qed.

Lemma try_catch_keeps {A} (body : M A) (handler : jsval -> M A) :
  keeps_connections body -> (forall e, keeps_connections (handler e)) ->
  keeps_connections (try_catch body handler).
Proof.
  intros Hb Hh w. unfold try_catch. destruct (Hb w) as [Hc Ht].
  destruct (body w) as [[a|e] w']; simpl in Hc, Ht; [auto |].
  destruct (Hh e w') as [Hc' Ht']. split; [congruence | auto].
Qed.

Lemma code_and_detail_keeps (e : jsval) (code sub : string) :
  keeps_connections (code_and_detail e code sub).
Proof. intros w. rewrite code_and_detail_pure. auto. Qed.

(** The transaction of [setUser] closes the connection it opened and
    leaves no transaction open. *)
Lemma transaction_keeps (u k : row) :
  keeps_connections (transaction (setUser_execute u k)).
Proof.
  intros w. split.
  - destruct (transaction_setUser u k w) as (r & w' & -> & Hc & _). exact Hc.
  - intros Htx. rewrite transaction_paths.
    destruct (client_connect_call new_Client w)
      as (p & w1 & -> & _ & _ & _ & Hp).
    destruct p as [[]|e].
    + destruct (transaction_try (setUser_execute u k) new_Client w1) as [[[]|e] w2];
        reflexivity.
    + destruct Hp as (_ & _ & Ht). simpl. congruence.
Qed.

Ltac keep :=
  repeat first
    [ apply transaction_keeps
    | apply bind_keeps; [| intros ?]
    | apply try_catch_keeps; [| intros ?]
    | apply sql_keeps
    | apply code_and_detail_keeps
    | apply ret_keeps
    | apply throw_keeps
    | apply await_keeps
    | match goal with
      | |- keeps_connections (match ?x with _ => _ end) => destruct x
      | |- keeps_connections (if ?b then _ else _) => destruct b
      end ].

Lemma perform_keeps (c : call) (w : world) :
  conns (perform c w) = conns w /\ (tx w = None -> tx (perform c w) = None).
Proof.
  assert (forall {A} (m : M A), keeps_connections m ->
            conns (m w).2 = conns w /\ (tx w = None -> tx (m w).2 = None)) as Hk
    by (intros A m Hm; apply Hm).
  destruct c; simpl; apply Hk;
    unfold getUser, setUser, deleteUser, updateUser, getSession,
      getSessionsByUserId, setSession, deleteSession, deleteSessionsByUserId,
      updateSession, getKey, getKeysByUserId, setKey, deleteKey,
      deleteKeysByUserId, updateKey, getSessionAndUser; keep.
Qed.

Lemma perform_preserves (c : call) (w : world) :
  world_ok w -> world_ok (perform c w).
Proof.
  intros Hw.
  assert (forall {A} (m : M A), preserves m -> world_ok (m w).2) as Hp
    by (intros A m Hm; exact (Hm w Hw)).
  destruct c; simpl; apply Hp;
    unfold getUser, setUser, deleteUser, updateUser, getSession,
      getSessionsByUserId, setSession, deleteSession, deleteSessionsByUserId,
      updateSession, getKey, getKeysByUserId, setKey, deleteKey,
      deleteKeysByUserId, updateKey, getSessionAndUser, transaction,
      transaction_try, setUser_execute; preserve.
Qed.

(** X14: whatever calls the library makes, in whatever order, and whatever
    failures are injected: from a world whose database satisfies its
    constraints with no transaction open, every sequence of calls leaves a
    database that satisfies its constraints, as many connections open as
    before, and no transaction open. *)
Theorem calls_keep_the_world_sound (calls : list call) (w : world) :
  world_ok w ->
  tx w = None ->
  world_ok (perform_all calls w)
  /\ conns (perform_all calls w) = conns w
  /\ tx (perform_all calls w) = None.
Proof.
  unfold perform_all. revert w.
  induction calls as [|c calls IH]; intros w Hok Htx; simpl; [auto |].
  destruct (perform_keeps c w) as [Hc Ht].
  destruct (IH (perform c w) (perform_preserves c w Hok) (Ht Htx)) as (H1 & H2 & H3).
  split; [exact H1 |]. split; [congruence | exact H3].
Qed.

(** ** Lookups that agree *)

Lemma join_rows_filter (users sessions : list row) (v : sqlval) :
  join_rows users sessions v
  = flat_map
      (fun s => (fun u => <["__session_id" := col "id" s]> u)
                  <$> List.filter (matching "id" (col "user_id" s)) users)
      (List.filter (matching "id" v) sessions).
Proof.
  unfold join_rows. induction sessions as [|s sessions IH]; [reflexivity |].
  simpl. rewrite IH. destruct (matching "id" v s); reflexivity.
Qed.

Lemma head_filter_unique (rows : list row) (v : sqlval) (r : row) :
  NoDup (col "id" <$> rows) ->
  head (List.filter (matching "id" v) rows) = Some r ->
  r ∈ rows /\ col "id" r = v /\ is_null v = false
  /\ List.filter (matching "id" v) rows = [r].
Proof.
  intros Hnd Hhead.
  assert (r ∈ List.filter (matching "id" v) rows) as Hin
    by (apply head_Some_elem_of; exact Hhead).
  apply list_elem_of_In, filter_In in Hin as [Hin Hm].
  apply list_elem_of_In in Hin. apply matching_col in Hm as [Hid Hnn].
  assert (col "id" r = v) as Hcol by (unfold col; rewrite Hid; reflexivity).
  repeat split; try assumption.
  rewrite <- Hcol. apply filter_unique; [assumption | assumption |].
  rewrite Hcol. exact Hnn.
Qed.

(** X15: the joined lookup agrees with the two plain lookups. With no
    failure injected and a database that satisfies its constraints,
    [getSessionAndUser] returns [null, null] exactly when [getSession]
    returns null; otherwise it returns the session that [getSession]
    returns and the user that [getUser] returns for the user_id of the
    session row, without a column [__session_id]. *)
Theorem joined_lookup_agrees_with_lookups
    (sessionId : sqlval) (w : world) (t : ident) (sessions users : list row) :
  calm 2 (faults w) = true ->
  db_ok tables (db w) = true ->
  ESCAPED_SESSION_TABLE_NAME = Some t ->
  db w !! ident_name t = Some sessions ->
  db w !! user tables = Some users ->
  match head (List.filter (matching "id" sessionId) sessions) with
  | None =>
      (getSession sessionId w).1 = Ok None
      /\ (getSessionAndUser sessionId w).1 = Ok (None, None)
  | Some s =>
      exists u : row,
        (getSession sessionId w).1 = Ok (Some (transformDatabaseSession s))
        /\ (getUser (col "user_id" s) w).1 = Ok (Some u)
        /\ (getSessionAndUser sessionId w).1
           = Ok (Some (transformDatabaseSession s), Some (delete "__session_id" u))
  end.
Proof.
  intros Hcalm Hok Ht Hs Hu.
  assert (calm 1 (faults w) = true) as Hcalm1.
  { rewrite calm_S in Hcalm. apply andb_prop in Hcalm as [H _]. exact H. }
  rewrite (getSessionAndUser_calm sessionId w t sessions users Ht Hcalm Hs Hu).
  destruct (select_calm t "id" sessionId w sessions Hcalm1 Hs) as (w1 & Hsel).
  assert ((getSession sessionId w).1
          = Ok (match head (List.filter (matching "id" sessionId) sessions) with
                | Some s => Some (transformDatabaseSession s)
                | None => None
                end)) as Hget.
  { unfold getSession. rewrite Ht. run. rewrite Hsel. reflexivity. }
  rewrite Hget.
  destruct (head (List.filter (matching "id" sessionId) sessions)) as [s|] eqn:Hhead;
    [| auto].
  pose proof (proj1 (db_ok_constraints (db w)) Hok) as (Hid & Huid & Hnd & Hfk).
  pose proof (Hnd _ (session_is_entity t Ht)) as Hnds.
  pose proof (Hnd _ user_is_entity) as Hndu.
  rewrite (table_rows_Some _ _ _ Hs) in Hnds.
  rewrite (table_rows_Some _ _ _ Hu) in Hndu.
  destruct (head_filter_unique sessions sessionId s Hnds Hhead)
    as (Hin & Hcol & Hnn & Hfilter).
  specialize (Hfk (ident_name t) s (session_is_child t Ht)).
  rewrite (table_rows_Some _ _ _ Hs), (table_rows_Some _ _ _ Hu) in Hfk.
  apply Hfk, list_elem_of_fmap in Hin as (u & Hu_id & Hu_in).
  assert (is_null (col "id" u) = false) as Hu_nn.
  { apply (Hid (user tables)); [apply user_is_entity |].
    rewrite (table_rows_Some _ _ _ Hu). exact Hu_in. }
  pose proof (filter_unique users u Hndu Hu_in Hu_nn) as Hfu.
  rewrite <- Hu_id in Hfu.
  exists u. split; [reflexivity |]. split.
  - destruct (getUser_calm (col "user_id" s) w users Hcalm1 Hu) as (w2 & -> & _).
    rewrite Hfu. reflexivity.
  - rewrite join_rows_filter, Hfilter. simpl. rewrite Hfu. simpl.
    rewrite delete_insert_eq. reflexivity.
Qed.

(** ** Updates that are read back *)

Lemma update_Ok (t : ident) (id : sqlval) (partial : row) (w0 w : world) :
  (let! updated := sql (update_stmt t partial) (update_args id partial) in
   let! _ := await updated in ret tt) w0 = (Ok tt, w) ->
  exists found,
    sql (update_stmt t partial) (update_args id partial) w0 = (Ok (Ok found), w).
Proof.
  destruct (sql_call (update_stmt t partial) (update_args id partial) w0)
    as (p & w' & Hsql & _).
  run. rewrite Hsql. destruct p as [found|e]; simpl; [| discriminate].
  intros [= <-]. eauto.
Qed.

Lemma update_then_select
    (t : ident) (id : sqlval) (partial : row) (w0 w : world)
    (found rows : list row) (r : row) :
  ident_name t ∈ entity_tables tables ->
  sql (update_stmt t partial) (update_args id partial) w0 = (Ok (Ok found), w) ->
  calm 1 (faults w) = true ->
  db w0 !! ident_name t = Some rows ->
  r ∈ rows ->
  col "id" r = id ->
  partial !! "id" = None ->
  exists w',
    sql (SelectWhere t "id" (Dollar 1)) [id] w = (Ok (Ok [partial ∪ r]), w').
Proof.
  intros Ht Hsql Hcalm Hrows Hr Hid Hpartial.
  destruct (sql_call (update_stmt t partial) (update_args id partial) w0)
    as (p & w' & Hs & _ & _ & _ & Hp).
  rewrite Hsql in Hs. injection Hs as <- <-. destruct Hp as [_ Hexec].
  unfold update_stmt, update_args in Hexec.
  rewrite exec_update_helper, Hrows in Hexec.
  case_bool_decide; [discriminate |].
  pose proof (write_ok _ _ _ _ _ Hexec) as Hok.
  destruct (write_cases (db w0) (ident_name t) (updated_row id partial <$> rows))
    as [[Hw _] | [e He]]; rewrite ?Hw, ?He in Hexec; [| discriminate].
  injection Hexec as _ Hdb.
  assert (db w !! ident_name t = Some (updated_row id partial <$> rows)) as Hnew
    by (rewrite <- Hdb; apply lookup_insert_eq).
  assert (updated_row id partial r ∈ updated_row id partial <$> rows) as Hin
    by (apply list_elem_of_fmap_2; exact Hr).
  assert (col "id" (partial ∪ r) = id) as Hcol.
  { unfold col. rewrite lookup_union_r by exact Hpartial. exact Hid. }
  assert (col "id" (updated_row id partial r) = id) as Hcol'.
  { unfold updated_row. destruct (matching "id" id r); assumption. }
  destruct (db_ok_ids (db w) (ident_name t) Hok Ht) as [Hnn _].
  rewrite (table_rows_Some _ _ _ Hnew) in Hnn.
  specialize (Hnn _ Hin). rewrite Hcol' in Hnn.
  assert (updated_row id partial r = partial ∪ r) as Heq.
  { unfold updated_row, matching. rewrite Hid.
    rewrite (proj2 (sql_eq_true id id)) by auto. reflexivity. }
  rewrite Heq in Hin.
  destruct (select_by_id t w _ (partial ∪ r) Hcalm Hok Ht Hnew Hin) as (w' & Hsel).
  rewrite Hcol in Hsel. eauto.
Qed.

(** X16: what an update wrote is what the lookup returns. After an
    [updateUser], [updateKey] or [updateSession] that returned, with a
    partial object that does not set the id, and with no failure injected
    into the lookup, [getUser], [getKey] and [getSession] of the same id
    return the row that had the id before, with the fields of the partial
    object in place of its own (the session passed through
    [transformDatabaseSession]). *)
Theorem updated_rows_are_read_back (id : sqlval) (partial : row) (w : world) :
  calm 1 (faults w) = true ->
  partial !! "id" = None ->
  (forall w0 rows r,
     updateUser id partial w0 = (Ok tt, w) ->
     db w0 !! user tables = Some rows -> r ∈ rows -> col "id" r = id ->
     (getUser id w).1 = Ok (Some (partial ∪ r)))
  /\ (forall w0 rows r,
        updateKey id partial w0 = (Ok tt, w) ->
        db w0 !! key tables = Some rows -> r ∈ rows -> col "id" r = id ->
        (getKey id w).1 = Ok (Some (partial ∪ r)))
  /\ (forall t w0 rows r,
        ESCAPED_SESSION_TABLE_NAME = Some t ->
        updateSession id partial w0 = (Ok tt, w) ->
        db w0 !! ident_name t = Some rows -> r ∈ rows -> col "id" r = id ->
        (getSession id w).1 = Ok (Some (transformDatabaseSession (partial ∪ r)))).
Proof.
  intros Hcalm Hpartial. destruct (update_eq id partial) as (Huu & Huk & Hus).
  split; [| split].
  - intros w0 rows r Hupd Hrows Hr Hid. rewrite Huu in Hupd.
    apply update_Ok in Hupd as [found Hsql].
    destruct (update_then_select ESCAPED_USER_TABLE_NAME id partial w0 w found rows r
                user_is_entity Hsql Hcalm Hrows Hr Hid Hpartial) as (w' & Hsel).
    unfold getUser. run. rewrite Hsel. reflexivity.
  - intros w0 rows r Hupd Hrows Hr Hid. rewrite Huk in Hupd.
    apply update_Ok in Hupd as [found Hsql].
    destruct (update_then_select ESCAPED_KEY_TABLE_NAME id partial w0 w found rows r
                key_is_entity Hsql Hcalm Hrows Hr Hid Hpartial) as (w' & Hsel).
    unfold getKey. run. rewrite Hsel. reflexivity.
  - intros t w0 rows r Ht Hupd Hrows Hr Hid. rewrite (Hus t Ht) in Hupd.
    apply update_Ok in Hupd as [found Hsql].
    destruct (update_then_select t id partial w0 w found rows r
                (session_is_entity t Ht) Hsql Hcalm Hrows Hr Hid Hpartial)
      as (w' & Hsel).
    unfold getSession. rewrite Ht. run. rewrite Hsel. reflexivity.
Qed.

(** ** Updates, statement and effect *)

(** An update that sets neither id nor user_id leaves the two columns the
    constraints speak of as they were. *)
Lemma update_keeps_constraints
    (d : database) (n : string) (id : sqlval) (partial : row) (old : list row) :
  constraints_hold d ->
  d !! n = Some old ->
  partial !! "id" = None ->
  partial !! "user_id" = None ->
  constraints_hold (<[n := updated_row id partial <$> old]> d).
Proof.
  intros Hc Hold Hid Huid.
  assert (forall c t', partial !! c = None ->
            col c <$> table_rows (<[n := updated_row id partial <$> old]> d) t'
            = col c <$> table_rows d t') as Hcols.
  { intros c t' Hnone. rewrite table_rows_insert.
    destruct (decide (n = t')) as [<- | _]; [| reflexivity].
    rewrite (table_rows_Some _ _ _ Hold), <- list_fmap_compose.
    apply list_fmap_ext. intros i r _. simpl. unfold updated_row.
    destruct (matching "id" id r); [| reflexivity].
    unfold col. rewrite lookup_union_r by exact Hnone. reflexivity. }
  assert (forall c t' r, partial !! c = None ->
            r ∈ table_rows (<[n := updated_row id partial <$> old]> d) t' ->
            exists r0, col c r = col c r0 /\ r0 ∈ table_rows d t') as Hrow.
  { intros c t' r Hnone Hr. apply list_elem_of_fmap. rewrite <- (Hcols c t' Hnone).
    apply list_elem_of_fmap_2. exact Hr. }
  destruct Hc as (H1 & H2 & H3 & H4).
  split; [| split; [| split]].
  - intros t' r Ht Hr. destruct (Hrow "id" t' r Hid Hr) as (r0 & -> & Hr0). eauto.
  - intros t' r Ht Hr. destruct (Hrow "user_id" t' r Huid Hr) as (r0 & -> & Hr0). eauto.
  - intros t' Ht. rewrite (Hcols "id" t' Hid). auto.
  - intros t' r Ht Hr. rewrite (Hcols "id" (user tables) Hid).
    destruct (Hrow "user_id" t' r Huid Hr) as (r0 & -> & Hr0). eauto.
Qed.

Lemma update_effect_holds (t : ident) (id : sqlval) (partial : row) (w : world) :
  update_effect t id partial w
    ((let! updated := sql (update_stmt t partial) (update_args id partial) in
      let! _ := await updated in ret tt) w).
Proof.
  destruct (sql_call (update_stmt t partial) (update_args id partial) w)
    as (p & w' & Hsql & Htr & _ & _ & Hp).
  assert ((let! updated := sql (update_stmt t partial) (update_args id partial) in
           let! _ := await updated in ret tt) w
          = (match p with Ok _ => Ok tt | Throw e => Throw e end, w')) as ->.
  { run. rewrite Hsql. destruct p; reflexivity. }
  unfold update_effect. cbn [fst snd].
  split; [exact Htr |]. split.
  { unfold update_stmt, update_args. eexists _, _. split; [reflexivity |].
    split; [apply helper_sets | apply helper_where]. }
  split.
  { destruct p as [rows|e]; [| exact Hp]. destruct Hp as [_ Hexec].
    unfold update_stmt, update_args in Hexec. rewrite exec_update_helper in Hexec.
    destruct (db w !! ident_name t) as [old|]; [| discriminate].
    case_bool_decide; [discriminate |].
    destruct (write_cases (db w) (ident_name t) (updated_row id partial <$> old))
      as [[Hw _] | [e He]]; rewrite ?Hw, ?He in Hexec; [| discriminate].
    injection Hexec as _ <-.
    exists old, (updated_row id partial <$> old).
    split; [reflexivity |]. split; [reflexivity |]. apply updated_row_updated_by. }
  intros old Hcalm Hold.
  destruct (sql_update_calm t id partial w old Hcalm Hold) as (w2 & Hsql2 & _).
  rewrite Hsql in Hsql2. injection Hsql2 as -> _.
  assert ((match
             (if bool_decide (partial = ∅) then Throw syntax_error
              else match write tables (db w) (ident_name t)
                           (updated_row id partial <$> old) with
                   | Ok (found, _) => Ok found
                   | Throw e => Throw e
                   end)
           with Ok _ => Ok tt | Throw e => Throw e end) = Ok tt
          <-> partial <> ∅
              /\ db_ok tables
                   (<[ident_name t := updated_row id partial <$> old]> (db w)) = true)
    as Hiff.
  { rewrite (db_ok_violation (ident_name t)). unfold write.
    case_bool_decide as Hempty.
    - split; [discriminate | intros [Hne _]; contradiction].
    - destruct (violation tables (ident_name t)
                  (<[ident_name t := updated_row id partial <$> old]> (db w))).
      + split; [discriminate | intros [_ Hv]; discriminate].
      + split; [auto | reflexivity]. }
  split; [exact Hiff |].
  intros Hne Hok Hid Huid. apply Hiff. split; [exact Hne |].
  apply db_ok_constraints, update_keeps_constraints; try assumption.
  apply db_ok_constraints, Hok.
Qed.

(** C8: [updateUser], [updateSession] and [updateKey] each send one UPDATE
    for their table, whose assignments are exactly the supplied fields with
    their values, for the rows with the given id. When the operation
    returns, the rows with the given id hold the supplied fields, their
    other fields and every other row are as before, and so are the other
    tables; when it throws, the database is as before. With no failure
    injected and the table there, it returns exactly when some field is
    supplied and the updated rows break no constraint, as they do not when
    the database broke none and neither id nor user_id is supplied. *)
Theorem updates_set_exactly_the_supplied_fields
    (id : sqlval) (partial : row) (w : world) :
  update_effect ESCAPED_USER_TABLE_NAME id partial w (updateUser id partial w)
  /\ update_effect ESCAPED_KEY_TABLE_NAME id partial w (updateKey id partial w)
  /\ forall t : ident,
       ESCAPED_SESSION_TABLE_NAME = Some t ->
       update_effect t id partial w (updateSession id partial w).
Proof.
  destruct (update_eq id partial) as (Huu & Huk & Hus).
  split; [| split].
  - rewrite Huu. apply update_effect_holds.
  - rewrite Huk. apply update_effect_holds.
  - intros t Ht. rewrite (Hus t Ht). apply update_effect_holds.
Qed.

End Adapter.

(** ** The claims at concrete inputs *)

(** Without a session table, [getSession] throws the configuration error
    and sends nothing. *)
Lemma session_operations_need_session_table_witness :
  session tables_without_session = None
  /\ getSession tables_without_session keep_row (SqlText "s1") (world_of empty_db [])
     = (Throw (Error "Session table not defined"), world_of empty_db []).
Proof.
  split; [reflexivity |].
  exact (proj1 (session_operations_need_session_table
                  tables_without_session example_LuciaError keep_row
                  (world_of empty_db []) (SqlText "s1") alice_session eq_refl)).
Defined.

(** A second key with the id of a stored key: the uniqueness violation of
    the database becomes AUTH_DUPLICATE_KEY_ID. *)
Lemma constraint_errors_are_translated_witness :
  let e := pg_error "23505" "Key (id)=(email:a@b.com) already exists." in
  let w := world_of db_with_alice [] in
  is_DatabaseError e = true
  /\ (sql_insert example_tables (ESCAPED_KEY_TABLE_NAME example_tables) alice_key w).1
     = Ok (Throw e)
  /\ (setKey example_tables example_LuciaError alice_key w).1
     = Throw (example_LuciaError "AUTH_DUPLICATE_KEY_ID").
Proof.
  cbv zeta. split; [reflexivity |]. split; [vm_compute; reflexivity |].
  refine (f_equal fst
            (proj1 (constraint_errors_are_translated example_tables example_LuciaError
                      (pg_error "23505" "Key (id)=(email:a@b.com) already exists.")
                      (world_of db_with_alice [])
                      (sql_insert example_tables (ESCAPED_KEY_TABLE_NAME example_tables)
                         alice_key (world_of db_with_alice [])).2
                      eq_refl)
               alice_key _)).
  vm_compute. reflexivity.
Defined.

(** A thrown error object without code and detail goes through [setKey]
    unchanged. *)
Lemma classification_is_total_on_objects_witness :
  let e := Error "socket hang up" in
  let w := world_of empty_db [Some e] in
  nullish e = false
  /\ has_field e "code" = false
  /\ (setKey example_tables example_LuciaError alice_key w).1 = Throw e.
Proof.
  cbv zeta. split; [reflexivity |]. split; [reflexivity |].
  refine (f_equal fst
            (proj1 (classification_is_total_on_objects example_tables example_LuciaError
                      (Error "socket hang up")
                      (world_of empty_db [Some (Error "socket hang up")])
                      (sql_insert example_tables (ESCAPED_KEY_TABLE_NAME example_tables)
                         alice_key (world_of empty_db [Some (Error "socket hang up")])).2
                      eq_refl)
               alice_key _ _ _)).
  - left. reflexivity.
  - left. reflexivity.
  - vm_compute. reflexivity.
Defined.

(** C10 as stated fails on a thrown null, which has no code: reading
    [error.code] throws a TypeError that replaces it. It fails as well on
    an error whose detail is a number, on which [includes] is not a
    function. *)
Lemma thrown_null_is_not_rethrown :
  let key_table := ESCAPED_KEY_TABLE_NAME example_tables in
  let w := world_of empty_db [Some JNull] in
  let e := JObj [("code", JStr "23505"); ("detail", JNum 7)] in
  let w' := world_of empty_db [Some e] in
  has_field JNull "code" = false
  /\ (sql_insert example_tables key_table alice_key w).1 = Ok (Throw JNull)
  /\ (setKey example_tables example_LuciaError alice_key w).1
     = Throw (TypeError "Cannot read properties of null (reading 'code')")
  /\ (sql_insert example_tables key_table alice_key w').1 = Ok (Throw e)
  /\ (setKey example_tables example_LuciaError alice_key w').1
     = Throw (TypeError "error.detail?.includes is not a function").
Proof. cbv zeta. repeat split; vm_compute; reflexivity. Qed.

(** [getUser] finds the stored user by her id. *)
Lemma getUser_returns_the_stored_row_witness :
  let w := world_of db_with_alice [] in
  calm 1 (faults w) = true
  /\ (getUser example_tables (SqlText "u1") w).1 = Ok (Some alice).
Proof.
  cbv zeta. split; [reflexivity |].
  refine (proj1 (getUser_returns_the_stored_row example_tables example_LuciaError
                   (SqlText "u1") (world_of db_with_alice []) eq_refl)
            [alice] alice eq_refl _ _ eq_refl).
  - vm_compute. reflexivity.
  - left.
Defined.


(** The user that comes back with session [s1] is the joined row without
    [__session_id]. *)
Lemma getSessionAndUser_strips_the_alias_witness :
  exists (t : ident) (sessions users : list row) (j : row),
    ESCAPED_SESSION_TABLE_NAME example_tables = Some t
    /\ db (world_of db_with_alice []) !! ident_name t = Some sessions
    /\ db (world_of db_with_alice []) !! user example_tables = Some users
    /\ head (join_rows users sessions (SqlText "s1")) = Some j
    /\ is_Some (j !! "__session_id")
    /\ alice !! "__session_id" = None
    /\ forall c : string, c <> "__session_id" -> alice !! c = j !! c.
Proof.
  refine (getSessionAndUser_strips_the_alias example_tables keep_row
            (SqlText "s1") (world_of db_with_alice []) alice_session alice _).
  vm_compute. reflexivity.
Defined.

(** Renaming the stored user: the one UPDATE is sent, the update returns,
    and the user table holds the renamed row. *)
Lemma updates_set_exactly_the_supplied_fields_witness :
  let w := world_of db_with_alice [] in
  let result := updateUser example_tables (SqlText "u1") new_name w in
  trace result.2
  = [SqlQuery (update_stmt (ESCAPED_USER_TABLE_NAME example_tables) new_name)
       (update_args (SqlText "u1") new_name)]
  /\ calm 1 (faults w) = true
  /\ db w !! user example_tables = Some [alice]
  /\ db_ok example_tables (db w) = true
  /\ result.1 = Ok tt
  /\ db result.2 = <[user example_tables := [new_name ∪ alice]]> (db w).
Proof.
  cbv zeta.
  destruct (proj1 (updates_set_exactly_the_supplied_fields example_tables
                     (SqlText "u1") new_name (world_of db_with_alice [])))
    as (Htrace & _ & _ & Hreturns).
  assert (db (world_of db_with_alice []) !! user example_tables = Some [alice])
    as Hrows by (vm_compute; reflexivity).
  assert (db_ok example_tables (db (world_of db_with_alice [])) = true) as Hok
    by (vm_compute; reflexivity).
  split; [exact Htrace |]. split; [reflexivity |]. split; [exact Hrows |].
  split; [exact Hok |]. split.
  - refine (proj2 (Hreturns [alice] eq_refl Hrows) _ Hok _ _).
    + intros Hempty. apply (f_equal (fun m : row => m !! "name")) in Hempty.
      vm_compute in Hempty. discriminate.
    + vm_compute. reflexivity.
    + vm_compute. reflexivity.
  - vm_compute. reflexivity.
Defined.

(** C1 as stated fails when the user insert fails because a user with that
    id exists: [setUser] throws, and [getUser] of that id then returns the
    stored user, not null. *)
Lemma failed_setUser_leaves_the_stored_user_visible :
  let result :=
    setUser example_tables example_LuciaError alice (Some other_key)
      (world_of db_with_alice []) in
  result.1 = Throw (example_LuciaError "AUTH_DUPLICATE_KEY_ID")
  /\ (getUser example_tables (SqlText "u1") result.2).1 = Ok (Some alice).
Proof. cbv zeta. split; vm_compute; reflexivity. Qed.

(** ** The scenario of the specification *)

(** The empty installation breaks no constraint, and neither does the one
    with a stored user. *)
Example example_databases_ok :
  db_ok example_tables empty_db = true
  /\ db_ok example_tables db_with_alice = true.
Proof. split; vm_compute; reflexivity. Qed.

(** Creating user [u1] with her key stores both rows, through one
    transaction. *)
Example setUser_with_key_commits :
  setUser example_tables example_LuciaError alice (Some alice_key)
    (world_of empty_db [])
  = (Ok tt,
     World (<["auth_user" := [alice]]> (<["user_key" := [alice_key]]> empty_db))
       0 None (committed_calls example_tables alice alice_key) []).
Proof. vm_compute. reflexivity. Qed.

(** A key for a user that does not exist is refused as AUTH_INVALID_USER_ID. *)
Example setKey_unknown_user :
  (setKey example_tables example_LuciaError orphan_key (world_of db_with_alice [])).1
  = Throw (example_LuciaError "AUTH_INVALID_USER_ID").
Proof. vm_compute. reflexivity. Qed.

(** A new user whose key exists already: the key insert fails, the user
    insert is rolled back and the new user is not there afterwards. *)
Example failed_key_insert_rolls_the_user_back :
  let bob : row := <["id" := SqlText "u2"]> ∅ in
  let result :=
    setUser example_tables example_LuciaError bob (Some alice_key)
      (world_of db_with_alice []) in
  result.1 = Throw (example_LuciaError "AUTH_DUPLICATE_KEY_ID")
  /\ db result.2 = db_with_alice
  /\ conns result.2 = 0
  /\ trace result.2
     = [Connect; ClientQuery Begin [];
        ClientQuery (insert_stmt (ESCAPED_USER_TABLE_NAME example_tables) bob)
          (insert_args bob);
        ClientQuery (insert_stmt (ESCAPED_KEY_TABLE_NAME example_tables) alice_key)
          (insert_args alice_key);
        ClientQuery Rollback []; End]
  /\ (getUser example_tables (SqlText "u2") result.2).1 = Ok None.
Proof. cbv zeta. repeat split; vm_compute; reflexivity. Qed.

(** A failure of COMMIT, and a failure of the ROLLBACK that follows it:
    the error of COMMIT is the one thrown, and the connection is closed. *)
Example failed_commit_closes_the_connection :
  let lost := Error "Connection terminated unexpectedly" in
  let result :=
    transaction example_tables (setUser_execute example_tables alice alice_key)
      (world_of empty_db [None; None; None; None; Some lost; Some (Error "again")]) in
  result.1 = Throw lost
  /\ db result.2 = empty_db
  /\ conns result.2 = 0
  /\ last (trace result.2) = Some End.
Proof. cbv zeta. repeat split; vm_compute; reflexivity. Qed.

(** C7 as stated fails when [connect] itself rejects: that is an exit
    path of the transaction on which neither ROLLBACK nor [client.end()] is
    called. *)
Lemma rejected_connect_never_calls_end :
  let refused := Error "connect ECONNREFUSED" in
  let result :=
    setUser example_tables example_LuciaError alice (Some alice_key)
      (world_of empty_db [Some refused]) in
  result.1 = Throw refused
  /\ trace result.2 = [Connect]
  /\ conns result.2 = 0.
Proof. cbv zeta. repeat split; vm_compute; reflexivity. Qed.

(** A second user with a stored id, inserted without a key: the error of
    the database comes out as it is. *)
Example duplicate_user_id_is_not_translated :
  (setUser example_tables example_LuciaError alice None (world_of db_with_alice [])).1
  = Throw (pg_error "23505" "Key (id)=(u1) already exists.").
Proof. vm_compute. reflexivity. Qed.

(** Renaming the stored user changes her name and nothing else. *)
Example updateUser_renames :
  let result :=
    updateUser example_tables (SqlText "u1") (<["name" := SqlText "Bob"]> ∅)
      (world_of db_with_alice []) in
  result.1 = Ok tt
  /\ db result.2
     = <["auth_user" := [<["name" := SqlText "Bob"]> alice]]> db_with_alice.
Proof. cbv zeta. split; vm_compute; reflexivity. Qed.

(** An update with no field is a statement the database refuses. *)
Example updateUser_without_fields :
  (updateUser example_tables (SqlText "u1") ∅ (world_of db_with_alice [])).1
  = Throw syntax_error.
Proof. vm_compute. reflexivity. Qed.

(** ** The further properties at concrete inputs *)

Lemma example_user_table_apart : user_table_apart example_tables.
Proof.
  unfold user_table_apart. refine (bool_decide_unpack _ _). vm_compute. exact I.
Qed.

Lemma no_row_with_id (rows : list row) (v : sqlval) :
  forallb (fun r => negb (bool_decide (col "id" r = v))) rows = true ->
  forall r, r ∈ rows -> col "id" r <> v.
Proof.
  intros H r Hr Heq. rewrite forallb_forall in H.
  specialize (H r (proj1 (list_elem_of_In _ _) Hr)).
  rewrite bool_decide_eq_true_2 in H by exact Heq. discriminate.
Qed.

Lemma no_row_with_user_id (rows : list row) (v : sqlval) :
  forallb (fun r => negb (bool_decide (col "user_id" r = v))) rows = true ->
  forall r, r ∈ rows -> col "user_id" r <> v.
Proof.
  intros H r Hr Heq. rewrite forallb_forall in H.
  specialize (H r (proj1 (list_elem_of_In _ _) Hr)).
  rewrite bool_decide_eq_true_2 in H by exact Heq. discriminate.
Qed.

(** With the empty string as session table name, [getSession] throws the
    configuration error. *)
Lemma empty_session_name_is_no_session_table_witness :
  session tables_with_empty_session_name = Some ""
  /\ getSession tables_with_empty_session_name keep_row (SqlText "s1")
       (world_of empty_db [])
     = (Throw (Error "Session table not defined"), world_of empty_db []).
Proof.
  split; [reflexivity |].
  exact (proj1 (empty_session_name_is_no_session_table
                  tables_with_empty_session_name example_LuciaError keep_row
                  (world_of empty_db []) (SqlText "s1") alice_session eq_refl)).
Defined.

(** Bob has no key and no session; once deleted, he is not found. *)
Lemma deleted_rows_are_gone_witness :
  let w0 := world_of db_with_alice_and_bob [] in
  let w := (deleteUser example_tables (SqlText "u2") w0).2 in
  calm 1 (faults w) = true
  /\ deleteUser example_tables (SqlText "u2") w0 = (Ok tt, w)
  /\ (getUser example_tables (SqlText "u2") w).1 = Ok None.
Proof.
  cbv zeta.
  assert (calm 1 (faults (deleteUser example_tables (SqlText "u2")
                            (world_of db_with_alice_and_bob [])).2) = true) as Hcalm
    by (vm_compute; reflexivity).
  assert (deleteUser example_tables (SqlText "u2") (world_of db_with_alice_and_bob [])
          = (Ok tt, (deleteUser example_tables (SqlText "u2")
                       (world_of db_with_alice_and_bob [])).2)) as Hdel
    by (vm_compute; reflexivity).
  split; [exact Hcalm |]. split; [exact Hdel |].
  exact (proj1 (deleted_rows_are_gone example_tables keep_row (SqlText "u2") _ Hcalm)
           _ Hdel).
Defined.

(** No user has the id u9: deleting it returns and changes nothing. *)
Lemma deleting_nothing_succeeds_witness :
  let w := world_of db_with_alice [] in
  calm 1 (faults w) = true
  /\ db_ok example_tables (db w) = true
  /\ db w !! user example_tables = Some [alice]
  /\ (deleteUser example_tables (SqlText "u9") w).1 = Ok tt
  /\ db (deleteUser example_tables (SqlText "u9") w).2 = db w.
Proof.
  cbv zeta.
  assert (db_ok example_tables (db (world_of db_with_alice [])) = true) as Hok
    by (vm_compute; reflexivity).
  assert (db (world_of db_with_alice []) !! user example_tables = Some [alice]) as Hrows
    by (vm_compute; reflexivity).
  split; [reflexivity |]. split; [exact Hok |]. split; [exact Hrows |].
  refine (proj1 (deleting_nothing_succeeds example_tables (SqlText "u9")
                   (world_of db_with_alice []) eq_refl Hok) [alice] Hrows _).
  apply no_row_with_id. vm_compute. reflexivity.
Defined.

(** The keys of alice are her one key. *)
Lemma lookups_by_user_id_witness :
  let w := world_of db_with_alice [] in
  calm 1 (faults w) = true
  /\ db w !! key example_tables = Some [alice_key]
  /\ exists found,
       (getKeysByUserId example_tables (SqlText "u1") w).1 = Ok found
       /\ forall r, r ∈ found
                    <-> r ∈ [alice_key]
                        /\ r !! "user_id" = Some (SqlText "u1")
                        /\ is_null (SqlText "u1") = false.
Proof.
  cbv zeta.
  assert (db (world_of db_with_alice []) !! key example_tables = Some [alice_key])
    as Hrows by (vm_compute; reflexivity).
  split; [reflexivity |]. split; [exact Hrows |].
  exact (proj1 (lookups_by_user_id example_tables keep_row (SqlText "u1")
                  (world_of db_with_alice []) eq_refl) [alice_key] Hrows).
Defined.

(** A second key of alice, once stored, is found by its id. *)
Lemma stored_keys_and_sessions_are_found_witness :
  let w0 := world_of db_with_alice [] in
  let w := (setKey example_tables example_LuciaError other_key w0).2 in
  calm 1 (faults w) = true
  /\ setKey example_tables example_LuciaError other_key w0 = (Ok tt, w)
  /\ (getKey example_tables (col "id" other_key) w).1 = Ok (Some other_key).
Proof.
  cbv zeta.
  assert (calm 1 (faults (setKey example_tables example_LuciaError other_key
                            (world_of db_with_alice [])).2) = true) as Hcalm
    by (vm_compute; reflexivity).
  assert (setKey example_tables example_LuciaError other_key (world_of db_with_alice [])
          = (Ok tt, (setKey example_tables example_LuciaError other_key
                       (world_of db_with_alice [])).2)) as Hset
    by (vm_compute; reflexivity).
  split; [exact Hcalm |]. split; [exact Hset |].
  exact (proj1 (proj1 (stored_keys_and_sessions_are_found example_tables
                         example_LuciaError keep_row _ Hcalm)
                  other_key _ Hset)).
Defined.

(** The key of alice a second time. *)
Lemma duplicate_key_id_is_reported_witness :
  let w := world_of db_with_alice [] in
  calm 1 (faults w) = true
  /\ db_ok example_tables (db w) = true
  /\ db w !! key example_tables = Some [alice_key]
  /\ is_null (col "user_id" alice_key) = false
  /\ (setKey example_tables example_LuciaError alice_key w).1
     = Throw (example_LuciaError "AUTH_DUPLICATE_KEY_ID")
  /\ db (setKey example_tables example_LuciaError alice_key w).2 = db w.
Proof.
  cbv zeta.
  assert (db_ok example_tables (db (world_of db_with_alice [])) = true) as Hok
    by (vm_compute; reflexivity).
  assert (db (world_of db_with_alice []) !! key example_tables = Some [alice_key])
    as Hrows by (vm_compute; reflexivity).
  assert (is_null (col "user_id" alice_key) = false) as Hnn
    by (vm_compute; reflexivity).
  split; [reflexivity |]. split; [exact Hok |]. split; [exact Hrows |].
  split; [exact Hnn |].
  refine (duplicate_key_id_is_reported example_tables example_LuciaError
            alice_key alice_key [alice_key] (world_of db_with_alice [])
            eq_refl Hok Hrows _ eq_refl Hnn).
  left.
Defined.

(** A key for a user that is not stored. *)
Lemma unknown_user_is_reported_witness :
  let w := world_of db_with_alice [] in
  calm 1 (faults w) = true
  /\ db_ok example_tables (db w) = true
  /\ is_null (col "id" orphan_key) = false
  /\ is_null (col "user_id" orphan_key) = false
  /\ db w !! key example_tables = Some [alice_key]
  /\ (setKey example_tables example_LuciaError orphan_key w).1
     = Throw (example_LuciaError "AUTH_INVALID_USER_ID")
  /\ db (setKey example_tables example_LuciaError orphan_key w).2 = db w.
Proof.
  cbv zeta.
  assert (db_ok example_tables (db (world_of db_with_alice [])) = true) as Hok
    by (vm_compute; reflexivity).
  assert (db (world_of db_with_alice []) !! key example_tables = Some [alice_key])
    as Hrows by (vm_compute; reflexivity).
  assert (is_null (col "id" orphan_key) = false) as Hid by (vm_compute; reflexivity).
  assert (is_null (col "user_id" orphan_key) = false) as Huid
    by (vm_compute; reflexivity).
  split; [reflexivity |]. split; [exact Hok |]. split; [exact Hid |].
  split; [exact Huid |]. split; [exact Hrows |].
  refine (proj1 (unknown_user_is_reported example_tables example_LuciaError
                   orphan_key (world_of db_with_alice []) eq_refl Hok
                   example_user_table_apart Hid Huid _) [alice_key] Hrows _).
  - refine (bool_decide_unpack _ _). vm_compute. exact I.
  - apply no_row_with_id. vm_compute. reflexivity.
Defined.

(** Alice a second time, without a key and with one. *)
Lemma duplicate_user_id_is_reported_witness :
  let w := world_of db_with_alice [] in
  calm 5 (faults w) = true
  /\ db_ok example_tables (db w) = true
  /\ db w !! user example_tables = Some [alice]
  /\ (setUser example_tables example_LuciaError alice None w).1
     = Throw (pg_error "23505" "Key (id)=(u1) already exists.")
  /\ (setUser example_tables example_LuciaError alice (Some other_key) w).1
     = Throw (example_LuciaError "AUTH_DUPLICATE_KEY_ID").
Proof.
  cbv zeta.
  assert (db_ok example_tables (db (world_of db_with_alice [])) = true) as Hok
    by (vm_compute; reflexivity).
  assert (db (world_of db_with_alice []) !! user example_tables = Some [alice])
    as Hrows by (vm_compute; reflexivity).
  assert (alice ∈ [alice]) as Hin by left.
  pose proof (duplicate_user_id_is_reported example_tables example_LuciaError
                alice alice [alice] (world_of db_with_alice [])
                eq_refl Hok example_user_table_apart Hrows Hin eq_refl) as H.
  split; [reflexivity |]. split; [exact Hok |]. split; [exact Hrows |].
  split; [exact (proj1 (proj1 H)) | exact (proj1 (proj2 H other_key))].
Defined.

(** A user without fields. *)
Lemma empty_objects_are_refused_witness :
  let w := world_of empty_db [] in
  calm 1 (faults w) = true
  /\ db w !! user example_tables = Some []
  /\ (setUser example_tables example_LuciaError ∅ None w).1 = Throw syntax_error
  /\ (updateUser example_tables (SqlText "u1") ∅ w).1 = Throw syntax_error.
Proof.
  cbv zeta.
  assert (db (world_of empty_db []) !! user example_tables = Some []) as Hrows
    by (vm_compute; reflexivity).
  pose proof (proj1 (empty_objects_are_refused example_tables example_LuciaError
                       (SqlText "u1") (world_of empty_db []) eq_refl)
                (ex_intro _ [] Hrows)) as H.
  split; [reflexivity |]. split; [exact Hrows |].
  split; [exact (proj1 H) | exact (proj1 (proj2 H))].
Defined.

(** Renaming a user that is not stored. *)
Lemma updating_nothing_succeeds_witness :
  let w := world_of db_with_alice [] in
  calm 1 (faults w) = true
  /\ db_ok example_tables (db w) = true
  /\ db w !! user example_tables = Some [alice]
  /\ (updateUser example_tables (SqlText "u9") new_name w).1 = Ok tt
  /\ db (updateUser example_tables (SqlText "u9") new_name w).2 = db w.
Proof.
  cbv zeta.
  assert (db_ok example_tables (db (world_of db_with_alice [])) = true) as Hok
    by (vm_compute; reflexivity).
  assert (db (world_of db_with_alice []) !! user example_tables = Some [alice])
    as Hrows by (vm_compute; reflexivity).
  split; [reflexivity |]. split; [exact Hok |]. split; [exact Hrows |].
  refine (proj1 (updating_nothing_succeeds example_tables (SqlText "u9") new_name
                   (world_of db_with_alice []) eq_refl Hok _) [alice] Hrows _).
  - intros Hempty. apply (f_equal (fun m : row => m !! "name")) in Hempty.
    vm_compute in Hempty. discriminate.
  - apply no_row_with_id. vm_compute. reflexivity.
Defined.

(** Bob, and then a key for alice. *)
Lemma valid_inserts_are_stored_witness :
  let w := world_of db_with_alice [] in
  calm 1 (faults w) = true
  /\ db_ok example_tables (db w) = true
  /\ is_null (col "id" bob) = false
  /\ db w !! user example_tables = Some [alice]
  /\ (setUser example_tables example_LuciaError bob None w).1 = Ok tt
  /\ db (setUser example_tables example_LuciaError bob None w).2
     = <[user example_tables := [alice] ++ [bob]]> (db w).
Proof.
  cbv zeta.
  assert (db_ok example_tables (db (world_of db_with_alice [])) = true) as Hok
    by (vm_compute; reflexivity).
  assert (db (world_of db_with_alice []) !! user example_tables = Some [alice])
    as Hrows by (vm_compute; reflexivity).
  assert (is_null (col "id" bob) = false) as Hid by (vm_compute; reflexivity).
  split; [reflexivity |]. split; [exact Hok |]. split; [exact Hid |].
  split; [exact Hrows |].
  refine (proj1 (valid_inserts_are_stored example_tables example_LuciaError bob
                   (world_of db_with_alice []) eq_refl Hok Hid)
            [alice] example_user_table_apart Hrows _).
  apply no_row_with_id. vm_compute. reflexivity.
Defined.

(** Bob and his key, in one transaction. *)
Lemma new_user_with_key_is_stored_witness :
  let w := world_of db_with_alice [] in
  calm 5 (faults w) = true
  /\ db_ok example_tables (db w) = true
  /\ db w !! user example_tables = Some [alice]
  /\ db w !! key example_tables = Some [alice_key]
  /\ col "user_id" bob_key = col "id" bob
  /\ (setUser example_tables example_LuciaError bob (Some bob_key) w).1 = Ok tt
  /\ db (setUser example_tables example_LuciaError bob (Some bob_key) w).2
     = <[key example_tables := [alice_key] ++ [bob_key]]>
         (<[user example_tables := [alice] ++ [bob]]> (db w)).
Proof.
  cbv zeta.
  assert (db_ok example_tables (db (world_of db_with_alice [])) = true) as Hok
    by (vm_compute; reflexivity).
  assert (db (world_of db_with_alice []) !! user example_tables = Some [alice])
    as Husers by (vm_compute; reflexivity).
  assert (db (world_of db_with_alice []) !! key example_tables = Some [alice_key])
    as Hkeys by (vm_compute; reflexivity).
  assert (col "user_id" bob_key = col "id" bob) as Hfk by (vm_compute; reflexivity).
  split; [reflexivity |]. split; [exact Hok |]. split; [exact Husers |].
  split; [exact Hkeys |]. split; [exact Hfk |].
  refine (new_user_with_key_is_stored example_tables example_LuciaError
            bob bob_key [alice] [alice_key] (world_of db_with_alice [])
            eq_refl Hok example_user_table_apart Husers Hkeys _ _ _ _ Hfk).
  - vm_compute. reflexivity.
  - apply no_row_with_id. vm_compute. reflexivity.
  - vm_compute. reflexivity.
  - apply no_row_with_id. vm_compute. reflexivity.
Defined.

(** Five calls, two of them with a failure injected. *)
Lemma calls_keep_the_world_sound_witness :
  let w := world_of db_with_alice [None; Some (Error "socket hang up")] in
  let calls := [SetUser bob (Some bob_key); SetKey orphan_key;
                DeleteUser (SqlText "u1"); UpdateUser (SqlText "u1") new_name;
                GetSessionAndUser (SqlText "s1")] in
  world_ok example_tables w
  /\ tx w = None
  /\ world_ok example_tables
       (perform_all example_tables example_LuciaError keep_row calls w)
  /\ conns (perform_all example_tables example_LuciaError keep_row calls w) = conns w.
Proof.
  cbv zeta.
  assert (world_ok example_tables
            (world_of db_with_alice [None; Some (Error "socket hang up")])) as Hok.
  { split; [vm_compute; reflexivity |]. intros d Hd. discriminate Hd. }
  pose proof (calls_keep_the_world_sound example_tables example_LuciaError keep_row
                [SetUser bob (Some bob_key); SetKey orphan_key;
                 DeleteUser (SqlText "u1"); UpdateUser (SqlText "u1") new_name;
                 GetSessionAndUser (SqlText "s1")]
                (world_of db_with_alice [None; Some (Error "socket hang up")])
                Hok eq_refl) as H.
  split; [exact Hok |]. split; [reflexivity |].
  split; [exact (proj1 H) | exact (proj1 (proj2 H))].
Defined.

(** The session of alice, looked up alone and together with alice. *)
Lemma joined_lookup_agrees_with_lookups_witness :
  let w := world_of db_with_alice [] in
  calm 2 (faults w) = true
  /\ db_ok example_tables (db w) = true
  /\ exists u,
       (getSession example_tables keep_row (SqlText "s1") w).1
       = Ok (Some (keep_row alice_session))
       /\ (getUser example_tables (col "user_id" alice_session) w).1 = Ok (Some u)
       /\ (getSessionAndUser example_tables keep_row (SqlText "s1") w).1
          = Ok (Some (keep_row alice_session), Some (delete "__session_id" u)).
Proof.
  cbv zeta.
  assert (db_ok example_tables (db (world_of db_with_alice [])) = true) as Hok
    by (vm_compute; reflexivity).
  split; [reflexivity |]. split; [exact Hok |].
  exact (joined_lookup_agrees_with_lookups example_tables keep_row (SqlText "s1")
           (world_of db_with_alice []) (Escaped "user_session")
           [alice_session] [alice] eq_refl Hok eq_refl eq_refl eq_refl).
Defined.

(** Alice renamed, and read back. *)
Lemma updated_rows_are_read_back_witness :
  let w0 := world_of db_with_alice [] in
  let w := (updateUser example_tables (SqlText "u1") new_name w0).2 in
  calm 1 (faults w) = true
  /\ new_name !! "id" = None
  /\ updateUser example_tables (SqlText "u1") new_name w0 = (Ok tt, w)
  /\ (getUser example_tables (SqlText "u1") w).1 = Ok (Some (new_name ∪ alice)).
Proof.
  cbv zeta.
  assert (calm 1 (faults (updateUser example_tables (SqlText "u1") new_name
                            (world_of db_with_alice [])).2) = true) as Hcalm
    by (vm_compute; reflexivity).
  assert (new_name !! "id" = None) as Hid by (vm_compute; reflexivity).
  assert (updateUser example_tables (SqlText "u1") new_name (world_of db_with_alice [])
          = (Ok tt, (updateUser example_tables (SqlText "u1") new_name
                       (world_of db_with_alice [])).2)) as Hupd
    by (vm_compute; reflexivity).
  assert (db (world_of db_with_alice []) !! user example_tables = Some [alice])
    as Hrows by (vm_compute; reflexivity).
  split; [exact Hcalm |]. split; [exact Hid |]. split; [exact Hupd |].
  refine (proj1 (updated_rows_are_read_back example_tables keep_row (SqlText "u1")
                   new_name _ Hcalm Hid) _ [alice] alice Hupd Hrows _ eq_refl).
  left.
Defined.

